(** * IntuneCD backup modules: a shallow embedding

    The four modules under [src/IntuneCD/backup/Intune] (AppConfiguration,
    DeviceCompliance, GroupPolicyConfigurations, Roles) are embedded as
    functions over a JSON value type.  Python's dynamic behaviour (truthiness,
    [dict.get], subscripting, iteration, hashing of keys, exceptions) is
    written out in [Module Py]; the collaborators of the absent base class
    ([make_graph_request], [batch_request], [process_data], [remove_keys],
    [decode_base64]) are fields of an environment record, and every call to
    the transport, to the persistence and to [log] is recorded as an event. *)

From Stdlib Require Import List String Ascii ZArith Bool Lia Permutation.
Import ListNotations.
Local Open Scope string_scope.
Local Open Scope list_scope.
Local Set Warnings "-register-all".

(** ** JSON values *)

(** Parsed JSON as Python holds it.  A [dict] keeps insertion order, so it is
    an association list (keys of a parsed JSON object are strings).  Numbers
    are integers; no property below inspects a fractional number. *)
Inductive json : Type :=
| JNull : json
| JBool (b : bool) : json
| JNum (z : Z) : json
| JStr (s : string) : json
| JList (l : list json) : json
| JDict (kvs : list (string * json)) : json.

(** Python exceptions the modelled code can raise, and the transport errors
    of the collaborators. *)
Inductive exn : Type :=
| KeyError (k : json)
| IndexError
| TypeError
| AttributeError
| ValueError
| External (msg : string).

(** Outcome of an expression that may raise. *)
Inductive res (A : Type) : Type :=
| Ret (a : A)
| Exc (e : exn).
Arguments Ret {A} a.
Arguments Exc {A} e.

Definition rbind {A B} (m : res A) (f : A -> res B) : res B :=
  match m with
  | Ret a => f a
  | Exc e => Exc e
  end.

Declare Scope res_scope.
Delimit Scope res_scope with res.
Notation "x <- m ;; k" := (rbind m (fun x => k))
  (at level 61, m at next level, right associativity) : res_scope.
Notation "m ;;; k" := (rbind m (fun _ => k))
  (at level 61, right associativity) : res_scope.

Fixpoint rmapM {A B} (f : A -> res B) (l : list A) : res (list B) :=
  match l with
  | [] => Ret []
  | x :: xs =>
      (y <- f x ;; ys <- rmapM f xs ;; Ret (y :: ys))%res
  end.

Fixpoint rfoldM {A S} (f : S -> A -> res S) (s : S) (l : list A) : res S :=
  match l with
  | [] => Ret s
  | x :: xs => (s' <- f s x ;; rfoldM f s' xs)%res
  end.

(** ** Python strings *)

Module PyStr.

Fixpoint starts_with (p s : string) : bool :=
  match p, s with
  | EmptyString, _ => true
  | String a p', String b s' => Ascii.eqb a b && starts_with p' s'
  | String _ _, EmptyString => false
  end.

(** [sub in s] for strings. *)
Fixpoint contains (sub s : string) : bool :=
  starts_with sub s ||
  match s with
  | EmptyString => false
  | String _ s' => contains sub s'
  end.

Fixpoint rev_string (acc s : string) : string :=
  match s with
  | EmptyString => acc
  | String c s' => rev_string (String c acc) s'
  end.

(** [s.split(sep)] for a non-empty separator: left to right, matches do not
    overlap.  [skip] counts the characters of a matched separator still to
    be dropped, [cur] is the current segment, reversed. *)
Fixpoint split_go (sep s : string) (skip : nat) (cur : string) : list string :=
  match s with
  | EmptyString => [rev_string EmptyString cur]
  | String c s' =>
      match skip with
      | S k => split_go sep s' k cur
      | O =>
          if starts_with sep s
          then rev_string EmptyString cur
               :: split_go sep s' (String.length sep - 1) EmptyString
          else split_go sep s' 0 (String c cur)
      end
  end.

Definition split (sep s : string) : list string := split_go sep s 0 EmptyString.

Definition chars (s : string) : list string :=
  List.map (fun c => String c EmptyString) (list_ascii_of_string s).

End PyStr.

(** ** Python operations on JSON values *)

Module Py.

(** [bool(v)] *)
Definition truthy (v : json) : bool :=
  match v with
  | JNull => false
  | JBool b => b
  | JNum z => negb (Z.eqb z 0)
  | JStr s => negb (String.eqb s "")
  | JList l => match l with [] => false | _ => true end
  | JDict kvs => match kvs with [] => false | _ => true end
  end.

(** *** Insertion-ordered dictionaries with string keys *)

Fixpoint dict_get (k : string) (kvs : list (string * json)) : option json :=
  match kvs with
  | [] => None
  | (k', v) :: rest => if String.eqb k k' then Some v else dict_get k rest
  end.

(** [d[k] = v]: an existing key keeps its position, a new key goes last. *)
Fixpoint dict_set (k : string) (v : json) (kvs : list (string * json))
  : list (string * json) :=
  match kvs with
  | [] => [(k, v)]
  | (k', v') :: rest =>
      if String.eqb k k' then (k', v) :: rest
      else (k', v') :: dict_set k v rest
  end.

Fixpoint dict_remove (k : string) (kvs : list (string * json))
  : list (string * json) :=
  match kvs with
  | [] => []
  | (k', v') :: rest =>
      if String.eqb k k' then rest else (k', v') :: dict_remove k rest
  end.

(** [l[z]] on a sequence, negative indices counting from the end. *)
Definition list_index {A} (l : list A) (z : Z) : res A :=
  let n := Z.of_nat (List.length l) in
  let i := if Z.ltb z 0 then (z + n)%Z else z in
  if Z.ltb i 0 || Z.leb n i then Exc IndexError
  else match nth_error l (Z.to_nat i) with
       | Some x => Ret x
       | None => Exc IndexError
       end.

(** [d.get(k)]; [None] of the option is Python's [None] for a missing key. *)
Definition get (d : json) (k : string) : res (option json) :=
  match d with
  | JDict kvs => Ret (dict_get k kvs)
  | _ => Exc AttributeError
  end.

(** [d.get(k, default)] *)
Definition get_or (d : json) (k : string) (default : json) : res json :=
  (o <- get d k ;; Ret (match o with Some v => v | None => default end))%res.

(** [d.get(k)] as a value: a missing key gives [None]. *)
Definition get_none (d : json) (k : string) : res json := get_or d k JNull.

(** [d[k]] with a string key. *)
Definition getitem (d : json) (k : string) : res json :=
  match d with
  | JDict kvs =>
      match dict_get k kvs with
      | Some v => Ret v
      | None => Exc (KeyError (JStr k))
      end
  | _ => Exc TypeError
  end.

(** [d[z]] with an integer key. *)
Definition getitem_int (d : json) (z : Z) : res json :=
  match d with
  | JList l => list_index l z
  | JStr s => (c <- list_index (PyStr.chars s) z ;; Ret (JStr c))%res
  | JDict _ => Exc (KeyError (JNum z))
  | _ => Exc TypeError
  end.

(** [d[k] = v] with a string key. *)
Definition setitem (d : json) (k : string) (v : json) : res json :=
  match d with
  | JDict kvs => Ret (JDict (dict_set k v kvs))
  | _ => Exc TypeError
  end.

(** [d.pop(k)] with a string key; the state of [d] afterwards. *)
Definition pop (d : json) (k : string) : res json :=
  match d with
  | JDict kvs =>
      match dict_get k kvs with
      | Some _ => Ret (JDict (dict_remove k kvs))
      | None => Exc (KeyError (JStr k))
      end
  | JList _ => Exc TypeError
  | _ => Exc AttributeError
  end.

(** [d.pop(k, None)]; the state of [d] afterwards. *)
Definition pop_default (d : json) (k : string) : res json :=
  match d with
  | JDict kvs => Ret (JDict (dict_remove k kvs))
  | JList _ => Exc TypeError
  | _ => Exc AttributeError
  end.

(** [for x in v]: the elements a loop over [v] visits. *)
Definition iter (v : json) : res (list json) :=
  match v with
  | JList l => Ret l
  | JDict kvs => Ret (List.map (fun kv => JStr (fst kv)) kvs)
  | JStr s => Ret (List.map JStr (PyStr.chars s))
  | _ => Exc TypeError
  end.

(** [v == s] for a string literal [s]. *)
Definition eq_str (v : json) (s : string) : bool :=
  match v with
  | JStr t => String.eqb t s
  | _ => false
  end.

(** *** Hashable keys, sets and maps built by the modules *)

Definition hashable (v : json) : bool :=
  match v with
  | JList _ | JDict _ => false
  | _ => true
  end.

Definition key_num (v : json) : option Z :=
  match v with
  | JBool b => Some (if b then 1%Z else 0%Z)
  | JNum z => Some z
  | _ => None
  end.

(** [a == b] on hashable values ([True == 1] in Python). *)
Definition key_eqb (a b : json) : bool :=
  match a, b with
  | JNull, JNull => true
  | JStr s, JStr t => String.eqb s t
  | _, _ =>
      match key_num a, key_num b with
      | Some x, Some y => Z.eqb x y
      | _, _ => false
      end
  end.

(** A [set()]: the elements in insertion order, without duplicates.  The
    order in which Python iterates a set is fixed by the environment
    ([set_order] below). *)
Definition pyset := list json.

Definition set_mem (x : json) (s : pyset) : bool := existsb (key_eqb x) s.

(** [s.add(x)] *)
Definition set_add (s : pyset) (x : json) : res pyset :=
  if hashable x then Ret (if set_mem x s then s else s ++ [x])
  else Exc TypeError.

(** [s.update(v)] for an iterable [v]. *)
Definition set_update (s : pyset) (v : json) : res pyset :=
  (xs <- iter v ;; rfoldM set_add s xs)%res.

(** A [dict] built by a module, keyed by hashable values, in insertion
    order. *)
Definition pymap (V : Type) := list (json * V).

Fixpoint map_find {V} (k : json) (m : pymap V) : option V :=
  match m with
  | [] => None
  | (k', v) :: rest => if key_eqb k k' then Some v else map_find k rest
  end.

(** [m.get(k)] *)
Definition map_get {V} (m : pymap V) (k : json) : res (option V) :=
  if hashable k then Ret (map_find k m) else Exc TypeError.

Fixpoint map_put {V} (k : json) (v : V) (m : pymap V) : pymap V :=
  match m with
  | [] => [(k, v)]
  | (k', v') :: rest =>
      if key_eqb k k' then (k', v) :: rest else (k', v') :: map_put k v rest
  end.

(** [m[k] = v] *)
Definition map_set {V} (m : pymap V) (k : json) (v : V) : res (pymap V) :=
  if hashable k then Ret (map_put k v m) else Exc TypeError.

End Py.

(** ** Collaborators and effects *)

(** What a module does to the outside world, in order. *)
Inductive event : Type :=
| EvRequest (endpoint : string) (params : list (string * string))
| EvBatch (data : list json) (url extra_url method : string)
| EvLog (tag msg : string) (cause : exn)
| EvPersist (data : json) (path name_key log_message : string).

(** The base class and the Python runtime, as far as the modules use them.
    Every call site passes the constant
    [audit_compare_info = {"type": "resourceId", "value_key": "id"}] to
    [process_data]; it is the last argument. *)
Record Env : Type := {
  endpoint : string;
  path : string;
  filetype : string;
  exclude : list string;
  make_graph_request : string -> list (string * string) -> res json;
  batch_request : list json -> string -> string -> string -> res (list json);
  process_data : json -> string -> string -> string -> string -> json -> res json;
  (** state of the argument after [remove_keys(x)] *)
  remove_keys : json -> res json;
  decode_base64 : json -> res json;
  json_loads : json -> res json;
  (** [str(v)] of a value that is not a string, as an f-string renders it *)
  py_repr : json -> string;
  (** [int(s)] of a string *)
  py_int : string -> res Z;
  (** the order in which a [set] with these elements is iterated *)
  set_order : list json -> list json
}.

Definition audit_compare_info : json :=
  JDict [("type", JStr "resourceId"); ("value_key", JStr "id")].

(** A computation: the events it emits, then its outcome.  The collaborators
    are functions of their arguments: the tenant does not change during a
    run, so a call repeated with the same arguments gets the same answer. *)
Definition M (A : Type) : Type := (list event * res A)%type.

Definition mret {A} (a : A) : M A := ([], Ret a).

Definition mbind {A B} (m : M A) (f : A -> M B) : M B :=
  match m with
  | (t, Ret a) => let (t', r) := f a in (t ++ t', r)
  | (t, Exc e) => (t, Exc e)
  end.

Definition lift {A} (r : res A) : M A := ([], r).

Definition events {A} (m : M A) : list event := fst m.
Definition outcome {A} (m : M A) : res A := snd m.

(** [try: x = m  except Exception as e: return h(e)], followed by [k x]. *)
Definition try_or_return {A B} (m : M A) (h : exn -> M B) (k : A -> M B) : M B :=
  match m with
  | (t, Ret a) => let (t', r) := k a in (t ++ t', r)
  | (t, Exc e) => let (t', r) := h e in (t ++ t', r)
  end.

Declare Scope m_scope.
Delimit Scope m_scope with M.
Notation "x <- m ;; k" := (mbind m (fun x => k))
  (at level 61, m at next level, right associativity) : m_scope.
Notation "m ;;; k" := (mbind m (fun _ => k))
  (at level 61, right associativity) : m_scope.

Fixpoint mfoldM {A S} (f : S -> A -> M S) (s : S) (l : list A) : M S :=
  match l with
  | [] => mret s
  | x :: xs => (s' <- f s x ;; mfoldM f s' xs)%M
  end.

Fixpoint mmapM {A B} (f : A -> M B) (l : list A) : M (list B) :=
  match l with
  | [] => mret []
  | x :: xs => (y <- f x ;; ys <- mmapM f xs ;; mret (y :: ys))%M
  end.

Definition is_batch (ev : event) : bool :=
  match ev with EvBatch _ _ _ _ => true | _ => false end.

Definition is_log (ev : event) : bool :=
  match ev with EvLog _ _ _ => true | _ => false end.

Definition is_persist (ev : event) : bool :=
  match ev with EvPersist _ _ _ _ => true | _ => false end.

(** The item lists of the batch calls sent to [url], in order. *)
Fixpoint batch_calls (url : string) (t : list event) : list (list json) :=
  match t with
  | [] => []
  | EvBatch data u _ _ :: rest =>
      if String.eqb u url then data :: batch_calls url rest
      else batch_calls url rest
  | _ :: rest => batch_calls url rest
  end.

(** The data handed to [process_data], in order. *)
Fixpoint persisted (t : list event) : list json :=
  match t with
  | [] => []
  | EvPersist data _ _ _ :: rest => data :: persisted rest
  | _ :: rest => persisted rest
  end.

Section Common.

Variable env : Env.

Definition request (ep : string) (params : list (string * string)) : M json :=
  ([EvRequest ep params], make_graph_request env ep params).

Definition batch (data : list json) (url extra_url method : string)
  : M (list json) :=
  ([EvBatch data url extra_url method], batch_request env data url extra_url method).

Definition log (tag msg : string) (cause : exn) : M unit :=
  ([EvLog tag msg cause], Ret tt).

Definition persist (data : json) (name_key log_message : string) : M json :=
  ([EvPersist data (path env) name_key log_message],
   process_data env data (filetype env) (path env) name_key log_message
     audit_compare_info).

(** [str(v)] inside an f-string. *)
Definition py_str (v : json) : string :=
  match v with
  | JStr s => s
  | _ => py_repr env v
  end.

(** [{"id": x}] *)
Definition id_item (x : json) : json := JDict [("id", x)].

(** A call [f(x)] that mutates [x] in place: only a list or a dict can
    change. *)
Definition in_place (f : json -> res json) (x : json) : res json :=
  match x with
  | JList _ | JDict _ => f x
  | _ => (_ <- f x ;; Ret x)%res
  end.

(** [for x in v: body(x)] where [body] mutates [x] in place: the state of
    [v] afterwards.  Keys of a dict and characters of a string are visited
    but cannot change. *)
Definition for_each (v : json) (body : json -> res json) : res json :=
  match v with
  | JList l => (l' <- rmapM body l ;; Ret (JList l'))%res
  | _ => (xs <- Py.iter v ;; _ <- rmapM body xs ;; Ret v)%res
  end.

(** The list object [v] after its elements were brought to [items]; a
    value that is not a list has no elements that can change. *)
Definition rebuild (v : json) (items : list json) : json :=
  match v with
  | JList _ => JList items
  | _ => v
  end.

(** [x in v] for a string literal [x]. *)
Definition str_in (x : string) (v : json) : res bool :=
  match v with
  | JStr s => Ret (PyStr.contains x s)
  | JList l => Ret (existsb (fun y => Py.eq_str y x) l)
  | JDict kvs => Ret (existsb (fun kv => String.eqb (fst kv) x) kvs)
  | _ => Exc TypeError
  end.

(** [v.split(sep)] *)
Definition str_split (v : json) (sep : string) : res (list string) :=
  match v with
  | JStr s => Ret (PyStr.split sep s)
  | _ => Exc AttributeError
  end.

(** The correlation step shared by DeviceCompliance (line 180),
    GroupPolicyConfigurations (line 64) and Roles (line 91):
    [response.get("id", "").split("/")[-2] if "/" in response.get("id", "") else None] *)
Definition correlation_key (response : json) : res json :=
  (id <- Py.get_or response "id" (JStr "") ;;
   has <- str_in "/" id ;;
   if has : bool then
     (segs <- str_split id "/" ;;
      seg <- Py.list_index segs (-2) ;;
      Ret (JStr seg))
   else Ret JNull)%res.

(** [response.get("body") and response["body"].get("value")], as a truth
    value. *)
Definition has_body_value (response : json) : res bool :=
  (body <- Py.get_none response "body" ;;
   if Py.truthy body then
     (v <- Py.get_none body "value" ;; Ret (Py.truthy v))
   else Ret false)%res.

(** One turn of the loop that builds a [policy_id -> body.value] map
    (Roles lines 89-93, GroupPolicyConfigurations lines 61-66). *)
Definition correlate_step (m : Py.pymap json) (response : json)
  : res (Py.pymap json) :=
  (ok <- has_body_value response ;;
   if ok : bool then
     (key <- correlation_key response ;;
      if Py.truthy key then
        (body <- Py.getitem response "body" ;;
         v <- Py.getitem body "value" ;;
         Py.map_set m key v)
      else Ret m)
   else Ret m)%res.

End Common.

(** ** DeviceCompliance.py *)

Module DeviceCompliance.

Definition CONFIG_ENDPOINT := "/beta/deviceManagement/compliancePolicies".
Definition LOG_MESSAGE := "Backing up Compliance: ".
Definition SENTINEL := "linux_customcompliance_discoveryscript".
Definition ZERO_GUID := "00000000-0000-0000-0000-000000000000".
Definition TEMPLATES_URL := "/beta/deviceManagement/notificationMessageTemplates".

(** An element of a path: a dict key or a list index. *)
Inductive pelem : Type :=
| PKey (k : string)
| PIdx (i : nat).

(** [_check_linux_discovery_script] *)
Fixpoint _check_linux_discovery_script (data : json) : bool :=
  match data with
  | JDict kvs =>
      if existsb (fun kv => Py.eq_str (snd kv) SENTINEL) kvs then true
      else existsb (fun kv => _check_linux_discovery_script (snd kv)) kvs
  | JList l => existsb _check_linux_discovery_script l
  | _ => false
  end.

(** [_get_detection_script_id]: [None] is Python's [None]. *)
Fixpoint _get_detection_script_id (data : json) (path : list pelem)
  : option (list pelem) :=
  match data with
  | JDict kvs =>
      (fix items (kvs : list (string * json)) : option (list pelem) :=
         match kvs with
         | [] => None
         | (k, v) :: rest =>
             match v with
             | JDict _ =>
                 match _get_detection_script_id v (path ++ [PKey k]) with
                 | Some new_path => Some new_path
                 | None => items rest
                 end
             | JList l =>
                 match
                   (fix elems (l : list json) (i : nat) : option (list pelem) :=
                      match l with
                      | [] => None
                      | item :: l' =>
                          match _get_detection_script_id item
                                  (path ++ [PKey k; PIdx i]) with
                          | Some new_path => Some new_path
                          | None => elems l' (S i)
                          end
                      end) l 0
                 with
                 | Some new_path => Some new_path
                 | None => items rest
                 end
             | _ => if Py.eq_str v SENTINEL then Some path else items rest
             end
         end) kvs
  | _ => None
  end.

Section WithEnv.

Variable env : Env.

(** [int(key)] *)
Definition int_of_pelem (key : pelem) : res Z :=
  match key with
  | PIdx i => Ret (Z.of_nat i)
  | PKey s => py_int env s
  end.

(** [data[key]] *)
Definition subscript (data : json) (key : pelem) : res json :=
  match key with
  | PKey s => Py.getitem data s
  | PIdx i => Py.getitem_int data (Z.of_nat i)
  end.

(** The loop of [_get_value_from_path]: [data] after following [path]. *)
Fixpoint follow_path (data : json) (path : list pelem) : res json :=
  match path with
  | [] => Ret data
  | key :: rest =>
      (next <- match data with
               | JList _ => (i <- int_of_pelem key ;; Py.getitem_int data i)
               | _ => subscript data key
               end ;;
       follow_path next rest)%res
  end.

(** [_get_value_from_path] *)
Definition _get_value_from_path (data : json) (path : list pelem) : res json :=
  (d <- follow_path data path ;;
   s <- Py.getitem d "simpleSettingValue" ;;
   Py.getitem s "value")%res.

(** Lines 104-116: one turn of the loop of [_get_notification_template];
    the state of [action] afterwards.  The right operand of [+] must be a
    string. *)
Definition notify_action (action : json) : M json :=
  (template_id <- lift (Py.get_none action "notificationTemplateId") ;;
   if negb (Py.eq_str template_id ZERO_GUID) then
     (id <- lift (Py.getitem action "notificationTemplateId") ;;
      suffix <- lift (match id with
                      | JStr s => Ret s
                      | _ => Exc TypeError
                      end) ;;
      notification_template <-
        request env
          (endpoint env ++ "/beta/deviceManagement/notificationMessageTemplates/"
             ++ suffix)%string [] ;;
      if Py.truthy notification_template then
        lift (name <- Py.getitem notification_template "displayName" ;;
              Py.setitem action "notificationTemplateName" name)%res
      else mret action)
   else mret action)%M.

(** [_get_notification_template]: the state of [rule] afterwards ([main]
    does not call it). *)
Definition _get_notification_template (rule : json) : M json :=
  (actions <- lift (Py.getitem rule "scheduledActionConfigurations") ;;
   match actions with
   | JList l =>
       (l' <- mmapM notify_action l ;;
        lift (Py.setitem rule "scheduledActionConfigurations" (JList l')))
   | _ =>
       (xs <- lift (Py.iter actions) ;;
        _ <- mmapM notify_action xs ;;
        mret rule)
   end)%M.

(** Lines 143-154: one turn of the loop that collects the detection
    script ids and the [{"id": ...}] items of the scheduled-actions
    batch. *)
Definition collect_step (st : Py.pyset * list json) (item : json)
  : res (Py.pyset * list json) :=
  let (detection_script_ids, scheduled_actions_ids) := st in
  (ids <- (if _check_linux_discovery_script item then
             match _get_detection_script_id item [] with
             | Some p =>
                 (id <- _get_value_from_path item p ;;
                  Py.set_add detection_script_ids id)
             | None => Ret detection_script_ids
             end
           else Ret detection_script_ids) ;;
   id <- Py.getitem item "id" ;;
   Ret (ids, scheduled_actions_ids ++ [id_item id]))%res.

(** Lines 159-166: one request per distinct script id. *)
Definition fetch_script (m : Py.pymap json) (script_id : json)
  : M (Py.pymap json) :=
  (detection_script <-
     request env
       (endpoint env ++ "/beta/deviceManagement/reusablePolicySettings/")%string
       [("$filter", ("id eq '" ++ py_str env script_id ++ "'")%string)] ;;
   lift (v <- Py.get_none detection_script "value" ;;
         if Py.truthy v then
           (first <- Py.getitem_int v 0 ;;
            name <- Py.getitem first "displayName" ;;
            Py.map_set m script_id name)
         else Ret m)%res)%M.

Definition fetch_scripts (detection_script_ids : Py.pyset) : M (Py.pymap json) :=
  match detection_script_ids with
  | [] => mret []
  | _ => mfoldM fetch_script [] (set_order env detection_script_ids)
  end.

(** Lines 185-188 *)
Definition harvest_config (ids : Py.pyset) (config : json) : res Py.pyset :=
  (template_id <- Py.get_none config "notificationTemplateId" ;;
   if Py.truthy template_id && negb (Py.eq_str template_id ZERO_GUID)
   then Py.set_add ids template_id
   else Ret ids)%res.

(** Lines 184-188 *)
Definition harvest_action (ids : Py.pyset) (action : json) : res Py.pyset :=
  (configs <- Py.get_or action "scheduledActionConfigurations" (JList []) ;;
   cs <- Py.iter configs ;;
   rfoldM harvest_config ids cs)%res.

(** Lines 177-188: one turn of the loop over the scheduled-actions
    responses. *)
Definition scheduled_step (st : Py.pymap json * Py.pyset) (response : json)
  : res (Py.pymap json * Py.pyset) :=
  let (scheduled_actions_map, notification_template_ids) := st in
  (ok <- has_body_value response ;;
   if ok : bool then
     (policy_id <- correlation_key response ;;
      if Py.truthy policy_id then
        (body <- Py.getitem response "body" ;;
         v <- Py.getitem body "value" ;;
         m' <- Py.map_set scheduled_actions_map policy_id v ;;
         actions <- Py.iter v ;;
         ids' <- rfoldM harvest_action notification_template_ids actions ;;
         Ret (m', ids'))
      else Ret st)
   else Ret st)%res.

(** Lines 200-203 *)
Definition template_step (m : Py.pymap json) (response : json)
  : res (Py.pymap json) :=
  (template_data <- Py.get_none response "body" ;;
   if Py.truthy template_data then
     (name <- Py.getitem template_data "displayName" ;;
      id <- Py.getitem template_data "id" ;;
      Py.map_set m id name)
   else Ret m)%res.

(** Lines 191-203 *)
Definition fetch_templates (notification_template_ids : Py.pyset)
  : M (Py.pymap json) :=
  match notification_template_ids with
  | [] => mret []
  | _ =>
      (template_responses <-
         batch env (List.map id_item (set_order env notification_template_ids))
           TEMPLATES_URL "" "GET" ;;
       lift (rfoldM template_step [] template_responses))%M
  end.

Definition or_none (o : option json) : json :=
  match o with Some v => v | None => JNull end.

(** Lines 223-226 *)
Definition enrich_config (templates : Py.pymap json) (config : json)
  : res json :=
  (template_id <- Py.get_none config "notificationTemplateId" ;;
   config1 <- (if Py.truthy template_id
                  && negb (Py.eq_str template_id ZERO_GUID)
               then (name <- Py.map_get templates template_id ;;
                     Py.setitem config "notificationTemplateName" (or_none name))
               else Ret config) ;;
   in_place (remove_keys env) config1)%res.

(** Lines 221-226.  The default [[]] of [action.get] is a fresh list that
    nothing else holds. *)
Definition enrich_action (templates : Py.pymap json) (action : json)
  : res json :=
  (action1 <- in_place (remove_keys env) action ;;
   configs <- Py.get action1 "scheduledActionConfigurations" ;;
   match configs with
   | Some cs =>
       (cs' <- for_each cs (enrich_config templates) ;;
        Py.setitem action1 "scheduledActionConfigurations" cs')
   | None => Ret action1
   end)%res.

(** Lines 208-214 *)
Definition add_script_name (scripts : Py.pymap json) (item : json) : res json :=
  if _check_linux_discovery_script item then
    match _get_detection_script_id item [] with
    | Some p =>
        (id <- _get_value_from_path item p ;;
         name <- Py.map_get scripts id ;;
         Py.setitem item "detectionScriptName" (or_none name))%res
    | None => Ret item
    end
  else Ret item.

(** Lines 206-226: one turn of the final loop.  The value stored in
    [scheduled_actions_map] is the very list the record then holds, and
    two records with one id hold the same list, so the map is threaded as
    the store of these lists and a record keeps the key it reads them
    under. *)
Definition process_step (scripts templates : Py.pymap json)
    (st : Py.pymap json * list (json * option json)) (item : json)
  : res (Py.pymap json * list (json * option json)) :=
  let (store, done) := st in
  (item1 <- add_script_name scripts item ;;
   id <- Py.getitem item1 "id" ;;
   found <- Py.map_get store id ;;
   match found with
   | Some actions =>
       (item2 <- Py.setitem item1 "scheduledActionsForRule" actions ;;
        actions' <- for_each actions (enrich_action templates) ;;
        Ret (Py.map_put id actions' store, done ++ [(item2, Some id)]))
   | None =>
       (item2 <- Py.setitem item1 "scheduledActionsForRule" (JList []) ;;
        Ret (store, done ++ [(item2, None)]))
   end)%res.

(** The record as it is when the loop has ended. *)
Definition resolve (store : Py.pymap json) (p : json * option json) : json :=
  match p with
  | (JDict kvs, Some id) =>
      match Py.map_find id store with
      | Some v => JDict (Py.dict_set "scheduledActionsForRule" v kvs)
      | None => JDict kvs
      end
  | (item, _) => item
  end.

(** What the first half of [main] leaves for the second: the records, the
    detection script names, the responses of the scheduled-actions batch,
    the scheduled actions per policy id and the notification template ids
    found in them. *)
Record gathered : Type := {
  g_value : json;
  g_items : list json;
  g_scripts : Py.pymap json;
  g_responses : list json;
  g_scheduled : Py.pymap json;
  g_template_ids : Py.pyset
}.

(** Lines 138-188: the collection loop, the detection script lookups, the
    scheduled-actions batch and the harvest of its responses. *)
Definition gather (graph_data : json) : M gathered :=
  (value <- lift (Py.getitem graph_data "value") ;;
   items <- lift (Py.iter value) ;;
   collected <- lift (rfoldM collect_step ([], []) items) ;;
   let (detection_script_ids, scheduled_actions_ids) :=
     collected : Py.pyset * list json in
   detection_scripts_map <- fetch_scripts detection_script_ids ;;
   scheduled_actions_responses <-
     batch env scheduled_actions_ids CONFIG_ENDPOINT
       "/scheduledActionsForRule?$expand=scheduledActionConfigurations" "GET" ;;
   scheduled <- lift (rfoldM scheduled_step ([], []) scheduled_actions_responses) ;;
   let (scheduled_actions_map, notification_template_ids) :=
     scheduled : Py.pymap json * Py.pyset in
   mret {| g_value := value;
           g_items := items;
           g_scripts := detection_scripts_map;
           g_responses := scheduled_actions_responses;
           g_scheduled := scheduled_actions_map;
           g_template_ids := notification_template_ids |})%M.

(** Lines 190-226: the notification template batch and the final loop; the
    result is [graph_data["value"]] as handed on. *)
Definition finish (st : gathered) : M json :=
  (notification_templates_map <- fetch_templates (g_template_ids st) ;;
   final <- lift (rfoldM (process_step (g_scripts st) notification_templates_map)
                    (g_scheduled st, []) (g_items st)) ;;
   let (store, done) := final : Py.pymap json * list (json * option json) in
   mret (rebuild (g_value st) (List.map (resolve store) done)))%M.

(** Lines 138-226: everything between the primary fetch and
    [process_data]. *)
Definition enrich (graph_data : json) : M json :=
  (st <- gather graph_data ;; finish st)%M.

(** [main] *)
Definition main : M (option json) :=
  try_or_return
    (request env (endpoint env ++ CONFIG_ENDPOINT)%string
       [("$expand", "settings")])
    (fun e =>
       (log "error"
          ("Error getting Compliance Policy data from "
             ++ endpoint env ++ CONFIG_ENDPOINT ++ ": ")%string e ;;;
        mret None)%M)
    (fun graph_data =>
       (value <- enrich graph_data ;;
        try_or_return (persist env value "name" LOG_MESSAGE)
          (fun e =>
             (log "error" "Error processing Compliance Policy data: " e ;;;
              mret None)%M)
          (fun results => mret (Some results)))%M).

End WithEnv.

End DeviceCompliance.

(** ** AppConfiguration.py *)

Module AppConfiguration.

Definition CONFIG_ENDPOINT := "/beta/deviceAppManagement/mobileAppConfigurations".
Definition LOG_MESSAGE := "Backing up App Configuration: ".
Definition APP_ENDPOINT := "/beta/deviceAppManagement/mobileApps".

(** Lines 53-55: [for app in item["targetedMobileApps"]: app_ids.add(app)] *)
Definition collect_apps (app_ids : Py.pyset) (item : json) : res Py.pyset :=
  (apps <- Py.getitem item "targetedMobileApps" ;;
   Py.set_update app_ids apps)%res.

(** Lines 68-71 *)
Definition app_step (m : Py.pymap json) (response : json) : res (Py.pymap json) :=
  (app_data <- Py.get_none response "body" ;;
   if Py.truthy app_data then
     (id <- Py.getitem app_data "id" ;;
      Py.map_set m id app_data)
   else Ret m)%res.

(** Lines 77-84: the loop over the record's apps stops at the first one
    the map resolves. *)
Fixpoint first_resolved (m : Py.pymap json) (apps : list json)
  : res (option json) :=
  match apps with
  | [] => Ret None
  | app :: rest =>
      (app_data <- Py.map_get m app ;;
       match app_data with
       | Some d => if Py.truthy d then Ret (Some d) else first_resolved m rest
       | None => first_resolved m rest
       end)%res
  end.

(** Lines 75-84 *)
Definition enrich_apps (m : Py.pymap json) (item : json) : res json :=
  (t <- Py.get_none item "targetedMobileApps" ;;
   if Py.truthy t then
     (apps <- Py.iter t ;;
      found <- first_resolved m apps ;;
      match found with
      | Some app_data =>
          (item1 <- Py.pop item "targetedMobileApps" ;;
           name <- Py.getitem app_data "displayName" ;;
           ty <- Py.getitem app_data "@odata.type" ;;
           Py.setitem item1 "targetedMobileApps"
             (JDict [("appName", name); ("type", ty)]))
      | None => Ret item
      end)
   else Ret item)%res.

Section WithEnv.

Variable env : Env.

(** Lines 86-88 *)
Definition decode_payload (item : json) : res json :=
  (p <- Py.get_none item "payloadJson" ;;
   if Py.truthy p then
     (encoded <- Py.getitem item "payloadJson" ;;
      decoded <- decode_base64 env encoded ;;
      item1 <- Py.setitem item "payloadJson" decoded ;;
      text <- Py.getitem item1 "payloadJson" ;;
      parsed <- json_loads env text ;;
      Py.setitem item1 "payloadJson" parsed)
   else Ret item)%res.

(** Lines 74-88: the body of the final loop. *)
Definition process_item (m : Py.pymap json) (item : json) : res json :=
  (item1 <- enrich_apps m item ;; decode_payload item1)%res.

(** Lines 58-71 *)
Definition fetch_apps (app_ids : Py.pyset) : M (Py.pymap json) :=
  match app_ids with
  | [] => mret []
  | _ =>
      (app_responses <-
         batch env (List.map id_item (set_order env app_ids))
           APP_ENDPOINT "" "GET" ;;
       lift (rfoldM app_step [] app_responses))%M
  end.

(** Lines 50-88 *)
Definition enrich (graph_data : json) : M json :=
  (value <- lift (Py.getitem graph_data "value") ;;
   if Py.truthy value then
     (items <- lift (Py.iter value) ;;
      app_ids <- lift (rfoldM collect_apps [] items) ;;
      app_details_map <- fetch_apps app_ids ;;
      lift (for_each value (process_item app_details_map)))
   else mret value)%M.

(** [main] *)
Definition main : M (option json) :=
  try_or_return
    (request env (endpoint env ++ CONFIG_ENDPOINT)%string [])
    (fun e =>
       (log "error"
          ("Error getting App Configuration data from "
             ++ endpoint env ++ CONFIG_ENDPOINT ++ ": ")%string e ;;;
        mret None)%M)
    (fun graph_data =>
       (value <- enrich graph_data ;;
        try_or_return (persist env value "displayName" LOG_MESSAGE)
          (fun e =>
             (log "error" "Error processing App Configuration data: " e ;;;
              mret None)%M)
          (fun results => mret (Some results)))%M).

End WithEnv.

End AppConfiguration.

(** ** GroupPolicyConfigurations.py *)

Module GroupPolicyConfigurations.

Definition CONFIG_ENDPOINT := "/beta/deviceManagement/groupPolicyConfigurations".
Definition LOG_MESSAGE := "Backing up Device Configuration: ".

(** Lines 94-101: the presentation map is keyed by the part of the response
    id before ["/presentationValues"]. *)
Definition presentation_step (m : Py.pymap json) (response : json)
  : res (Py.pymap json) :=
  (ok <- has_body_value response ;;
   if ok : bool then
     (response_id <- Py.get_or response "id" (JStr "") ;;
      has <- str_in "/presentationValues" response_id ;;
      if has : bool then
        (segs <- str_split response_id "/presentationValues" ;;
         key <- Py.list_index segs 0 ;;
         body <- Py.getitem response "body" ;;
         v <- Py.getitem body "value" ;;
         Py.map_set m (JStr key) v)
      else Ret m)
   else Ret m)%res.

Section WithEnv.

Variable env : Env.

(** [f"{policy_id}/definitionValues/{definition['id']}"] *)
Definition presentation_key (policy_id definition : json) : res string :=
  (d <- Py.getitem definition "id" ;;
   Ret (py_str env policy_id ++ "/definitionValues/" ++ py_str env d)%string)%res.

(** [definitions_map.get(policy_id, [])] *)
Definition definitions_of (definitions_map : Py.pymap json) (policy_id : json)
  : res json :=
  (found <- Py.map_get definitions_map policy_id ;;
   Ret (match found with Some v => v | None => JList [] end))%res.

(** Lines 72-82: the requests one record adds.  [policy_definition_map]
    is written here and read nowhere; its keys are strings, so writing it
    cannot raise, and it is left out. *)
Definition presentation_requests_of (definitions_map : Py.pymap json)
    (requests : list json) (item : json) : res (list json) :=
  (policy_id <- Py.getitem item "id" ;;
   definitions <- definitions_of definitions_map policy_id ;;
   ds <- Py.iter definitions ;;
   rfoldM (fun acc definition =>
             (key <- presentation_key policy_id definition ;;
              Ret (acc ++ [id_item (JStr key)]))%res)
     requests ds)%res.

(** Lines 109-111 *)
Definition attach_presentations (presentations_map : Py.pymap json)
    (policy_id definition : json) : res json :=
  (key <- presentation_key policy_id definition ;;
   found <- Py.map_get presentations_map (JStr key) ;;
   Py.setitem definition "presentationValues"
     (match found with Some v => v | None => JList [] end))%res.

(** Lines 104-111.  Two records with one id share their definitions
    list; each visit writes the same [presentationValues] into it, so the
    list a record holds at the end is the one computed here. *)
Definition assemble_item (definitions_map presentations_map : Py.pymap json)
    (item : json) : res json :=
  (policy_id <- Py.getitem item "id" ;;
   definitions <- definitions_of definitions_map policy_id ;;
   item1 <- Py.setitem item "definitionValues" definitions ;;
   definitions' <- for_each definitions
                     (attach_presentations presentations_map policy_id) ;;
   Py.setitem item1 "definitionValues" definitions')%res.

(** Lines 52-66 *)
Definition fetch_definitions (definition_requests : list json)
  : M (Py.pymap json) :=
  match definition_requests with
  | [] => mret []
  | _ =>
      (definition_responses <-
         batch env definition_requests CONFIG_ENDPOINT
           "/definitionValues?$expand=definition" "GET" ;;
       lift (rfoldM correlate_step [] definition_responses))%M
  end.

(** Lines 84-101 *)
Definition fetch_presentations (presentation_requests : list json)
  : M (Py.pymap json) :=
  match presentation_requests with
  | [] => mret []
  | _ =>
      (presentation_responses <-
         batch env presentation_requests CONFIG_ENDPOINT
           "/presentationValues?$expand=presentation" "GET" ;;
       lift (rfoldM presentation_step [] presentation_responses))%M
  end.

(** Lines 46-111 *)
Definition enrich (graph_data : json) : M json :=
  (value <- lift (Py.getitem graph_data "value") ;;
   items <- lift (Py.iter value) ;;
   definition_requests <-
     lift (rmapM (fun item => (id <- Py.getitem item "id" ;; Ret (id_item id))%res)
             items) ;;
   definitions_map <- fetch_definitions definition_requests ;;
   presentation_requests <-
     lift (rfoldM (presentation_requests_of definitions_map) [] items) ;;
   presentations_map <- fetch_presentations presentation_requests ;;
   lift (for_each value (assemble_item definitions_map presentations_map)))%M.

(** [main] *)
Definition main : M (option json) :=
  try_or_return
    (request env (endpoint env ++ CONFIG_ENDPOINT)%string [])
    (fun e =>
       (log "error"
          ("Error getting Group Policy Configuration data from "
             ++ endpoint env ++ CONFIG_ENDPOINT ++ ": ")%string e ;;;
        mret None)%M)
    (fun graph_data =>
       (value <- enrich graph_data ;;
        try_or_return (persist env value "displayName" LOG_MESSAGE)
          (fun e =>
             (log "error"
                "Error processing Group Policy Configuration data: " e ;;;
              mret None)%M)
          (fun results => mret (Some results)))%M).

End WithEnv.

End GroupPolicyConfigurations.

(** ** Roles.py *)

Module Roles.

Definition CONFIG_ENDPOINT := "/beta/deviceManagement/roleDefinitions".
Definition LOG_MESSAGE := "Backing up Role: ".
Definition ASSIGNMENTS_URL := "/beta/deviceManagement/roleAssignments".
Definition GROUPS_URL := "/beta/groups".

(** [assignments_map.get(item["id"], [])] *)
Definition assignments_of (assignments_map : Py.pymap json) (item : json)
  : res json :=
  (id <- Py.getitem item "id" ;;
   found <- Py.map_get assignments_map id ;;
   Ret (match found with Some v => v | None => JList [] end))%res.

(** Lines 101-103: [assignment_ids] and [role_assignment_mapping] after one
    assignment. *)
Definition collect_assignment (role : json)
    (st : list json * Py.pymap json) (assignment : json)
  : res (list json * Py.pymap json) :=
  let (assignment_ids, role_assignment_mapping) := st in
  (aid <- Py.getitem assignment "id" ;;
   role_id <- Py.getitem role "id" ;;
   key <- Py.getitem assignment "id" ;;
   mapping <- Py.map_set role_assignment_mapping key role_id ;;
   Ret (assignment_ids ++ [id_item aid], mapping))%res.

(** Lines 99-103 *)
Definition collect_assignments (assignments_map : Py.pymap json)
    (st : list json * Py.pymap json) (item : json)
  : res (list json * Py.pymap json) :=
  (assignments <- assignments_of assignments_map item ;;
   xs <- Py.iter assignments ;;
   rfoldM (collect_assignment item) st xs)%res.

(** Lines 114-117 *)
Definition detail_step (m : Py.pymap json) (response : json)
  : res (Py.pymap json) :=
  (assignment_data <- Py.get_none response "body" ;;
   if Py.truthy assignment_data then
     (id <- Py.getitem assignment_data "id" ;;
      Py.map_set m id assignment_data)
   else Ret m)%res.

(** Lines 122-125, for one of the two fields. *)
Definition collect_members (field : string) (group_ids : Py.pyset)
    (assignment_data : json) : res Py.pyset :=
  (v <- Py.get_none assignment_data field ;;
   if Py.truthy v then
     (members <- Py.getitem assignment_data field ;;
      Py.set_update group_ids members)
   else Ret group_ids)%res.

(** Lines 121-125 *)
Definition collect_groups (group_ids : Py.pyset) (entry : json * json)
  : res Py.pyset :=
  (ids <- collect_members "scopeMembers" group_ids (snd entry) ;;
   collect_members "members" ids (snd entry))%res.

(** Lines 138-141 *)
Definition group_step (m : Py.pymap json) (response : json)
  : res (Py.pymap json) :=
  (group_data <- Py.get_none response "body" ;;
   if Py.truthy group_data then
     (name <- Py.getitem group_data "displayName" ;;
      id <- Py.getitem group_data "id" ;;
      Py.map_set m id name)
   else Ret m)%res.

(** [group_names_map.get(group_id, group_id)] *)
Definition group_name (group_names_map : Py.pymap json) (group_id : json)
  : res json :=
  (found <- Py.map_get group_names_map group_id ;;
   Ret (match found with Some n => n | None => group_id end))%res.

(** Lines 155-165, for one of the two fields. *)
Definition replace_groups (group_names_map : Py.pymap json) (field : string)
    (assignment_detail : json) : res json :=
  (v <- Py.get_none assignment_detail field ;;
   if Py.truthy v then
     (members <- Py.getitem assignment_detail field ;;
      ids <- Py.iter members ;;
      names <- rmapM (group_name group_names_map) ids ;;
      Py.setitem assignment_detail field (JList names))
   else Ret assignment_detail)%res.

(** Lines 174-175 *)
Definition cleanup (item : json) : res json :=
  (item1 <- Py.pop_default item "permissions" ;;
   role_permissions <- Py.getitem item1 "rolePermissions" ;;
   first <- Py.getitem_int role_permissions 0 ;;
   first' <- Py.pop_default first "actions" ;;
   match role_permissions with
   | JList (_ :: rest) =>
       Py.setitem item1 "rolePermissions" (JList (first' :: rest))
   | _ => Ret item1
   end)%res.

Section WithEnv.

Variable env : Env.

(** Lines 150-170: one assignment of a record.  The detail object is the
    one [assignment_details_map] holds, and an assignment id met twice
    reaches the same object, so the map is threaded as the store of the
    detail objects; [refs] are the keys of the objects appended to the
    record's [roleAssignments]. *)
Definition assemble_assignment (group_names_map : Py.pymap json)
    (st : Py.pymap json * list json) (assignment : json)
  : res (Py.pymap json * list json) :=
  let (store, refs) := st in
  (aid <- Py.getitem assignment "id" ;;
   found <- Py.map_get store aid ;;
   match found with
   | Some assignment_detail =>
       if Py.truthy assignment_detail then
         (d1 <- in_place (remove_keys env) assignment_detail ;;
          d2 <- replace_groups group_names_map "scopeMembers" d1 ;;
          d3 <- replace_groups group_names_map "members" d2 ;;
          d4 <- Py.pop_default d3 "resourceScopes" ;;
          Ret (Py.map_put aid d4 store, refs ++ [aid]))
       else Ret st
   | None => Ret st
   end)%res.

(** Lines 144-170: one record. *)
Definition assemble_item (assignments_map group_names_map : Py.pymap json)
    (st : Py.pymap json * list (json * option (list json))) (item : json)
  : res (Py.pymap json * list (json * option (list json))) :=
  let (store, done) := st in
  (assignments <- assignments_of assignments_map item ;;
   if Py.truthy assignments then
     (item1 <- Py.setitem item "roleAssignments" (JList []) ;;
      xs <- Py.iter assignments ;;
      r <- rfoldM (assemble_assignment group_names_map) (store, []) xs ;;
      let (store', refs) := r : Py.pymap json * list json in
      Ret (store', done ++ [(item1, Some refs)]))
   else Ret (store, done ++ [(item, None)]))%res.

(** The record as it is when stage 5 has ended: its [roleAssignments]
    holds the detail objects in their final state. *)
Definition resolve (store : Py.pymap json) (p : json * option (list json))
  : json :=
  match p with
  | (JDict kvs, Some refs) =>
      JDict (Py.dict_set "roleAssignments"
               (JList (List.map (fun k => match Py.map_find k store with
                                          | Some d => d
                                          | None => JNull
                                          end) refs))
               kvs)
  | (item, _) => item
  end.

(** Lines 80-93 *)
Definition fetch_assignments (role_ids : list json) : M (Py.pymap json) :=
  match role_ids with
  | [] => mret []
  | _ =>
      (assignment_responses <-
         batch env role_ids CONFIG_ENDPOINT "/roleAssignments" "GET" ;;
       lift (rfoldM correlate_step [] assignment_responses))%M
  end.

(** Lines 105-117 *)
Definition fetch_details (assignment_ids : list json) : M (Py.pymap json) :=
  match assignment_ids with
  | [] => mret []
  | _ =>
      (assignment_detail_responses <-
         batch env assignment_ids ASSIGNMENTS_URL "" "GET" ;;
       lift (rfoldM detail_step [] assignment_detail_responses))%M
  end.

(** Lines 128-141 *)
Definition fetch_groups (group_ids : Py.pyset) : M (Py.pymap json) :=
  match group_ids with
  | [] => mret []
  | _ =>
      (group_responses <-
         batch env (List.map id_item (set_order env group_ids))
           GROUPS_URL "?$select=displayName" "GET" ;;
       lift (rfoldM group_step [] group_responses))%M
  end.

(** What stages 1 to 3 leave for stages 4 and 5. *)
Record gathered : Type := {
  g_items : list json;
  g_assignments : Py.pymap json;
  g_details : Py.pymap json;
  g_group_ids : Py.pyset
}.

(** Lines 76-125: stages 1 to 3. *)
Definition gather (value : json) : M gathered :=
  (items <- lift (Py.iter value) ;;
   role_ids <-
     lift (rmapM (fun item => (id <- Py.getitem item "id" ;; Ret (id_item id))%res)
             items) ;;
   assignments_map <- fetch_assignments role_ids ;;
   collected <- lift (rfoldM (collect_assignments assignments_map) ([], []) items) ;;
   assignment_details_map <- fetch_details (fst collected) ;;
   group_ids <- lift (rfoldM collect_groups [] assignment_details_map) ;;
   mret {| g_items := items;
           g_assignments := assignments_map;
           g_details := assignment_details_map;
           g_group_ids := group_ids |})%M.

(** Lines 127-170: stages 4 and 5. *)
Definition finish (value : json) (st : gathered) : M json :=
  (group_names_map <- fetch_groups (g_group_ids st) ;;
   final <- lift (rfoldM (assemble_item (g_assignments st) group_names_map)
                    (g_details st, []) (g_items st)) ;;
   let (store, done) := final : Py.pymap json * list (json * option (list json)) in
   mret (rebuild value (List.map (resolve store) done)))%M.

(** Lines 76-170: the five assignment stages. *)
Definition assignment_stages (value : json) : M json :=
  (st <- gather value ;; finish value st)%M.

(** ["assignments" not in self.exclude] *)
Definition assignments_wanted : bool :=
  negb (existsb (String.eqb "assignments") (exclude env)).

(** Lines 75-175.  [self.has_assignments = False] (line 178) only tells
    the base class not to fetch assignments of its own. *)
Definition enrich (graph_data : json) : M json :=
  (value <- (if assignments_wanted then
               (value <- lift (Py.getitem graph_data "value") ;;
                assignment_stages value)
             else lift (Py.getitem graph_data "value")) ;;
   lift (for_each value cleanup))%M.

(** [main] *)
Definition main : M (option json) :=
  try_or_return
    (request env (endpoint env ++ CONFIG_ENDPOINT)%string
       [("$filter", "isBuiltIn eq false")])
    (fun e =>
       (log "error"
          ("Error getting Role data from "
             ++ endpoint env ++ CONFIG_ENDPOINT ++ ": ")%string e ;;;
        mret None)%M)
    (fun graph_data =>
       (value <- enrich graph_data ;;
        try_or_return (persist env value "displayName" LOG_MESSAGE)
          (fun e =>
             (log "error" "Error processing Role data: " e ;;;
              mret None)%M)
          (fun results => mret (Some results)))%M).

(** Lines 38-53: the loop of [_get_group_names] from the group [item]
    still to visit, with the names found so far; [None] is the [return None]
    of the handler.  [group_name["displayName"]] is outside the [try]. *)
Fixpoint group_names_loop (groups : list json) (item : list json)
  : M (option (list json)) :=
  match item with
  | [] => mret (Some groups)
  | group :: rest =>
      try_or_return
        (request env
           ("https://graph.microsoft.com/beta/groups/" ++ py_str env group)%string
           [("$select", "displayName")])
        (fun e =>
           (log "error"
              ("Error getting group data from "
                 ++ endpoint env ++ CONFIG_ENDPOINT ++ ": ")%string e ;;;
            mret None)%M)
        (fun group_name =>
           if Py.truthy group_name then
             (name <- lift (Py.getitem group_name "displayName") ;;
              group_names_loop (groups ++ [name]) rest)%M
           else group_names_loop groups rest)
  end.

(** [_get_group_names] ([main] does not call it). *)
Definition _get_group_names (item : json) : M (option (list json)) :=
  (groups <- lift (Py.iter item) ;; group_names_loop [] groups)%M.

End WithEnv.

End Roles.

(** ** The four modules side by side *)

Inductive backup_module : Type :=
| AppConfigurationModule
| DeviceComplianceModule
| GroupPolicyConfigurationsModule
| RolesModule.

Definition main_of (b : backup_module) (env : Env) : M (option json) :=
  match b with
  | AppConfigurationModule => AppConfiguration.main env
  | DeviceComplianceModule => DeviceCompliance.main env
  | GroupPolicyConfigurationsModule => GroupPolicyConfigurations.main env
  | RolesModule => Roles.main env
  end.

Definition enrich_of (b : backup_module) (env : Env) : json -> M json :=
  match b with
  | AppConfigurationModule => AppConfiguration.enrich env
  | DeviceComplianceModule => DeviceCompliance.enrich env
  | GroupPolicyConfigurationsModule => GroupPolicyConfigurations.enrich env
  | RolesModule => Roles.enrich env
  end.

(** The primary fetch of each module. *)
Definition primary_fetch (b : backup_module) (env : Env) : res json :=
  match b with
  | AppConfigurationModule =>
      make_graph_request env
        (endpoint env ++ AppConfiguration.CONFIG_ENDPOINT)%string []
  | DeviceComplianceModule =>
      make_graph_request env
        (endpoint env ++ DeviceCompliance.CONFIG_ENDPOINT)%string
        [("$expand", "settings")]
  | GroupPolicyConfigurationsModule =>
      make_graph_request env
        (endpoint env ++ GroupPolicyConfigurations.CONFIG_ENDPOINT)%string []
  | RolesModule =>
      make_graph_request env
        (endpoint env ++ Roles.CONFIG_ENDPOINT)%string
        [("$filter", "isBuiltIn eq false")]
  end.

Definition name_key_of (b : backup_module) : string :=
  match b with
  | DeviceComplianceModule => "name"
  | _ => "displayName"
  end.

Definition log_message_of (b : backup_module) : string :=
  match b with
  | AppConfigurationModule => AppConfiguration.LOG_MESSAGE
  | DeviceComplianceModule => DeviceCompliance.LOG_MESSAGE
  | GroupPolicyConfigurationsModule => GroupPolicyConfigurations.LOG_MESSAGE
  | RolesModule => Roles.LOG_MESSAGE
  end.

(** The final persistence call of a module on [data]. *)
Definition final_persist (b : backup_module) (env : Env) (data : json) : res json :=
  process_data env data (filetype env) (path env) (name_key_of b)
    (log_message_of b) audit_compare_info.

(** The error-level log entries of a trace. *)
Definition error_logs (t : list event) : list event :=
  filter (fun ev => match ev with
                    | EvLog tag _ _ => String.eqb tag "error"
                    | _ => false
                    end) t.

(** The [id] of a record. *)
Definition field_of (k : string) (record : json) : option json :=
  match record with
  | JDict kvs => Py.dict_get k kvs
  | _ => None
  end.

Definition is_dict (v : json) : bool :=
  match v with JDict _ => true | _ => false end.

(** ** An environment for concrete runs *)

(** A tenant that answers the primary fetch with [graph] and a batch call to
    [url] with [answers url]; [remove_keys] drops [id], the transport and
    [process_data] do not fail. *)
Definition sample_env (excluded : list string) (graph : json)
    (answers : string -> list json) : Env :=
  {| endpoint := "https://graph.microsoft.com";
     path := "/backup";
     filetype := "yaml";
     exclude := excluded;
     make_graph_request := fun _ _ => Ret graph;
     batch_request := fun _ url _ _ => Ret (answers url);
     process_data := fun data _ _ _ _ _ => Ret data;
     remove_keys := fun v => Py.pop_default v "id";
     decode_base64 := fun v => Ret v;
     json_loads := fun v => Ret v;
     py_repr := fun _ => "?";
     py_int := fun _ => Exc ValueError;
     set_order := fun l => l |}.

(** * Vocabulary of the properties *)

(** The second-to-last ['/']-delimited segment of [s]. *)
Definition second_to_last (s : string) : string :=
  let segs := PyStr.split "/" s in nth (List.length segs - 2) segs "".

(** A configuration that targets two apps, of which the tenant resolves only
    the second. *)
Definition two_apps_record : json :=
  JDict [("id", JStr "cfg1");
         ("displayName", JStr "Mail settings");
         ("targetedMobileApps", JList [JStr "app1"; JStr "app2"])].

Definition second_app_only (url : string) : list json :=
  [JDict [("id", JStr "app1"); ("status", JNum 404)];
   JDict [("id", JStr "app2"); ("status", JNum 200);
          ("body", JDict [("id", JStr "app2");
                          ("displayName", JStr "Bar");
                          ("@odata.type", JStr "#t.Other")])]].

Definition first_app_only (url : string) : list json :=
  [JDict [("id", JStr "app1"); ("status", JNum 200);
          ("body", JDict [("id", JStr "app1");
                          ("displayName", JStr "Foo");
                          ("@odata.type", JStr "#t.App")])];
   JDict [("id", JStr "app2"); ("status", JNum 404)]].

(** Events of the collaborators that fetch: neither a log entry nor a
    persistence call. *)
Definition is_call (ev : event) : bool :=
  match ev with
  | EvRequest _ _ | EvBatch _ _ _ _ => true
  | _ => false
  end.

(** Every event of [m] satisfies [P]. *)
Definition emits {A} (P : event -> bool) (m : M A) : Prop :=
  Forall (fun ev => P ev = true) (events m).

Definition is_request (ev : event) : bool :=
  match ev with EvRequest _ _ => true | _ => false end.

Definition calls_only {A} (m : M A) : Prop := emits is_call m.

Definition fetch_event (b : backup_module) (env : Env) : event :=
  match b with
  | AppConfigurationModule =>
      EvRequest (endpoint env ++ AppConfiguration.CONFIG_ENDPOINT)%string []
  | DeviceComplianceModule =>
      EvRequest (endpoint env ++ DeviceCompliance.CONFIG_ENDPOINT)%string
        [("$expand", "settings")]
  | GroupPolicyConfigurationsModule =>
      EvRequest (endpoint env ++ GroupPolicyConfigurations.CONFIG_ENDPOINT)%string []
  | RolesModule =>
      EvRequest (endpoint env ++ Roles.CONFIG_ENDPOINT)%string
        [("$filter", "isBuiltIn eq false")]
  end.

Definition persist_event (b : backup_module) (env : Env) (data : json) : event :=
  EvPersist data (path env) (name_key_of b) (log_message_of b).

(** The runs of a [main], by what the primary fetch, the enrichment and the
    persistence call do. *)
Inductive main_run (b : backup_module) (env : Env) : M (option json) -> Prop :=
| run_fetch_failed e msg :
    primary_fetch b env = Exc e ->
    main_run b env ([fetch_event b env; EvLog "error" msg e], Ret None)
| run_enrich_raised g e :
    primary_fetch b env = Ret g ->
    outcome (enrich_of b env g) = Exc e ->
    main_run b env (fetch_event b env :: events (enrich_of b env g), Exc e)
| run_persist_failed g data e msg :
    primary_fetch b env = Ret g ->
    outcome (enrich_of b env g) = Ret data ->
    final_persist b env data = Exc e ->
    main_run b env
      (fetch_event b env :: events (enrich_of b env g)
         ++ [persist_event b env data; EvLog "error" msg e], Ret None)
| run_persisted g data r :
    primary_fetch b env = Ret g ->
    outcome (enrich_of b env g) = Ret data ->
    final_persist b env data = Ret r ->
    main_run b env
      (fetch_event b env :: events (enrich_of b env g) ++ [persist_event b env data],
       Ret (Some r)).

(** A role definition that carries no [rolePermissions]. *)
Definition role_without_permissions : json :=
  JDict [("id", JStr "role1"); ("displayName", JStr "Helpdesk")].

(** [r'] is a later state of the record [r] with field [k] untouched. *)
Definition same_field (k : string) (r r' : json) : Prop :=
  is_dict r = true /\ is_dict r' = true /\ field_of k r' = field_of k r.

Definition touched (b : backup_module) (k : string) : bool :=
  match b with
  | AppConfigurationModule =>
      String.eqb k "targetedMobileApps" || String.eqb k "payloadJson"
  | DeviceComplianceModule =>
      String.eqb k "detectionScriptName" || String.eqb k "scheduledActionsForRule"
  | GroupPolicyConfigurationsModule => String.eqb k "definitionValues"
  | RolesModule =>
      String.eqb k "roleAssignments" || String.eqb k "permissions"
      || String.eqb k "rolePermissions"
  end.

(** A tenant with one custom role, one assignment of it, and two groups of
    which one resolves. *)
Definition helpdesk_role : json :=
  JDict [("id", JStr "role1");
         ("displayName", JStr "Helpdesk");
         ("permissions", JList []);
         ("rolePermissions",
          JList [JDict [("actions", JList [JStr "Microsoft.Intune_Read"]);
                        ("resourceActions", JList [])]])].

Definition roles_graph : json := JDict [("value", JList [helpdesk_role])].

Definition roles_answers (url : string) : list json :=
  if String.eqb url Roles.CONFIG_ENDPOINT then
    [JDict [("id", JStr "role1/roleAssignments");
            ("body", JDict [("value", JList [JDict [("id", JStr "asg1")]])])]]
  else if String.eqb url Roles.ASSIGNMENTS_URL then
    [JDict [("id", JStr "asg1");
            ("body", JDict [("id", JStr "asg1");
                            ("displayName", JStr "First line");
                            ("scopeMembers", JList [JStr "g1"]);
                            ("members", JList [JStr "g2"]);
                            ("resourceScopes", JList [JStr "g1"])])]]
  else if String.eqb url Roles.GROUPS_URL then
    [JDict [("id", JStr "g1");
            ("body", JDict [("id", JStr "g1"); ("displayName", JStr "Group One")])];
     JDict [("id", JStr "g2")]]
  else [].

Definition roles_env : Env := sample_env [] roles_graph roles_answers.

Definition roles_output : json :=
  JList [JDict [("id", JStr "role1");
                ("displayName", JStr "Helpdesk");
                ("rolePermissions", JList [JDict [("resourceActions", JList [])]]);
                ("roleAssignments",
                 JList [JDict [("displayName", JStr "First line");
                               ("scopeMembers", JList [JStr "Group One"]);
                               ("members", JList [JStr "g2"])]])]].

(** The records as the cleanup loop of Roles finds them. *)
Definition roles_before_cleanup (env : Env) (g : json) : M json :=
  if Roles.assignments_wanted env then
    (value <- lift (Py.getitem g "value") ;; Roles.assignment_stages env value)%M
  else lift (Py.getitem g "value").

Definition roles_env_excluded : Env :=
  sample_env ["assignments"] roles_graph roles_answers.

(** [ev] is not a batch call to [url]. *)
Definition not_batch_to (url : string) (ev : event) : bool :=
  match ev with
  | EvBatch _ u _ _ => negb (String.eqb u url)
  | _ => true
  end.

Definition nonzero_id (x : json) : Prop :=
  Py.eq_str x DeviceCompliance.ZERO_GUID = false.

(** A tenant with three compliance policies.  The first has a scheduled
    action with two configurations: one without a template (the all-zero id)
    and one whose template resolves.  The second has no scheduled actions.
    The third has a configuration whose template does not resolve. *)
Definition compliance_graph : json :=
  JDict [("value",
          JList [JDict [("id", JStr "p1"); ("name", JStr "Windows baseline")];
                 JDict [("id", JStr "p2"); ("name", JStr "Kiosk")];
                 JDict [("id", JStr "p3"); ("name", JStr "Phones")]])].

Definition compliance_answers (url : string) : list json :=
  if String.eqb url DeviceCompliance.CONFIG_ENDPOINT then
    [JDict [("id", JStr "p1/scheduledActionsForRule");
            ("body",
             JDict [("value",
                     JList [JDict
                              [("id", JStr "sa1");
                               ("ruleName", JStr "PasswordRequired");
                               ("scheduledActionConfigurations",
                                JList
                                  [JDict [("id", JStr "c1");
                                          ("actionType", JStr "block");
                                          ("notificationTemplateId",
                                           JStr DeviceCompliance.ZERO_GUID)];
                                   JDict [("id", JStr "c2");
                                          ("actionType", JStr "notification");
                                          ("notificationTemplateId", JStr "tmpl1")]])]])])];
     JDict [("id", JStr "p2/scheduledActionsForRule"); ("body", JDict [])];
     JDict [("id", JStr "p3/scheduledActionsForRule");
            ("body",
             JDict [("value",
                     JList [JDict
                              [("id", JStr "sa3");
                               ("ruleName", JStr "PasswordRequired");
                               ("scheduledActionConfigurations",
                                JList
                                  [JDict [("id", JStr "c3");
                                          ("actionType", JStr "notification");
                                          ("notificationTemplateId", JStr "tmpl2")]])]])])]]
  else if String.eqb url DeviceCompliance.TEMPLATES_URL then
    [JDict [("id", JStr "tmpl1");
            ("body", JDict [("id", JStr "tmpl1"); ("displayName", JStr "Reminder")])];
     JDict [("id", JStr "tmpl2")]]
  else [].

Definition compliance_env : Env := sample_env [] compliance_graph compliance_answers.

Definition compliance_output : json :=
  JList
    [JDict
       [("id", JStr "p1"); ("name", JStr "Windows baseline");
        ("scheduledActionsForRule",
         JList
           [JDict
              [("ruleName", JStr "PasswordRequired");
               ("scheduledActionConfigurations",
                JList
                  [JDict [("actionType", JStr "block");
                          ("notificationTemplateId",
                           JStr DeviceCompliance.ZERO_GUID)];
                   JDict [("actionType", JStr "notification");
                          ("notificationTemplateId", JStr "tmpl1");
                          ("notificationTemplateName", JStr "Reminder")]])]])];
     JDict [("id", JStr "p2"); ("name", JStr "Kiosk");
            ("scheduledActionsForRule", JList [])];
     JDict
       [("id", JStr "p3"); ("name", JStr "Phones");
        ("scheduledActionsForRule",
         JList
           [JDict
              [("ruleName", JStr "PasswordRequired");
               ("scheduledActionConfigurations",
                JList
                  [JDict [("actionType", JStr "notification");
                          ("notificationTemplateId", JStr "tmpl2");
                          ("notificationTemplateName", JNull)]])]])]].

(** Induction over a JSON tree, with the hypothesis for every element of a
    list and every value of a dict. *)
Fixpoint json_tree_ind (P : json -> Prop)
    (Hnull : P JNull) (Hbool : forall b, P (JBool b))
    (Hnum : forall z, P (JNum z)) (Hstr : forall s, P (JStr s))
    (Hlist : forall l, Forall P l -> P (JList l))
    (Hdict : forall kvs, Forall (fun kv => P (snd kv)) kvs -> P (JDict kvs))
    (j : json) {struct j} : P j :=
  match j with
  | JNull => Hnull
  | JBool b => Hbool b
  | JNum z => Hnum z
  | JStr s => Hstr s
  | JList l =>
      Hlist l
        ((fix all (l : list json) : Forall P l :=
            match l with
            | [] => Forall_nil P
            | x :: xs =>
                Forall_cons x
                  (json_tree_ind P Hnull Hbool Hnum Hstr Hlist Hdict x) (all xs)
            end) l)
  | JDict kvs =>
      Hdict kvs
        ((fix all (kvs : list (string * json))
            : Forall (fun kv => P (snd kv)) kvs :=
            match kvs with
            | [] => Forall_nil _
            | kv :: rest =>
                Forall_cons kv
                  (json_tree_ind P Hnull Hbool Hnum Hstr Hlist Hdict (snd kv))
                  (all rest)
            end) kvs)
  end.

Module Search.
Import DeviceCompliance.

(** The traversal of the spec, written as the enumeration of every match in
    the order the search visits them: the entries of a mapping in insertion
    order; a mapping-valued entry is descended into, the elements of a
    sequence-valued entry are visited in index order, and any other entry is
    a match, with the path of the mapping that holds it, when its value is
    the sentinel. *)
Fixpoint sentinel_paths (data : json) (path : list pelem) : list (list pelem) :=
  match data with
  | JDict kvs =>
      (fix items (kvs : list (string * json)) : list (list pelem) :=
         match kvs with
         | [] => []
         | (k, v) :: rest =>
             match v with
             | JDict _ => sentinel_paths v (path ++ [PKey k])
             | JList l =>
                 (fix elems (l : list json) (i : nat) : list (list pelem) :=
                    match l with
                    | [] => []
                    | item :: l' =>
                        sentinel_paths item (path ++ [PKey k; PIdx i])
                          ++ elems l' (S i)
                    end) l 0
             | _ => if Py.eq_str v SENTINEL then [path] else []
             end ++ items rest
         end) kvs
  | _ => []
  end.

(** The sentinel string occurs somewhere in the tree, at any depth. *)
Fixpoint mentions_sentinel (data : json) : bool :=
  match data with
  | JStr s => String.eqb s SENTINEL
  | JList l => existsb mentions_sentinel l
  | JDict kvs => existsb (fun kv => mentions_sentinel (snd kv)) kvs
  | _ => false
  end.

(** The value a path of keys and indices leads to. *)
Fixpoint value_at (data : json) (path : list pelem) : option json :=
  match path with
  | [] => Some data
  | PKey k :: rest =>
      match data with
      | JDict kvs =>
          match Py.dict_get k kvs with
          | Some v => value_at v rest
          | None => None
          end
      | _ => None
      end
  | PIdx i :: rest =>
      match data with
      | JList l =>
          match nth_error l i with
          | Some v => value_at v rest
          | None => None
          end
      | _ => None
      end
  end.

(** No dict of the tree has a key twice, as in every Python dict. *)
Fixpoint fresh_key (k : string) (kvs : list (string * json)) : bool :=
  match kvs with
  | [] => true
  | (k', _) :: rest => negb (String.eqb k k') && fresh_key k rest
  end.

Fixpoint unique_keys (data : json) : bool :=
  match data with
  | JList l => forallb unique_keys l
  | JDict kvs =>
      (fix go (kvs : list (string * json)) : bool :=
         match kvs with
         | [] => true
         | (k, v) :: rest => fresh_key k rest && unique_keys v && go rest
         end) kvs
  | _ => true
  end.

End Search.

Import DeviceCompliance Search.

(** Where a match leads: the path found continues the starting path, and
    following the continuation through the tree ends at a mapping that holds
    an entry with the sentinel as its value. *)
Definition leads_to_match (env : Env) (data : json) (path0 p : list pelem)
  : Prop :=
  exists q kvs k,
    p = path0 ++ q
    /\ follow_path env data q = Ret (JDict kvs)
    /\ In (k, JStr SENTINEL) kvs.

(** A Linux compliance policy as the settings catalog returns it. *)
Definition linux_policy : json :=
  JDict [("id", JStr "lp1");
         ("name", JStr "Linux custom compliance");
         ("settings",
          JList [JDict [("id", JStr "0");
                        ("settingInstance",
                         JDict [("settingDefinitionId", JStr SENTINEL);
                                ("simpleSettingValue",
                                 JDict [("value", JStr "script-1")])])]])].

(** No two elements of the set are equal as Python keys. *)
Fixpoint key_nodup (s : Py.pyset) : Prop :=
  match s with
  | [] => True
  | x :: rest => Py.set_mem x rest = false /\ key_nodup rest
  end.

(** A step of a harvesting loop: it keeps the set free of duplicates and
    adds exactly what the visited element contributes. *)
Definition adds {S A} (proj : S -> Py.pyset) (step : S -> A -> res S)
    (contrib : A -> json -> Prop) : Prop :=
  forall s a s',
    step s a = Ret s' ->
    (key_nodup (proj s) -> key_nodup (proj s'))
    /\ forall x, Py.set_mem x (proj s') = true
                 <-> Py.set_mem x (proj s) = true \/ contrib a x.

(** The elements of an iterable that are equal to [x] as keys. *)
Definition element_of (v : json) (x : json) : Prop :=
  exists xs a, Py.iter v = Ret xs /\ In a xs /\ Py.key_eqb x a = true.

(** [x] is one of the targeted apps of [item]. *)
Definition app_of_record (item : json) (x : json) : Prop :=
  exists apps, Py.getitem item "targetedMobileApps" = Ret apps /\ element_of apps x.

Definition template_of_config (config : json) (x : json) : Prop :=
  exists tid,
    Py.get_none config "notificationTemplateId" = Ret tid
    /\ Py.truthy tid = true
    /\ Py.eq_str tid DeviceCompliance.ZERO_GUID = false
    /\ Py.key_eqb x tid = true.

Definition template_of_action (action : json) (x : json) : Prop :=
  exists configs cs config,
    Py.get_or action "scheduledActionConfigurations" (JList []) = Ret configs
    /\ Py.iter configs = Ret cs
    /\ In config cs
    /\ template_of_config config x.

(** [x] is a template id harvested from [response]: the response has a
    body with a value, its id gives a correlation key, and a configuration
    of one of its actions names [x]. *)
Definition template_of_response (response : json) (x : json) : Prop :=
  exists key body v actions action,
    has_body_value response = Ret true
    /\ correlation_key response = Ret key
    /\ Py.truthy key = true
    /\ Py.getitem response "body" = Ret body
    /\ Py.getitem body "value" = Ret v
    /\ Py.iter v = Ret actions
    /\ In action actions
    /\ template_of_action action x.

Definition member_of_detail (field : string) (detail : json) (x : json) : Prop :=
  exists v members,
    Py.get_none detail field = Ret v
    /\ Py.truthy v = true
    /\ Py.getitem detail field = Ret members
    /\ element_of members x.

(** [x] is a group id of the assignment detail stored under some key. *)
Definition group_of_detail (entry : json * json) (x : json) : Prop :=
  member_of_detail "scopeMembers" (snd entry) x
  \/ member_of_detail "members" (snd entry) x.

(** What a stage sends for the harvested set [ids]: nothing when the set is
    empty, otherwise one call whose items are the elements of the set, one
    item each. *)
Definition stage_calls (env : Env) (ids : Py.pyset) (calls : list (list json))
  : Prop :=
  match ids with
  | [] => calls = []
  | _ =>
      exists data,
        calls = [data]
        /\ data = List.map id_item (set_order env ids)
        /\ Permutation data (List.map id_item ids)
        /\ List.length data = List.length ids
  end.

(** Three configurations that name two apps between them. *)
Definition three_configurations : json :=
  JDict [("value",
          JList [JDict [("id", JStr "cfg1");
                        ("targetedMobileApps", JList [JStr "app1"])];
                 JDict [("id", JStr "cfg2");
                        ("targetedMobileApps", JList [JStr "app1"])];
                 JDict [("id", JStr "cfg3");
                        ("targetedMobileApps", JList [JStr "app2"])]])].

Definition three_configurations_env : Env :=
  sample_env [] three_configurations first_app_only.

(** One configuration that targets no app. *)
Definition untargeted_configuration : json :=
  JDict [("value",
          JList [JDict [("id", JStr "cfg1");
                        ("displayName", JStr "Empty");
                        ("targetedMobileApps", JList [])]])].



(** A tenant with one Linux policy; the reusable setting of its discovery
    script resolves to a display name. *)
Definition linux_env : Env :=
  {| endpoint := "https://graph.microsoft.com";
     path := "/backup";
     filetype := "yaml";
     exclude := [];
     make_graph_request :=
       fun ep _ =>
         if String.eqb ep
              "https://graph.microsoft.com/beta/deviceManagement/reusablePolicySettings/"
         then Ret (JDict [("value",
                           JList [JDict [("id", JStr "script-1");
                                         ("displayName", JStr "Check kernel")]])])
         else Ret (JDict [("value", JList [linux_policy])]);
     batch_request := fun _ _ _ _ => Ret [];
     process_data := fun data _ _ _ _ _ => Ret data;
     remove_keys := fun v => Py.pop_default v "id";
     decode_base64 := fun v => Ret v;
     json_loads := fun v => Ret v;
     py_repr := fun _ => "?";
     py_int := fun _ => Exc ValueError;
     set_order := fun l => l |}.

(** A tenant with one group policy configuration that has one definition
    value with one presentation value. *)
Definition gpo_env : Env :=
  {| endpoint := "https://graph.microsoft.com";
     path := "/backup";
     filetype := "yaml";
     exclude := [];
     make_graph_request :=
       fun _ _ => Ret (JDict [("value",
                               JList [JDict [("id", JStr "gp1");
                                             ("displayName", JStr "Edge")]])]);
     batch_request :=
       fun _ _ extra_url _ =>
         if String.eqb extra_url "/definitionValues?$expand=definition" then
           Ret [JDict [("id", JStr "gp1/definitionValues?$expand=definition");
                       ("body",
                        JDict [("value",
                                JList [JDict [("id", JStr "dv1");
                                              ("enabled", JBool true)]])])]]
         else
           Ret [JDict [("id",
                        JStr "gp1/definitionValues/dv1/presentationValues?$expand=presentation");
                       ("body",
                        JDict [("value",
                                JList [JDict [("id", JStr "pv1");
                                              ("value", JStr "on")]])])]];
     process_data := fun data _ _ _ _ _ => Ret data;
     remove_keys := fun v => Py.pop_default v "id";
     decode_base64 := fun v => Ret v;
     json_loads := fun v => Ret v;
     py_repr := fun _ => "?";
     py_int := fun _ => Exc ValueError;
     set_order := fun l => l |}.

(** No list of the tree has a list as an element. *)
Fixpoint flat_lists (data : json) : bool :=
  match data with
  | JList l =>
      forallb (fun x => match x with
                        | JList _ => false
                        | _ => flat_lists x
                        end) l
  | JDict kvs => forallb (fun kv => flat_lists (snd kv)) kvs
  | _ => true
  end.

(** What the final loop of DeviceCompliance leaves in a record. *)
Definition compliance_shape (item r' : json) : Prop :=
  is_dict r' = true
  /\ (exists v, field_of "scheduledActionsForRule" r' = Some v)
  /\ (_check_linux_discovery_script item = false ->
      field_of "detectionScriptName" r' = field_of "detectionScriptName" item).

(** What the final loop of GroupPolicyConfigurations leaves in a record:
    a [definitionValues] field, and in each of the definitions listed there a
    [presentationValues] field. *)
Definition policy_shape (r' : json) : Prop :=
  exists defs,
    field_of "definitionValues" r' = Some defs
    /\ forall ds, defs = JList ds ->
                  Forall (fun d => exists v, field_of "presentationValues" d = Some v)
                    ds.

(** The endpoint a module's records come from; the batch calls about the
    records themselves go to it. *)
Definition config_endpoint_of (b : backup_module) : string :=
  match b with
  | AppConfigurationModule => AppConfiguration.CONFIG_ENDPOINT
  | DeviceComplianceModule => DeviceCompliance.CONFIG_ENDPOINT
  | GroupPolicyConfigurationsModule => GroupPolicyConfigurations.CONFIG_ENDPOINT
  | RolesModule => Roles.CONFIG_ENDPOINT
  end.

(** [sent] is [[{"id": r["id"]} for r in items]]: one item per record, in
    the order of the records, a repeated id repeated. *)
Definition one_item_per_record (items sent : list json) : Prop :=
  Forall2 (fun r x => exists id, Py.getitem r "id" = Ret id /\ x = id_item id)
    items sent.

(** An entry of a map built from batch responses by their correlation key:
    the key is a non-empty string, the value is truthy, and some response
    of [rs] has this key and this [body.value]. *)
Definition correlated_entry (rs : list json) (kv : json * json) : Prop :=
  (exists s, fst kv = JStr s /\ s <> EmptyString)
  /\ Py.truthy (snd kv) = true
  /\ exists r body,
       In r rs
       /\ correlation_key r = Ret (fst kv)
       /\ Py.getitem r "body" = Ret body
       /\ Py.getitem body "value" = Ret (snd kv).

(** Two responses about one policy and one about none. *)
Definition assignment_responses : list json :=
  [JDict [("id", JStr "role1/roleAssignments");
          ("body", JDict [("value", JList [JDict [("id", JStr "asg1")]])])];
   JDict [("id", JStr "roleAssignments");
          ("body", JDict [("value", JList [JDict [("id", JStr "asg2")]])])];
   JDict [("id", JStr "role1/roleAssignments");
          ("body", JDict [("value", JList [JDict [("id", JStr "asg3")]])])]].

(** The request [_get_group_names] sends for one group id. *)
Definition group_url (env : Env) (group : json) : string :=
  ("https://graph.microsoft.com/beta/groups/" ++ py_str env group)%string.

Definition group_request (env : Env) (group : json) : event :=
  EvRequest (group_url env group) [("$select", "displayName")].

(** The request for [group] is answered, and a truthy answer has a
    [displayName]. *)
Definition group_answered (env : Env) (group : json) : Prop :=
  exists answer,
    make_graph_request env (group_url env group) [("$select", "displayName")]
    = Ret answer
    /\ (Py.truthy answer = true ->
        exists name, Py.getitem answer "displayName" = Ret name).

(** The names of the groups whose request has a truthy answer. *)
Definition names_of (env : Env) (groups : list json) : list json :=
  flat_map
    (fun group =>
       match make_graph_request env (group_url env group)
               [("$select", "displayName")] with
       | Ret answer =>
           if Py.truthy answer then
             match Py.getitem answer "displayName" with
             | Ret name => [name]
             | Exc _ => []
             end
           else []
       | Exc _ => []
       end)
    groups.

(** A tenant that knows the group ["g1"], answers ["g0"] with nothing and
    fails on any other group. *)
Definition groups_env : Env :=
  let base := sample_env [] (JDict [("value", JList [])]) (fun _ => []) in
  {| endpoint := endpoint base;
     path := path base;
     filetype := filetype base;
     exclude := exclude base;
     make_graph_request := fun ep _ =>
       if String.eqb ep "https://graph.microsoft.com/beta/groups/g1"
       then Ret (JDict [("displayName", JStr "Group One")])
       else if String.eqb ep "https://graph.microsoft.com/beta/groups/g0"
       then Ret JNull
       else Exc (External "404");
     batch_request := batch_request base;
     process_data := process_data base;
     remove_keys := remove_keys base;
     decode_base64 := decode_base64 base;
     json_loads := json_loads base;
     py_repr := py_repr base;
     py_int := py_int base;
     set_order := set_order base |}.

(** The cleanup of a role record reaches the first entry of its
    [rolePermissions] only: the entry loses its [actions], the entries after
    it stay as fetched. *)
Definition first_permission_cleaned (r r' : json) : Prop :=
  forall first rest,
    field_of "rolePermissions" r = Some (JList (first :: rest)) ->
    exists fkvs,
      first = JDict fkvs
      /\ field_of "rolePermissions" r'
         = Some (JList (JDict (Py.dict_remove "actions" fkvs) :: rest)).

(** A role with two permission blocks. *)
Definition two_block_role : json :=
  JDict [("id", JStr "role2");
         ("displayName", JStr "Operators");
         ("rolePermissions",
          JList [JDict [("actions", JList [JStr "Microsoft.Intune_Read"]);
                        ("resourceActions", JList [])];
                 JDict [("actions", JList [JStr "Microsoft.Intune_Wipe"]);
                        ("resourceActions", JList [])]])].

Definition two_block_env : Env :=
  sample_env ["assignments"] (JDict [("value", JList [two_block_role])])
    (fun _ => []).

(** A tenant whose base64 decoder rejects every payload. *)
Definition undecodable_env : Env :=
  let base :=
    sample_env []
      (JDict [("value",
               JList [JDict [("id", JStr "cfg1");
                             ("targetedMobileApps", JList []);
                             ("payloadJson", JStr "%%%")]])])
      (fun _ => []) in
  {| endpoint := endpoint base;
     path := path base;
     filetype := filetype base;
     exclude := exclude base;
     make_graph_request := make_graph_request base;
     batch_request := batch_request base;
     process_data := process_data base;
     remove_keys := remove_keys base;
     decode_base64 := fun _ => Exc ValueError;
     json_loads := json_loads base;
     py_repr := py_repr base;
     py_int := py_int base;
     set_order := set_order base |}.

(** What the final loop of AppConfiguration does to [payloadJson]: a truthy
    payload is replaced by [json.loads(decode_base64(payload))], anything
    else stays as fetched. *)
Definition payload_decoded (env : Env) (r r' : json) : Prop :=
  match field_of "payloadJson" r with
  | Some p =>
      if Py.truthy p then
        exists decoded parsed,
          decode_base64 env p = Ret decoded
          /\ json_loads env decoded = Ret parsed
          /\ field_of "payloadJson" r' = Some parsed
      else field_of "payloadJson" r' = Some p
  | None => field_of "payloadJson" r' = None
  end.

(** A tenant whose decoder strips a ["b64:"] mark and whose JSON parser
    knows one document. *)
Definition decoding_env : Env :=
  let base :=
    sample_env []
      (JDict [("value",
               JList [JDict [("id", JStr "cfg1");
                             ("targetedMobileApps", JList []);
                             ("payloadJson", JStr "b64:{}")];
                      JDict [("id", JStr "cfg2");
                             ("targetedMobileApps", JList []);
                             ("payloadJson", JNull)]])])
      (fun _ => []) in
  {| endpoint := endpoint base;
     path := path base;
     filetype := filetype base;
     exclude := exclude base;
     make_graph_request := make_graph_request base;
     batch_request := batch_request base;
     process_data := process_data base;
     remove_keys := remove_keys base;
     decode_base64 := fun v =>
       match v with
       | JStr "b64:{}" => Ret (JStr "{}")
       | _ => Exc ValueError
       end;
     json_loads := fun v =>
       match v with
       | JStr "{}" => Ret (JDict [])
       | _ => Exc ValueError
       end;
     py_repr := py_repr base;
     py_int := py_int base;
     set_order := set_order base |}.

(** The request for the detection script [script_id] (DeviceCompliance
    lines 160-164). *)
Definition script_request (env : Env) (script_id : json) : event :=
  EvRequest (endpoint env ++ "/beta/deviceManagement/reusablePolicySettings/")%string
    [("$filter", ("id eq '" ++ py_str env script_id ++ "'")%string)].

(** [x] is the detection script id the collection loop reads from the
    record [item]. *)
Definition script_of_record (env : Env) (item : json) (x : json) : Prop :=
  _check_linux_discovery_script item = true
  /\ exists p id,
       _get_detection_script_id item [] = Some p
       /\ _get_value_from_path env item p = Ret id
       /\ Py.key_eqb x id = true.

(** What can follow the fetching calls of a run: nothing, the error log of
    a failed primary fetch, or one persistence call with at most the error
    log of its failure. *)
Definition run_tail (b : backup_module) (env : Env) (tail : list event) : Prop :=
  tail = []
  \/ (exists msg e, tail = [EvLog "error" msg e])
  \/ (exists data, tail = [persist_event b env data])
  \/ (exists data msg e, tail = [persist_event b env data; EvLog "error" msg e]).

(** An action without a usable template id. *)
Definition no_template_id (kvs : list (string * json)) : Prop :=
  Py.dict_get "notificationTemplateId" kvs = None
  \/ Py.dict_get "notificationTemplateId" kvs = Some JNull.

(** The keys of a record, in the order a dump of it lists them. *)
Definition keys_of (kvs : list (string * json)) : list string := List.map fst kvs.

Definition other_than (k : string) (keys : list string) : list string :=
  filter (fun k' => negb (String.eqb k k')) keys.

(** A record whose [targetedMobileApps] was rewritten lists it last, its
    other keys in their fetched order. *)
Definition apps_moved_last (r r' : json) : Prop :=
  forall kvs,
    r = JDict kvs ->
    NoDup (keys_of kvs) ->
    field_of "targetedMobileApps" r' <> field_of "targetedMobileApps" r ->
    exists kvs',
      r' = JDict kvs'
      /\ keys_of kvs'
         = (other_than "targetedMobileApps" (keys_of kvs)
              ++ ["targetedMobileApps"])%list.

(** A configuration that targets one known app and lists the field
    first. *)
Definition apps_first_record : json :=
  JDict [("targetedMobileApps", JList [JStr "app1"]);
         ("id", JStr "cfg1");
         ("displayName", JStr "Mail settings")].

Definition apps_first_env : Env :=
  sample_env [] (JDict [("value", JList [apps_first_record])])
    (fun _ =>
       [JDict [("id", JStr "app1");
               ("body", JDict [("id", JStr "app1");
                               ("displayName", JStr "Mail");
                               ("@odata.type", JStr "#microsoft.graph.iosStoreApp")])]]).

(** What the final loop of DeviceCompliance does about the detection script
    of a record: when the search finds a path, the id at the path is read
    and [detectionScriptName] is written (the value is null when the script
    lookup gave no name); when it finds none, the field is as fetched. *)
Definition script_name_written (env : Env) (item r' : json) : Prop :=
  match _get_detection_script_id item [] with
  | Some p =>
      exists id v,
        _get_value_from_path env item p = Ret id
        /\ field_of "detectionScriptName" r' = Some v
  | None =>
      field_of "detectionScriptName" r' = field_of "detectionScriptName" item
  end.

(** [r'] is the record [r] as it reaches the persistence call of
    DeviceCompliance: the same record by its [id], now with a
    [scheduledActionsForRule] field. *)
Definition scheduled_actions_present (r r' : json) : Prop :=
  same_field "id" r r'
  /\ exists v, field_of "scheduledActionsForRule" r' = Some v.

(** The [presentationValues] the definition [d] of the policy [policy_id]
    receives: the value filed under its request id in the presentation map,
    the empty list when nothing is filed there. *)
Definition presentations_attached (env : Env) (pm : Py.pymap json)
    (policy_id d d' : json) : Prop :=
  exists key,
    GroupPolicyConfigurations.presentation_key env policy_id d = Ret key
    /\ field_of "presentationValues" d'
       = Some (match Py.map_find (JStr key) pm with
               | Some v => v
               | None => JList []
               end).

(** The [definitionValues] a group policy configuration receives: the
    empty list when the definitions map has nothing for its id, otherwise
    the definitions found there, each with its [presentationValues]. *)
Definition policy_assembled (env : Env) (dm pm : Py.pymap json)
    (r r' : json) : Prop :=
  exists policy_id,
    Py.getitem r "id" = Ret policy_id
    /\ match Py.map_find policy_id dm with
       | None => field_of "definitionValues" r' = Some (JList [])
       | Some defs =>
           exists defs',
             field_of "definitionValues" r' = Some defs'
             /\ forall ds, defs = JList ds ->
                  exists ds',
                    defs' = JList ds'
                    /\ Forall2 (presentations_attached env pm policy_id) ds ds'
       end.

(** A tenant with two group policy configurations: the first has one
    definition without presentation values, the second has no definition. *)
Definition two_policies : json :=
  JDict [("value", JList [JDict [("id", JStr "gp1"); ("displayName", JStr "Edge")];
                          JDict [("id", JStr "gp2"); ("displayName", JStr "Office")]])].

Definition two_policies_env : Env :=
  sample_env [] two_policies
    (fun url =>
       [JDict [("id", JStr "gp1/definitionValues");
               ("body", JDict [("value", JList [JDict [("id", JStr "d1");
                                                       ("enabled", JBool true)]])])]]).

(** What the caller of [main] receives: the [None] of the two handlers and
    a [None] that [process_data] itself returns are the same value. *)
Definition returned (o : option json) : json :=
  match o with
  | Some r => r
  | None => JNull
  end.

(** [main] returns the value [v]. *)
Definition returns (b : backup_module) (env : Env) (v : json) : Prop :=
  exists o, outcome (main_of b env) = Ret o /\ returned o = v.

(** The primary fetch raises. *)
Definition fetch_raises (b : backup_module) (env : Env) : Prop :=
  exists e, primary_fetch b env = Exc e.

(** The persistence call is made, once, on [data], with the result
    [result]. *)
Definition persistence_gives (b : backup_module) (env : Env) (data : json)
    (result : res json) : Prop :=
  persisted (events (main_of b env)) = [data]
  /\ final_persist b env data = result.

(** A tenant whose [process_data] returns [None]. *)
Definition null_result_env : Env :=
  let base := sample_env [] (JDict [("value", JList [])]) (fun _ => []) in
  {| endpoint := endpoint base;
     path := path base;
     filetype := filetype base;
     exclude := exclude base;
     make_graph_request := make_graph_request base;
     batch_request := batch_request base;
     process_data := fun _ _ _ _ _ _ => Ret JNull;
     remove_keys := remove_keys base;
     decode_base64 := decode_base64 base;
     json_loads := json_loads base;
     py_repr := py_repr base;
     py_int := py_int base;
     set_order := set_order base |}.

(** The single requests of a trace, in order. *)
Definition requests (t : list event) : list event := filter is_request t.

Definition not_request (ev : event) : bool := negb (is_request ev).

(** ** What the batch responses resolve *)



(** [response] has an entry for the identifier [x]. *)
Definition answers (entry : json -> option (json * json)) (x response : json)
  : bool :=
  match entry response with
  | Some (k, _) => Py.key_eqb x k
  | None => false
  end.










(** ** What DeviceCompliance writes into the scheduled actions *)

(** The ids of the records, in order. *)
Definition record_ids (items : list json) : res (list json) :=
  rmapM (fun r => Py.getitem r "id") items.

(** [scheduled_actions_map.get(id, [])] *)
Definition scheduled_for (scheduled : Py.pymap json) (id : json) : json :=
  match Py.map_find id scheduled with
  | Some v => v
  | None => JList []
  end.

(** The action [a] as the final loop leaves it (lines 221-226): after
    [remove_keys], with each configuration of its
    [scheduledActionConfigurations] list brought from [c] to a [c'] with
    [W c c']. *)
Definition action_written (env : Env) (W : json -> json -> Prop)
    (a a' : json) : Prop :=
  exists a1,
    in_place (remove_keys env) a = Ret a1
    /\ match field_of "scheduledActionConfigurations" a1 with
       | Some cs =>
           exists cs',
             Py.setitem a1 "scheduledActionConfigurations" cs' = Ret a'
             /\ forall l, cs = JList l ->
                  exists l', cs' = JList l' /\ Forall2 W l l'
       | None => a' = a1
       end.

Definition actions_written (env : Env) (W : json -> json -> Prop)
    (v v' : json) : Prop :=
  forall actions,
    v = JList actions ->
    exists actions',
      v' = JList actions' /\ Forall2 (action_written env W) actions actions'.

(** The persisted record [r'] of the fetched record [r]: its
    [scheduledActionsForRule] holds the actions the scheduled-actions map
    has for the id of [r], each as the final loop leaves it. *)
Definition policy_actions_written (env : Env) (W : json -> json -> Prop)
    (scheduled : Py.pymap json) (r r' : json) : Prop :=
  exists id v',
    Py.getitem r "id" = Ret id
    /\ field_of "scheduledActionsForRule" r' = Some v'
    /\ actions_written env W (scheduled_for scheduled id) v'.

(** [remove_keys] puts no [notificationTemplateName] into a dict that has
    none. *)
Definition remove_keys_adds_no_name (env : Env) : Prop :=
  forall kvs kvs',
    remove_keys env (JDict kvs) = Ret (JDict kvs') ->
    Py.dict_get "notificationTemplateName" kvs = None ->
    Py.dict_get "notificationTemplateName" kvs' = None.

(** A configuration whose template id is the all-zero GUID leaves the loop
    as [remove_keys] leaves it: the loop itself writes nothing into it, so
    it has no [notificationTemplateName] unless it was fetched with one or
    [remove_keys] put one there. *)
Definition zero_guid_left_alone (env : Env) (c c' : json) : Prop :=
  forall kvs,
    c = JDict kvs ->
    Py.dict_get "notificationTemplateId" kvs
    = Some (JStr DeviceCompliance.ZERO_GUID) ->
    remove_keys env c = Ret c'
    /\ (remove_keys_adds_no_name env ->
        Py.dict_get "notificationTemplateName" kvs = None ->
        field_of "notificationTemplateName" c' = None).


(** What the loop does to a configuration with the template map
    [templates]. *)
Definition config_enriched (env : Env) (templates : Py.pymap json)
    (c c' : json) : Prop :=
  DeviceCompliance.enrich_config env templates c = Ret c'.







(** * Properties *)

Example split_three :
  PyStr.split "/" "parentXYZ/definitionValues/childABC"
  = ["parentXYZ"; "definitionValues"; "childABC"].
Proof. reflexivity. Qed.

Example split_multi :
  PyStr.split "/presentationValues" "p/definitionValues/d/presentationValues?$expand=presentation"
  = ["p/definitionValues/d"; "?$expand=presentation"].
Proof. reflexivity. Qed.

(** ** Dictionaries *)

Lemma dict_get_set_other k k' v kvs :
  k <> k' -> Py.dict_get k (Py.dict_set k' v kvs) = Py.dict_get k kvs.
Proof.
  intros Hne. induction kvs as [|[k0 v0] rest IH]; simpl.
  - destruct (String.eqb_spec k k'); [contradiction | reflexivity].
  - destruct (String.eqb_spec k' k0) as [->|Hk0]; simpl.
    + destruct (String.eqb_spec k k0); [contradiction | reflexivity].
    + destruct (String.eqb_spec k k0); [reflexivity | exact IH].
Qed.

Lemma dict_get_set_same k v kvs :
  Py.dict_get k (Py.dict_set k v kvs) = Some v.
Proof.
  induction kvs as [|[k0 v0] rest IH]; simpl.
  - now rewrite String.eqb_refl.
  - destruct (String.eqb_spec k k0) as [->|Hk0]; simpl.
    + now rewrite String.eqb_refl.
    + destruct (String.eqb_spec k k0); [contradiction | exact IH].
Qed.

Lemma dict_get_remove_other k k' kvs :
  k <> k' -> Py.dict_get k (Py.dict_remove k' kvs) = Py.dict_get k kvs.
Proof.
  intros Hne. induction kvs as [|[k0 v0] rest IH]; simpl; [reflexivity|].
  destruct (String.eqb_spec k' k0) as [->|Hk0]; simpl.
  - destruct (String.eqb_spec k k0); [contradiction | reflexivity].
  - destruct (String.eqb_spec k k0); [reflexivity | exact IH].
Qed.

(** What the in-place operations on a record leave alone. *)

Lemma setitem_field_other d k v d' k0 :
  Py.setitem d k v = Ret d' -> k0 <> k ->
  field_of k0 d' = field_of k0 d /\ is_dict d = true /\ is_dict d' = true.
Proof.
  destruct d; simpl; try discriminate. intros [= <-] Hne.
  simpl. now rewrite dict_get_set_other.
Qed.

Lemma pop_field_other d k d' k0 :
  Py.pop d k = Ret d' -> k0 <> k ->
  field_of k0 d' = field_of k0 d /\ is_dict d = true /\ is_dict d' = true.
Proof.
  destruct d; simpl; try discriminate.
  destruct (Py.dict_get k kvs); try discriminate. intros [= <-] Hne.
  simpl. now rewrite dict_get_remove_other.
Qed.

Lemma pop_default_field_other d k d' k0 :
  Py.pop_default d k = Ret d' -> k0 <> k ->
  field_of k0 d' = field_of k0 d /\ is_dict d = true /\ is_dict d' = true.
Proof.
  destruct d; simpl; try discriminate. intros [= <-] Hne.
  simpl. now rewrite dict_get_remove_other.
Qed.

(** ** Outcomes and traces *)

Lemma rbind_ret {A B} (m : res A) (f : A -> res B) b :
  rbind m f = Ret b -> exists a, m = Ret a /\ f a = Ret b.
Proof. destruct m; simpl; [eauto | discriminate]. Qed.

Lemma events_mbind {A B} (m : M A) (f : A -> M B) :
  events (mbind m f)
  = events m ++ match outcome m with
                | Ret a => events (f a)
                | Exc _ => []
                end.
Proof.
  destruct m as [t [a|e]]; simpl.
  - destruct (f a); reflexivity.
  - now rewrite app_nil_r.
Qed.

Lemma outcome_mbind {A B} (m : M A) (f : A -> M B) :
  outcome (mbind m f)
  = match outcome m with
    | Ret a => outcome (f a)
    | Exc e => Exc e
    end.
Proof.
  destruct m as [t [a|e]]; simpl; [destruct (f a)|]; reflexivity.
Qed.

Lemma events_lift {A} (r : res A) : events (lift r) = [].
Proof. reflexivity. Qed.

Lemma outcome_lift {A} (r : res A) : outcome (lift r) = r.
Proof. reflexivity. Qed.

Lemma events_try_or_return {A B} (m : M A) (h : exn -> M B) (k : A -> M B) :
  events (try_or_return m h k)
  = events m ++ match outcome m with
                | Ret a => events (k a)
                | Exc e => events (h e)
                end.
Proof.
  destruct m as [t [a|e]]; simpl; [destruct (k a) | destruct (h e)]; reflexivity.
Qed.

Lemma outcome_try_or_return {A B} (m : M A) (h : exn -> M B) (k : A -> M B) :
  outcome (try_or_return m h k)
  = match outcome m with
    | Ret a => outcome (k a)
    | Exc e => outcome (h e)
    end.
Proof.
  destruct m as [t [a|e]]; simpl; [destruct (k a) | destruct (h e)]; reflexivity.
Qed.

Lemma batch_calls_app url t1 t2 :
  batch_calls url (t1 ++ t2) = batch_calls url t1 ++ batch_calls url t2.
Proof.
  induction t1 as [|ev t1 IH]; simpl; [reflexivity|].
  destruct ev; try exact IH.
  destruct (String.eqb url0 url); simpl; now rewrite IH.
Qed.

Lemma persisted_app t1 t2 :
  persisted (t1 ++ t2) = persisted t1 ++ persisted t2.
Proof.
  induction t1 as [|ev t1 IH]; simpl; [reflexivity|].
  destruct ev; simpl; now rewrite IH.
Qed.

Lemma error_logs_app t1 t2 :
  error_logs (t1 ++ t2) = error_logs t1 ++ error_logs t2.
Proof. apply filter_app. Qed.

Lemma rmapM_ret {A B} (f : A -> res B) l l' :
  rmapM f l = Ret l' -> Forall2 (fun x y => f x = Ret y) l l'.
Proof.
  revert l'. induction l as [|x xs IH]; simpl; intros l' H.
  - injection H as <-. constructor.
  - destruct (f x) as [y|] eqn:Hy; simpl in H; [|discriminate].
    destruct (rmapM f xs) as [ys|] eqn:Hys; simpl in H; [|discriminate].
    injection H as <-. constructor; auto.
Qed.

Lemma rmapM_exc {A B} (f : A -> res B) l x e :
  In x l -> f x = Exc e -> exists e', rmapM f l = Exc e'.
Proof.
  induction l as [|y ys IH]; simpl; [contradiction|].
  intros [->|Hin] Hx.
  - rewrite Hx. simpl. eauto.
  - destruct (f y); simpl; [|eauto].
    destruct (IH Hin Hx) as [e' ->]. simpl. eauto.
Qed.

(** An invariant carried through a loop that may raise. *)
Lemma rfoldM_inv {A S} (P : S -> Prop) (f : S -> A -> res S) l :
  (forall s x s', P s -> f s x = Ret s' -> P s') ->
  forall s s', P s -> rfoldM f s l = Ret s' -> P s'.
Proof.
  intros Hstep. induction l as [|x xs IH]; simpl; intros s s' Hs H.
  - now injection H as <-.
  - destruct (f s x) as [s1|] eqn:H1; simpl in H; [|discriminate].
    eapply IH; [eapply Hstep|]; eauto.
Qed.

(** ** C1: the correlation key *)

Lemma split_go_nonempty sep s k cur :
  1 <= List.length (PyStr.split_go sep s k cur).
Proof.
  revert k cur. induction s as [|c s IH]; intros k cur; simpl; [lia|].
  destruct k; [|apply IH].
  match goal with |- context [if ?b then _ else _] => destruct b end;
    simpl; [lia | apply IH].
Qed.

Lemma contains_cons sub c s :
  PyStr.contains sub (String c s)
  = PyStr.starts_with sub (String c s) || PyStr.contains sub s.
Proof. reflexivity. Qed.

Lemma split_go_cons sep c s cur :
  PyStr.split_go sep (String c s) 0 cur
  = if PyStr.starts_with sep (String c s)
    then PyStr.rev_string "" cur
         :: PyStr.split_go sep s (String.length sep - 1) ""
    else PyStr.split_go sep s 0 (String c cur).
Proof. reflexivity. Qed.

Lemma split_slash_two s cur :
  PyStr.contains "/" s = true ->
  2 <= List.length (PyStr.split_go "/" s 0 cur).
Proof.
  revert cur. induction s as [|c s IH]; intros cur; [discriminate|].
  rewrite contains_cons, split_go_cons.
  destruct (PyStr.starts_with "/" (String c s)).
  - intros _.
    pose proof (split_go_nonempty "/" s (String.length "/" - 1) "").
    change (List.length (?x :: ?l)) with (S (List.length l)). lia.
  - apply IH.
Qed.

Lemma list_index_from_end {A} (l : list A) (d : A) :
  2 <= List.length l ->
  Py.list_index l (-2) = Ret (nth (List.length l - 2) l d).
Proof.
  intros Hlen. unfold Py.list_index. cbv zeta.
  change (Z.ltb (-2) 0) with true. cbv iota.
  destruct (Z.ltb_spec (-2 + Z.of_nat (List.length l)) 0); [lia|].
  destruct (Z.leb_spec (Z.of_nat (List.length l))
              (-2 + Z.of_nat (List.length l))); [lia|].
  simpl orb. cbv iota.
  replace (Z.to_nat (-2 + Z.of_nat (List.length l))) with (List.length l - 2) by lia.
  rewrite (nth_error_nth' l d (n := List.length l - 2)) by lia. reflexivity.
Qed.

(** C1 (as amended).  For an envelope whose [id] is the string [s]: when [s]
    contains ['/'] the correlation key is the second-to-last ['/']-delimited
    segment of [s] (so ["parentXYZ/definitionValues/childABC"] gives
    ["definitionValues"], and ["parentXYZ/definitionValues"] gives
    ["parentXYZ"]); when [s] contains no ['/'] the key is [None] and the
    envelope leaves the resolution map as it was, in the shared loop of
    GroupPolicyConfigurations and Roles and in DeviceCompliance, whenever the
    test of its body does not itself raise. *)
Theorem C1_correlation_key_second_to_last (kvs : list (string * json)) (s : string)
    (Hid : Py.dict_get "id" kvs = Some (JStr s)) :
  (if PyStr.contains "/" s
   then 2 <= List.length (PyStr.split "/" s)
        /\ correlation_key (JDict kvs) = Ret (JStr (second_to_last s))
   else correlation_key (JDict kvs) = Ret JNull
        /\ (forall m, correlate_step m (JDict kvs)
                      = (_ <- has_body_value (JDict kvs) ;; Ret m)%res)
        /\ (forall st, DeviceCompliance.scheduled_step st (JDict kvs)
                       = (_ <- has_body_value (JDict kvs) ;; Ret st)%res))
  /\ second_to_last "parentXYZ/definitionValues/childABC" = "definitionValues"
  /\ second_to_last "parentXYZ/definitionValues" = "parentXYZ".
Proof.
  split; [|split; reflexivity].
  assert (Hkey : correlation_key (JDict kvs)
                 = if PyStr.contains "/" s
                   then (seg <- Py.list_index (PyStr.split "/" s) (-2) ;;
                         Ret (JStr seg))%res
                   else Ret JNull).
  { unfold correlation_key, Py.get_or, Py.get. simpl. rewrite Hid. simpl.
    destruct (PyStr.contains "/" s); reflexivity. }
  destruct (PyStr.contains "/" s) eqn:Hc.
  - pose proof (split_slash_two s "" Hc) as Hlen. split; [exact Hlen|].
    rewrite Hkey. unfold PyStr.split.
    rewrite (list_index_from_end _ "" Hlen). reflexivity.
  - split; [exact Hkey|]. split.
    + intros m. unfold correlate_step. rewrite Hkey.
      destruct (has_body_value (JDict kvs)) as [[|]|]; reflexivity.
    + intros [m ids]. unfold DeviceCompliance.scheduled_step. rewrite Hkey.
      destruct (has_body_value (JDict kvs)) as [[|]|]; reflexivity.
Qed.

Lemma C1_witness :
  Py.dict_get "id" [("id", JStr "parentXYZ/definitionValues")]
  = Some (JStr "parentXYZ/definitionValues")
  /\ correlation_key (JDict [("id", JStr "parentXYZ/definitionValues")])
     = Ret (JStr "parentXYZ").
Proof.
  split; [reflexivity|].
  exact (proj2 (proj1 (C1_correlation_key_second_to_last
                         [("id", JStr "parentXYZ/definitionValues")]
                         "parentXYZ/definitionValues" eq_refl))).
Defined.

(** The spec's example fails: the id ["parentXYZ/definitionValues/childABC"]
    does not give the key ["parentXYZ"]. *)
Lemma C1_counterexample :
  correlation_key (JDict [("id", JStr "parentXYZ/definitionValues/childABC")])
  <> Ret (JStr "parentXYZ").
Proof. vm_compute. discriminate. Qed.

(** ** C2: which targeted app is used *)

(** C2 (the code departs from it).  With [targetedMobileApps = ["app1",
    "app2"]] and only [app2] resolved, the loop of lines 77-84 goes past
    [app1] and takes [appName] and [type] from [app2]: the app used is the
    first one the map resolves, not the first of the list. *)
Theorem C2_first_resolved_app_not_first_listed :
  persisted (events (AppConfiguration.main
                       (sample_env [] (JDict [("value", JList [two_apps_record])])
                          second_app_only)))
  = [JList [JDict [("id", JStr "cfg1");
                   ("displayName", JStr "Mail settings");
                   ("targetedMobileApps",
                    JDict [("appName", JStr "Bar"); ("type", JStr "#t.Other")])]]].
Proof. vm_compute. reflexivity. Qed.

(** The scenario of the spec, where the first app is the resolved one. *)
Example app_configuration_first_app_resolved :
  persisted (events (AppConfiguration.main
                       (sample_env [] (JDict [("value", JList [two_apps_record])])
                          first_app_only)))
  = [JList [JDict [("id", JStr "cfg1");
                   ("displayName", JStr "Mail settings");
                   ("targetedMobileApps",
                    JDict [("appName", JStr "Foo"); ("type", JStr "#t.App")])]]].
Proof. vm_compute. reflexivity. Qed.

(** ** The shape of every [main] *)

Lemma emits_mbind {A B} P (m : M A) (f : A -> M B) :
  emits P m -> (forall a, emits P (f a)) -> emits P (mbind m f).
Proof.
  unfold emits. intros Hm Hf. rewrite events_mbind.
  apply Forall_app. split; [exact Hm|].
  destruct (outcome m); [apply Hf | constructor].
Qed.

Lemma emits_lift {A} P (r : res A) : emits P (lift r).
Proof. constructor. Qed.

Lemma emits_mret {A} P (a : A) : emits P (mret a).
Proof. constructor. Qed.

Lemma emits_request P env ep ps :
  P (EvRequest ep ps) = true -> emits P (request env ep ps).
Proof. intros H. constructor; [exact H | constructor]. Qed.

Lemma emits_batch P env data url extra method :
  P (EvBatch data url extra method) = true ->
  emits P (batch env data url extra method).
Proof. intros H. constructor; [exact H | constructor]. Qed.

Lemma emits_mfoldM {A S} P (f : S -> A -> M S) l :
  (forall s x, emits P (f s x)) -> forall s, emits P (mfoldM f s l).
Proof.
  intros Hf. induction l as [|x xs IH]; intros s; simpl.
  - apply emits_mret.
  - apply emits_mbind; auto.
Qed.

Ltac emits :=
  repeat first
    [ apply emits_lift
    | apply emits_mret
    | apply emits_request; reflexivity
    | apply emits_batch; reflexivity
    | apply emits_mbind; [|intros]
    | apply emits_mfoldM; intros
    | match goal with
      | |- emits _ (let (_, _) := ?p in _) => destruct p
      | |- emits _ (match ?l with [] => _ | _ :: _ => _ end) => destruct l
      | |- emits _ (if ?b then _ else _) => destruct b
      end ].

Lemma calls_only_enrich b env g : calls_only (enrich_of b env g).
Proof.
  destruct b; simpl.
  - unfold calls_only, AppConfiguration.enrich, AppConfiguration.fetch_apps.
    emits.
  - unfold calls_only, DeviceCompliance.enrich, DeviceCompliance.gather,
      DeviceCompliance.finish, DeviceCompliance.fetch_scripts,
      DeviceCompliance.fetch_templates, DeviceCompliance.fetch_script.
    emits.
  - unfold calls_only, GroupPolicyConfigurations.enrich,
      GroupPolicyConfigurations.fetch_definitions,
      GroupPolicyConfigurations.fetch_presentations.
    emits.
  - unfold calls_only, Roles.enrich, Roles.assignment_stages, Roles.gather,
      Roles.finish, Roles.fetch_assignments, Roles.fetch_details,
      Roles.fetch_groups.
    emits.
Qed.

Lemma calls_only_no_logs {A} (m : M A) :
  calls_only m -> filter is_log (events m) = [] /\ error_logs (events m) = []
                  /\ persisted (events m) = [].
Proof.
  unfold calls_only, emits. induction (events m) as [|ev t IH]; intros H; [auto|].
  inversion H as [|? ? Hev Ht]; subst. destruct (IH Ht) as (H1 & H2 & H3).
  destruct ev; simpl in *; try discriminate; auto.
Qed.

Lemma skeleton_run b env ep ps msg1 msg2 :
  fetch_event b env = EvRequest ep ps ->
  primary_fetch b env = make_graph_request env ep ps ->
  main_run b env
    (try_or_return (request env ep ps)
       (fun e => (log "error" msg1 e ;;; mret None)%M)
       (fun g =>
          (value <- enrich_of b env g ;;
           try_or_return (persist env value (name_key_of b) (log_message_of b))
             (fun e => (log "error" msg2 e ;;; mret None)%M)
             (fun results => mret (Some results)))%M)).
Proof.
  intros Hev Hfetch. unfold request, try_or_return.
  rewrite <- Hev. fold (primary_fetch b env) in *. rewrite <- Hfetch.
  destruct (primary_fetch b env) as [g|e] eqn:Hf.
  - destruct (enrich_of b env g) as [t [data|e]] eqn:Hen; simpl.
    + unfold persist. fold (final_persist b env data).
      destruct (final_persist b env data) as [r|e] eqn:Hp; simpl.
      * pose proof (run_persisted b env g data r Hf) as H.
        rewrite Hen in H. apply H; [reflexivity | exact Hp].
      * pose proof (run_persist_failed b env g data e msg2 Hf) as H.
        rewrite Hen in H. apply H; [reflexivity | exact Hp].
    + pose proof (run_enrich_raised b env g e Hf) as H.
      rewrite Hen in H. apply H. reflexivity.
  - simpl. now apply run_fetch_failed.
Qed.

Lemma main_of_run b env : main_run b env (main_of b env).
Proof.
  destruct b; simpl.
  - apply (skeleton_run AppConfigurationModule); reflexivity.
  - apply (skeleton_run DeviceComplianceModule); reflexivity.
  - apply (skeleton_run GroupPolicyConfigurationsModule); reflexivity.
  - apply (skeleton_run RolesModule); reflexivity.
Qed.

Lemma fetch_event_facts b env t :
  filter is_log (fetch_event b env :: t) = filter is_log t
  /\ error_logs (fetch_event b env :: t) = error_logs t
  /\ persisted (fetch_event b env :: t) = persisted t.
Proof. destruct b; auto. Qed.

(** What a run logs and persists, case by case. *)
Lemma main_run_trace b env m :
  main_run b env m ->
  match outcome m with
  | Ret None =>
      (exists msg e, filter is_log (events m) = [EvLog "error" msg e]
                     /\ error_logs (events m) = [EvLog "error" msg e])
      /\ ((exists e, primary_fetch b env = Exc e) /\ persisted (events m) = []
          \/ exists g data e,
               primary_fetch b env = Ret g
               /\ outcome (enrich_of b env g) = Ret data
               /\ final_persist b env data = Exc e
               /\ persisted (events m) = [data])
  | Ret (Some r) =>
      filter is_log (events m) = []
      /\ exists g data,
           primary_fetch b env = Ret g
           /\ outcome (enrich_of b env g) = Ret data
           /\ final_persist b env data = Ret r
           /\ persisted (events m) = [data]
  | Exc e =>
      filter is_log (events m) = []
      /\ persisted (events m) = []
      /\ exists g, primary_fetch b env = Ret g
                   /\ outcome (enrich_of b env g) = Exc e
  end.
Proof.
  intros Hrun. destruct Hrun as [e msg Hf | g e Hf He | g data e msg Hf He Hp
                                 | g data r Hf He Hp];
    unfold outcome, events; simpl fst; simpl snd.
  - destruct (fetch_event_facts b env [EvLog "error" msg e]) as (-> & -> & ->).
    simpl. split; [eauto|]. left. eauto.
  - destruct (fetch_event_facts b env (events (enrich_of b env g))) as (H1 & H2 & H3).
    fold (events (enrich_of b env g)).
    destruct (calls_only_no_logs _ (calls_only_enrich b env g)) as (L1 & L2 & L3).
    unfold events in *. rewrite H1, H3, L1, L3. eauto.
  - destruct (fetch_event_facts b env
                (events (enrich_of b env g)
                   ++ [persist_event b env data; EvLog "error" msg e]))
      as (H1 & H2 & H3).
    destruct (calls_only_no_logs _ (calls_only_enrich b env g)) as (L1 & L2 & L3).
    unfold events in *. rewrite H1, H2, H3.
    rewrite filter_app, error_logs_app, persisted_app, L1, L2, L3. simpl.
    split; [eauto|]. right. exists g, data, e. auto.
  - destruct (fetch_event_facts b env
                (events (enrich_of b env g) ++ [persist_event b env data]))
      as (H1 & H2 & H3).
    destruct (calls_only_no_logs _ (calls_only_enrich b env g)) as (L1 & L2 & L3).
    unfold events in *. rewrite H1, H3.
    rewrite filter_app, persisted_app, L1, L3. simpl.
    split; [reflexivity|]. exists g, data. auto.
Qed.

(** ** C6: when [main] returns null *)


(** The spec's sentence fails as written: here neither the fetch nor the
    persistence call can raise, and [main] still does not return the
    persistence result. *)
Lemma C6_counterexample :
  let env := sample_env ["assignments"]
               (JDict [("value", JList [role_without_permissions])])
               (fun _ => []) in
  (forall e, primary_fetch RolesModule env <> Exc e)
  /\ (forall data e, final_persist RolesModule env data <> Exc e)
  /\ outcome (main_of RolesModule env) = Exc (KeyError (JStr "rolePermissions"))
  /\ ~ (exists r, outcome (main_of RolesModule env) = Ret r).
Proof.
  cbv zeta. repeat split; try discriminate.
  intros [r H]. vm_compute in H. discriminate.
Qed.

(** ** Fields that the enrichment of a record leaves alone *)

Lemma same_field_refl k r : is_dict r = true -> same_field k r r.
Proof. unfold same_field. auto. Qed.

Lemma same_field_trans k r1 r2 r3 :
  same_field k r1 r2 -> same_field k r2 r3 -> same_field k r1 r3.
Proof. unfold same_field. intros (?&?&?) (?&?&?). repeat split; congruence. Qed.

Lemma same_field_setitem k d k' v d' :
  Py.setitem d k' v = Ret d' -> k <> k' -> same_field k d d'.
Proof.
  intros H Hne. destruct (setitem_field_other _ _ _ _ _ H Hne) as (?&?&?).
  unfold same_field. auto.
Qed.

Lemma same_field_pop k d k' d' :
  Py.pop d k' = Ret d' -> k <> k' -> same_field k d d'.
Proof.
  intros H Hne. destruct (pop_field_other _ _ _ _ H Hne) as (?&?&?).
  unfold same_field. auto.
Qed.

Lemma same_field_pop_default k d k' d' :
  Py.pop_default d k' = Ret d' -> k <> k' -> same_field k d d'.
Proof.
  intros H Hne. destruct (pop_default_field_other _ _ _ _ H Hne) as (?&?&?).
  unfold same_field. auto.
Qed.

Lemma get_is_dict d k o : Py.get d k = Ret o -> is_dict d = true.
Proof. destruct d; simpl; try discriminate; auto. Qed.

Lemma get_or_is_dict d k v0 v : Py.get_or d k v0 = Ret v -> is_dict d = true.
Proof. destruct d; simpl; try discriminate; auto. Qed.

Lemma getitem_is_dict d k v :
  Py.getitem d k = Ret v -> is_dict d = true /\ field_of k d = Some v.
Proof.
  destruct d; simpl; try discriminate.
  destruct (Py.dict_get k kvs); [intros [= ->]; auto | discriminate].
Qed.

Lemma for_each_list l body v :
  for_each (JList l) body = Ret v ->
  exists l', v = JList l' /\ Forall2 (fun x y => body x = Ret y) l l'.
Proof.
  unfold for_each. intros H.
  destruct (rmapM body l) as [l'|] eqn:Hm; simpl in H; [|discriminate].
  injection H as <-. exists l'. split; [reflexivity | now apply rmapM_ret].
Qed.

(** A loop that threads a store and appends one entry per record. *)
Lemma rfoldM_appends {A B S} (R : A -> B -> Prop)
    (f : S * list B -> A -> res (S * list B)) l :
  (forall s done x s' done',
      f (s, done) x = Ret (s', done') -> exists y, done' = done ++ [y] /\ R x y) ->
  forall s done s' done',
    rfoldM f (s, done) l = Ret (s', done') ->
    exists new, done' = done ++ new /\ Forall2 R l new.
Proof.
  intros Hstep. induction l as [|x xs IH]; simpl; intros s done s' done' H.
  - injection H as <- <-. exists []. split; [now rewrite app_nil_r | constructor].
  - destruct (f (s, done) x) as [[s1 done1]|] eqn:H1; simpl in H; [|discriminate].
    destruct (Hstep _ _ _ _ _ H1) as (y & -> & Hy).
    destruct (IH _ _ _ _ H) as (new & -> & Hnew).
    exists (y :: new). split; [now rewrite <- app_assoc | now constructor].
Qed.

Lemma Forall2_map_r {A B C} (R : A -> C -> Prop) (g : B -> C) l l' :
  Forall2 (fun x y => R x (g y)) l l' -> Forall2 R l (List.map g l').
Proof. induction 1; simpl; constructor; auto. Qed.

Lemma Forall2_impl {A B} (R R' : A -> B -> Prop) l l' :
  (forall x y, R x y -> R' x y) -> Forall2 R l l' -> Forall2 R' l l'.
Proof. intros HR. induction 1; constructor; auto. Qed.

Ltac rinv H :=
  lazymatch type of H with
  | rbind ?m ?f = Ret _ =>
      let a := fresh "a" in
      let Ha := fresh "Ha" in
      apply rbind_ret in H; destruct H as (a & Ha & H); rinv H
  | Ret _ = Ret _ => idtac
  | Exc _ = Ret _ => discriminate H
  | (if ?b then _ else _) = Ret _ =>
      let Hb := fresh "Hb" in destruct b eqn:Hb; rinv H
  | (match ?o with Some _ => _ | None => _ end) = Ret _ =>
      let Ho := fresh "Ho" in destruct o eqn:Ho; rinv H
  | _ => idtac
  end.

Lemma mbind_outcome_ret {A B} (m : M A) (f : A -> M B) b :
  outcome (mbind m f) = Ret b ->
  exists a, outcome m = Ret a /\ outcome (f a) = Ret b.
Proof.
  rewrite outcome_mbind. destruct (outcome m); [eauto | discriminate].
Qed.

Ltac minv H :=
  lazymatch type of H with
  | outcome (mbind ?m ?f) = Ret _ =>
      let a := fresh "a" in
      let Ha := fresh "Ha" in
      apply mbind_outcome_ret in H; destruct H as (a & Ha & H); minv H
  | outcome (let (_, _) := ?p in _) = Ret _ => destruct p; minv H
  | _ => idtac
  end.

Lemma app_process_item_same env k m item item' :
  AppConfiguration.process_item env m item = Ret item' ->
  k <> "targetedMobileApps" -> k <> "payloadJson" ->
  same_field k item item'.
Proof.
  intros H Hk1 Hk2. unfold AppConfiguration.process_item in H. rinv H.
  apply same_field_trans with a.
  - unfold AppConfiguration.enrich_apps in Ha. rinv Ha.
    + apply same_field_trans with a3.
      * eapply same_field_pop; eauto.
      * eapply same_field_setitem; eauto.
    + injection Ha as <-. apply same_field_refl. eapply get_or_is_dict; eauto.
    + injection Ha as <-. apply same_field_refl. eapply get_or_is_dict; eauto.
  - unfold AppConfiguration.decode_payload in H. rinv H.
    + apply same_field_trans with a3; eapply same_field_setitem; eauto.
    + injection H as <-. apply same_field_refl. eapply get_or_is_dict; eauto.
Qed.

Lemma gpo_assemble_item_same env k dm pm item item' :
  GroupPolicyConfigurations.assemble_item env dm pm item = Ret item' ->
  k <> "definitionValues" -> same_field k item item'.
Proof.
  intros H Hk. unfold GroupPolicyConfigurations.assemble_item in H. rinv H.
  apply same_field_trans with a1; eapply same_field_setitem; eauto.
Qed.

Lemma dc_add_script_name_same env k scripts item item' :
  DeviceCompliance.add_script_name env scripts item = Ret item' ->
  k <> "detectionScriptName" ->
  item' = item \/ same_field k item item'.
Proof.
  intros H Hk. unfold DeviceCompliance.add_script_name in H.
  destruct (DeviceCompliance._check_linux_discovery_script item);
    [|injection H as <-; auto].
  destruct (DeviceCompliance._get_detection_script_id item []);
    [|injection H as <-; auto].
  rinv H. right. eapply same_field_setitem; eauto.
Qed.

Lemma dc_process_step_appends env k scripts templates s done item s' done' :
  DeviceCompliance.process_step env scripts templates (s, done) item
  = Ret (s', done') ->
  k <> "detectionScriptName" -> k <> "scheduledActionsForRule" ->
  exists y, done' = done ++ [y]
            /\ forall store, same_field k item (DeviceCompliance.resolve store y).
Proof.
  intros H Hk1 Hk2. unfold DeviceCompliance.process_step in H. rinv H.
  assert (Hitem : same_field k item a).
  { destruct (dc_add_script_name_same _ k _ _ _ Ha Hk1) as [->|]; auto.
    apply same_field_refl. eapply getitem_is_dict; eauto. }
  - injection H as <- <-. eexists. split; [reflexivity|]. intros store.
    pose proof (same_field_setitem k _ _ _ _ Ha2 Hk2) as H2.
    apply same_field_trans with a; [exact Hitem|].
    apply same_field_trans with a2; [exact H2|].
    destruct a2; try (apply same_field_refl; apply H2).
    simpl. destruct (Py.map_find a0 store); [|apply same_field_refl; reflexivity].
    unfold same_field. simpl. now rewrite dict_get_set_other.
  - assert (Hitem : same_field k item a).
    { destruct (dc_add_script_name_same _ k _ _ _ Ha Hk1) as [->|]; auto.
      apply same_field_refl. eapply getitem_is_dict; eauto. }
    injection H as <- <-. eexists. split; [reflexivity|]. intros store.
    pose proof (same_field_setitem k _ _ _ _ Ha2 Hk2) as H2.
    apply same_field_trans with a; [exact Hitem|].
    apply same_field_trans with a2; [exact H2|].
    destruct a2; apply same_field_refl; apply H2.
Qed.

Lemma roles_assemble_item_appends env k am gm s done item s' done' :
  Roles.assemble_item env am gm (s, done) item = Ret (s', done') ->
  k <> "roleAssignments" ->
  exists y, done' = done ++ [y]
            /\ forall store, same_field k item (Roles.resolve store y).
Proof.
  intros H Hk. unfold Roles.assemble_item in H. rinv H.
  - destruct a2 as [store' refs]. injection H as <- <-.
    eexists. split; [reflexivity|]. intros store.
    pose proof (same_field_setitem k _ _ _ _ Ha0 Hk) as H0.
    apply same_field_trans with a0; [exact H0|].
    destruct a0; try (apply same_field_refl; apply H0).
    unfold same_field. simpl. now rewrite dict_get_set_other.
  - injection H as <- <-. eexists. split; [reflexivity|]. intros store.
    assert (Hd : is_dict item = true).
    { unfold Roles.assignments_of in Ha. rinv Ha. eapply getitem_is_dict; eauto. }
    destruct item; try discriminate. apply same_field_refl. reflexivity.
Qed.

Lemma roles_cleanup_same k item item' :
  Roles.cleanup item = Ret item' ->
  k <> "permissions" -> k <> "rolePermissions" -> same_field k item item'.
Proof.
  intros H Hk1 Hk2. unfold Roles.cleanup in H. rinv H.
  pose proof (same_field_pop_default k _ _ _ Ha Hk1) as H1.
  destruct a0 as [| | | |[|x rest]|];
    try (injection H as <-; exact H1).
  apply same_field_trans with a; [exact H1|].
  eapply same_field_setitem; eauto.
Qed.

Lemma Forall2_trans_rel {A} (R : A -> A -> Prop) l1 l2 l3 :
  (forall x y z, R x y -> R y z -> R x z) ->
  Forall2 R l1 l2 -> Forall2 R l2 l3 -> Forall2 R l1 l3.
Proof.
  intros HR H12. revert l3. induction H12; intros l3 H23; inversion H23; subst;
    constructor; eauto.
Qed.

(** Every record handed on by the enrichment is a later state of the record
    at the same position of the primary fetch, with the fields the module
    does not write unchanged. *)
Ltac unlift :=
  repeat match goal with
         | H : outcome (lift _) = _ |- _ => rewrite outcome_lift in H
         end.

Lemma dc_gather_items env g st items :
  outcome (DeviceCompliance.gather env g) = Ret st ->
  Py.getitem g "value" = Ret (JList items) ->
  DeviceCompliance.g_value st = JList items
  /\ DeviceCompliance.g_items st = items.
Proof.
  intros H Hv. unfold DeviceCompliance.gather in H. minv H. unlift.
  rewrite Hv in Ha. injection Ha as <-. injection Ha0 as <-.
  injection H as <-. auto.
Qed.

Lemma roles_gather_items env items st :
  outcome (Roles.gather env (JList items)) = Ret st -> Roles.g_items st = items.
Proof.
  intros H. unfold Roles.gather in H. minv H. unlift.
  injection Ha as <-. injection H as <-. reflexivity.
Qed.

Lemma enrich_keeps_fields b env g items data k :
  outcome (enrich_of b env g) = Ret data ->
  Py.getitem g "value" = Ret (JList items) ->
  touched b k = false ->
  exists items', data = JList items' /\ Forall2 (same_field k) items items'.
Proof.
  intros H Hv Hk. destruct b; simpl in H, Hk.
  - apply orb_false_elim in Hk as [Hk1 Hk2].
    apply String.eqb_neq in Hk1, Hk2.
    unfold AppConfiguration.enrich in H. minv H. unlift.
    rewrite Hv in Ha. injection Ha as <-.
    destruct (Py.truthy (JList items)) eqn:Ht.
    + minv H. unlift.
      apply for_each_list in H as (items' & -> & HF).
      exists items'. split; [reflexivity|].
      eapply Forall2_impl; [|exact HF]. intros x y Hxy.
      eapply app_process_item_same; [exact Hxy | assumption | assumption].
    + destruct items; [|discriminate]. injection H as <-.
      exists []. split; [reflexivity | constructor].
  - apply orb_false_elim in Hk as [Hk1 Hk2].
    apply String.eqb_neq in Hk1, Hk2.
    unfold DeviceCompliance.enrich in H. minv H.
    destruct (dc_gather_items _ _ _ _ Ha Hv) as [Hval Hit].
    unfold DeviceCompliance.finish in H. minv H. unlift.
    rewrite Hval, Hit in *. injection H as <-.
    match goal with
    | Hf : rfoldM (DeviceCompliance.process_step _ _ _) _ _ = Ret _ |- _ =>
        eapply (rfoldM_appends
                  (fun item y => forall store,
                       same_field k item (DeviceCompliance.resolve store y)))
          in Hf as (new & -> & HF)
    end.
    + eexists. split; [reflexivity|]. simpl. apply Forall2_map_r.
      eapply Forall2_impl; [|exact HF]. intros x y Hxy. apply Hxy.
    + intros. eapply dc_process_step_appends; eauto.
  - apply String.eqb_neq in Hk.
    unfold GroupPolicyConfigurations.enrich in H. minv H. unlift.
    rewrite Hv in Ha. injection Ha as <-.
    apply for_each_list in H as (items' & -> & HF).
    exists items'. split; [reflexivity|].
    eapply Forall2_impl; [|exact HF]. intros x y Hxy.
    eapply gpo_assemble_item_same; [exact Hxy | assumption].
  - apply orb_false_elim in Hk as [Hk Hk3].
    apply orb_false_elim in Hk as [Hk1 Hk2].
    apply String.eqb_neq in Hk1, Hk2, Hk3.
    unfold Roles.enrich in H. minv H. unlift.
    assert (Hstage : exists items1, a = JList items1
                                    /\ Forall2 (same_field k) items items1).
    { destruct (Roles.assignments_wanted env).
      - minv Ha. unlift. rewrite Hv in Ha0.
        injection Ha0 as <-. unfold Roles.assignment_stages in Ha. minv Ha.
        pose proof (roles_gather_items _ _ _ Ha0) as Hit.
        unfold Roles.finish in Ha. minv Ha. unlift.
        rewrite Hit in *. injection Ha as <-.
        match goal with
        | Hf : rfoldM (Roles.assemble_item _ _ _) _ _ = Ret _ |- _ =>
            eapply (rfoldM_appends
                      (fun item y => forall store,
                           same_field k item (Roles.resolve store y)))
              in Hf as (new & -> & HF)
        end.
        + eexists. split; [reflexivity|]. simpl. apply Forall2_map_r.
          eapply Forall2_impl; [|exact HF]. intros x y Hxy. apply Hxy.
        + intros. eapply roles_assemble_item_appends; eauto.
      - rewrite Hv in Ha. injection Ha as <-.
        exists items. split; [reflexivity|].
        apply for_each_list in H as (items' & _ & HF).
        clear - HF. induction HF as [|x y l l' Hxy HF IH]; constructor; auto.
        apply same_field_refl. unfold Roles.cleanup in Hxy. rinv Hxy.
        eapply pop_default_field_other with (k0 := "x") in Ha;
          [apply Ha | discriminate]. }
    destruct Hstage as (items1 & -> & H1).
    apply for_each_list in H as (items' & -> & HF).
    exists items'. split; [reflexivity|].
    eapply Forall2_trans_rel; [apply same_field_trans | exact H1 |].
    eapply Forall2_impl; [|exact HF]. intros x y Hxy.
    eapply roles_cleanup_same; [exact Hxy | assumption | assumption].
Qed.

(** ** C9: the identity field *)

Example roles_run :
  Roles.main roles_env
  = ([EvRequest "https://graph.microsoft.com/beta/deviceManagement/roleDefinitions"
        [("$filter", "isBuiltIn eq false")];
      EvBatch [id_item (JStr "role1")] Roles.CONFIG_ENDPOINT "/roleAssignments" "GET";
      EvBatch [id_item (JStr "asg1")] Roles.ASSIGNMENTS_URL "" "GET";
      EvBatch [id_item (JStr "g1"); id_item (JStr "g2")] Roles.GROUPS_URL
        "?$select=displayName" "GET";
      EvPersist roles_output "/backup" "displayName" Roles.LOG_MESSAGE],
     Ret (Some roles_output)).
Proof. vm_compute. reflexivity. Qed.

Lemma touched_id b : touched b "id" = false.
Proof. destruct b; reflexivity. Qed.

(** What a run persists comes out of the enrichment of the fetched data. *)
Lemma persisted_from_enrich b env g data :
  primary_fetch b env = Ret g ->
  In data (persisted (events (main_of b env))) ->
  outcome (enrich_of b env g) = Ret data.
Proof.
  intros Hf Hin.
  pose proof (main_run_trace b env _ (main_of_run b env)) as H.
  destruct (outcome (main_of b env)) as [[r|]|e].
  - destruct H as (_ & g' & data' & Hf' & He & _ & Hd).
    rewrite Hd in Hin. destruct Hin as [<-|[]]. congruence.
  - destruct H as (_ & [[[e He] _] | (g' & data' & e' & Hf' & He & _ & Hd)]).
    + congruence.
    + rewrite Hd in Hin. destruct Hin as [<-|[]]. congruence.
  - destruct H as (_ & Hd & _). rewrite Hd in Hin. destruct Hin.
Qed.

(** C9.  In every module, the records handed to the persistence call are the
    records of the primary fetch, position by position, and each still has
    the [id] it was fetched with: no merge, key removal or cleanup of the
    enrichment writes or removes the identity field. *)
Theorem C9_record_id_unchanged (b : backup_module) (env : Env)
    (g : json) (items : list json) (data : json)
    (Hfetch : primary_fetch b env = Ret g)
    (Hvalue : Py.getitem g "value" = Ret (JList items))
    (Hpersisted : In data (persisted (events (main_of b env)))) :
  exists items',
    data = JList items'
    /\ Forall2 (fun r r' => is_dict r = true /\ is_dict r' = true
                            /\ field_of "id" r' = field_of "id" r)
         items items'.
Proof.
  apply (enrich_keeps_fields b env g items data "id").
  - eapply persisted_from_enrich; eauto.
  - exact Hvalue.
  - apply touched_id.
Qed.

Lemma C9_witness :
  primary_fetch RolesModule roles_env = Ret roles_graph
  /\ Py.getitem roles_graph "value" = Ret (JList [helpdesk_role])
  /\ In roles_output (persisted (events (main_of RolesModule roles_env)))
  /\ exists items',
       roles_output = JList items'
       /\ Forall2 (fun r r' => is_dict r = true /\ is_dict r' = true
                               /\ field_of "id" r' = field_of "id" r)
            [helpdesk_role] items'.
Proof.
  assert (Hin : In roles_output (persisted (events (main_of RolesModule roles_env)))).
  { vm_compute. left. reflexivity. }
  repeat split; try reflexivity; try exact Hin.
  exact (C9_record_id_unchanged RolesModule roles_env roles_graph [helpdesk_role]
           roles_output eq_refl eq_refl Hin).
Defined.

(** ** C10 and C7: the cleanup of the role records *)

Lemma roles_enrich_unfold env g :
  Roles.enrich env g
  = (value <- roles_before_cleanup env g ;; lift (for_each value Roles.cleanup))%M.
Proof. reflexivity. Qed.

Lemma roles_before_cleanup_keeps env g items v k :
  outcome (roles_before_cleanup env g) = Ret v ->
  Py.getitem g "value" = Ret (JList items) ->
  k <> "roleAssignments" ->
  exists items1,
    v = JList items1
    /\ Forall2 (fun r r' => r' = r \/ same_field k r r') items items1.
Proof.
  intros H Hv Hk. unfold roles_before_cleanup in H.
  destruct (Roles.assignments_wanted env).
  - minv H. unlift. rewrite Hv in Ha. injection Ha as <-.
    unfold Roles.assignment_stages in H. minv H.
    pose proof (roles_gather_items _ _ _ Ha) as Hit.
    unfold Roles.finish in H. minv H. unlift.
    rewrite Hit in *. injection H as <-.
    match goal with
    | Hf : rfoldM (Roles.assemble_item _ _ _) _ _ = Ret _ |- _ =>
        eapply (rfoldM_appends
                  (fun item y => forall store,
                       same_field k item (Roles.resolve store y)))
          in Hf as (new & -> & HF)
    end.
    + eexists. split; [reflexivity|]. simpl. apply Forall2_map_r.
      eapply Forall2_impl; [|exact HF]. intros x y Hxy. right. apply Hxy.
    + intros. eapply roles_assemble_item_appends; eauto.
  - unlift. rewrite Hv in H. injection H as <-.
    exists items. split; [reflexivity|].
    clear. induction items; constructor; auto.
Qed.

Lemma Forall2_In_l {A B} (R : A -> B -> Prop) l l' x :
  Forall2 R l l' -> In x l -> exists y, In y l' /\ R x y.
Proof.
  induction 1 as [|a b l l' Hab HF IH]; simpl; [contradiction|].
  intros [<-|Hin]; [eauto|]. destruct (IH Hin) as (y & Hy & HR). eauto.
Qed.

(** The cleanup of line 175 on a record without usable [rolePermissions]. *)
Lemma cleanup_raises kvs :
  Py.dict_get "rolePermissions" kvs = None
  \/ Py.dict_get "rolePermissions" kvs = Some (JList []) ->
  Roles.cleanup (JDict kvs)
  = Exc (match Py.dict_get "rolePermissions" kvs with
         | None => KeyError (JStr "rolePermissions")
         | Some _ => IndexError
         end).
Proof.
  intros H. unfold Roles.cleanup. simpl.
  rewrite (dict_get_remove_other "rolePermissions" "permissions") by discriminate.
  destruct H as [-> | ->]; reflexivity.
Qed.

(** C10.  In Roles, when the primary fetch returns a record that has no
    [rolePermissions] key, or an empty [rolePermissions] list, [main] ends
    with an exception that nothing catches, whatever [exclude] holds: it
    returns neither null nor a result, it logs nothing, and the persistence
    call is never made. *)
Theorem C10_roles_cleanup_uncaught (env : Env) (g : json) (items : list json)
    (kvs : list (string * json))
    (Hfetch : primary_fetch RolesModule env = Ret g)
    (Hvalue : Py.getitem g "value" = Ret (JList items))
    (Hrecord : In (JDict kvs) items)
    (Hperm : Py.dict_get "rolePermissions" kvs = None
             \/ Py.dict_get "rolePermissions" kvs = Some (JList [])) :
  exists e,
    outcome (Roles.main env) = Exc e
    /\ filter is_log (events (Roles.main env)) = []
    /\ persisted (events (Roles.main env)) = [].
Proof.
  assert (Hraise : exists e, outcome (Roles.enrich env g) = Exc e).
  { rewrite roles_enrich_unfold, outcome_mbind.
    destruct (outcome (roles_before_cleanup env g)) as [v|e] eqn:Hv; [|eauto].
    destruct (roles_before_cleanup_keeps env g items v "rolePermissions" Hv Hvalue)
      as (items1 & -> & HF); [discriminate|].
    destruct (Forall2_In_l _ _ _ _ HF Hrecord) as (r' & Hin & Hr').
    assert (Hexc : exists e, Roles.cleanup r' = Exc e).
    { destruct Hr' as [-> | (_ & Hd & Hfield)].
      - rewrite cleanup_raises by exact Hperm. eauto.
      - destruct r' as [| | | | |kvs']; try discriminate.
        simpl in Hfield. rewrite cleanup_raises; [eauto|].
        rewrite Hfield. exact Hperm. }
    destruct Hexc as (e & He).
    rewrite outcome_lift. unfold for_each.
    destruct (rmapM_exc Roles.cleanup items1 r' e Hin He) as (e' & ->).
    simpl. eauto. }
  destruct Hraise as (e & He).
  pose proof (main_run_trace RolesModule env _ (main_of_run RolesModule env)) as H.
  change (main_of RolesModule env) with (Roles.main env) in H.
  destruct (outcome (Roles.main env)) as [[r|]|e'].
  - destruct H as (_ & g' & data & Hf & Hen & _). simpl in Hen. congruence.
  - destruct H as (_ & [[[e' Hf] _] | (g' & data & e' & Hf & Hen & _)]);
      simpl in *; congruence.
  - exists e'. destruct H as (Hl & Hd & _). auto.
Qed.

Lemma C10_witness :
  let env := sample_env ["assignments"]
               (JDict [("value", JList [role_without_permissions])])
               (fun _ => []) in
  primary_fetch RolesModule env
  = Ret (JDict [("value", JList [role_without_permissions])])
  /\ exists e,
       outcome (Roles.main env) = Exc e
       /\ filter is_log (events (Roles.main env)) = []
       /\ persisted (events (Roles.main env)) = [].
Proof.
  cbv zeta. split; [reflexivity|].
  eapply (C10_roles_cleanup_uncaught _ _ [role_without_permissions]
            [("id", JStr "role1"); ("displayName", JStr "Helpdesk")]).
  - reflexivity.
  - reflexivity.
  - left. reflexivity.
  - left. reflexivity.
Defined.

Lemma assignments_excluded env :
  In "assignments" (exclude env) -> Roles.assignments_wanted env = false.
Proof.
  intros Hin. unfold Roles.assignments_wanted.
  apply negb_false_iff, existsb_exists. exists "assignments".
  split; [exact Hin | apply String.eqb_refl].
Qed.

(** C7.  In Roles, when ["assignments"] is in [exclude], no batch call is
    issued at all (the five assignment stages are skipped), and every record
    handed to the persistence call has the [roleAssignments] field exactly
    as the primary fetch returned it: absent where it was absent. *)
Theorem C7_excluded_assignments_skipped (env : Env)
    (Hexcl : In "assignments" (exclude env)) :
  filter is_batch (events (Roles.main env)) = []
  /\ forall g items data,
       primary_fetch RolesModule env = Ret g ->
       Py.getitem g "value" = Ret (JList items) ->
       In data (persisted (events (Roles.main env))) ->
       exists items',
         data = JList items'
         /\ Forall2 (fun r r' => field_of "roleAssignments" r'
                                 = field_of "roleAssignments" r) items items'.
Proof.
  pose proof (assignments_excluded env Hexcl) as Hw.
  assert (Hquiet : forall g, events (Roles.enrich env g) = []).
  { intros g. rewrite roles_enrich_unfold, events_mbind.
    unfold roles_before_cleanup. rewrite Hw. simpl.
    destruct (Py.getitem g "value"); reflexivity. }
  split.
  - pose proof (main_of_run RolesModule env) as Hrun.
    change (main_of RolesModule env) with (Roles.main env) in Hrun.
    unfold events in Hquiet.
    destruct Hrun; unfold events; simpl; rewrite ?Hquiet; reflexivity.
  - intros g items data Hf Hv Hin.
    pose proof (persisted_from_enrich RolesModule env g data Hf Hin) as He.
    simpl in He. rewrite roles_enrich_unfold in He. minv He. unlift.
    unfold roles_before_cleanup in Ha. rewrite Hw in Ha. unlift.
    rewrite Hv in Ha. injection Ha as <-.
    apply for_each_list in He as (items' & -> & HF).
    exists items'. split; [reflexivity|].
    eapply Forall2_impl; [|exact HF]. intros x y Hxy.
    eapply (roles_cleanup_same "roleAssignments"); [exact Hxy | |]; discriminate.
Qed.

Lemma C7_witness :
  In "assignments" (exclude roles_env_excluded)
  /\ filter is_batch (events (Roles.main roles_env_excluded)) = []
  /\ persisted (events (Roles.main roles_env_excluded))
     = [JList [JDict [("id", JStr "role1");
                      ("displayName", JStr "Helpdesk");
                      ("rolePermissions",
                       JList [JDict [("resourceActions", JList [])]])]]].
Proof.
  split; [left; reflexivity|].
  split; [|vm_compute; reflexivity].
  exact (proj1 (C7_excluded_assignments_skipped roles_env_excluded
                  (or_introl eq_refl))).
Defined.

(** ** Batch calls of a run *)

Lemma batch_calls_none url t :
  Forall (fun ev => not_batch_to url ev = true) t -> batch_calls url t = [].
Proof.
  induction 1 as [|ev t Hev Ht IH]; [reflexivity|].
  destruct ev; simpl in *; try exact IH.
  destruct (String.eqb url0 url); [discriminate | exact IH].
Qed.

Lemma batch_calls_mbind {A B} url (m : M A) (f : A -> M B) :
  batch_calls url (events (mbind m f))
  = batch_calls url (events m)
      ++ match outcome m with
         | Ret a => batch_calls url (events (f a))
         | Exc _ => []
         end.
Proof.
  rewrite events_mbind, batch_calls_app. destruct (outcome m); reflexivity.
Qed.

(** The batch calls of a run are those of its enrichment. *)
Lemma main_batch_calls b env url :
  batch_calls url (events (main_of b env))
  = match primary_fetch b env with
    | Ret g => batch_calls url (events (enrich_of b env g))
    | Exc _ => []
    end.
Proof.
  assert (Hf : forall t, batch_calls url (fetch_event b env :: t) = batch_calls url t)
    by (intros t; destruct b; reflexivity).
  destruct (main_of_run b env) as [e msg Hx | g e Hx He | g data e msg Hx He Hp
                                   | g data r Hx He Hp];
    rewrite Hx; unfold events at 1; simpl fst; rewrite Hf;
    rewrite ?batch_calls_app; simpl; rewrite ?app_nil_r; reflexivity.
Qed.

(** ** C8: the all-zero template id *)

Lemma set_add_Forall (P : json -> Prop) s x s' :
  Py.set_add s x = Ret s' -> Forall P s -> P x -> Forall P s'.
Proof.
  unfold Py.set_add. destruct (Py.hashable x); [|discriminate].
  destruct (Py.set_mem x s); intros [= <-] Hs Hx; [exact Hs|].
  apply Forall_app. split; [exact Hs | now constructor].
Qed.

Lemma harvest_config_nonzero ids config ids' :
  DeviceCompliance.harvest_config ids config = Ret ids' ->
  Forall nonzero_id ids -> Forall nonzero_id ids'.
Proof.
  intros H Hs. unfold DeviceCompliance.harvest_config in H. rinv H.
  - apply andb_true_iff in Hb as [_ Hnz]. apply negb_true_iff in Hnz.
    eapply set_add_Forall; eauto.
  - now injection H as <-.
Qed.

Lemma harvest_action_nonzero ids action ids' :
  DeviceCompliance.harvest_action ids action = Ret ids' ->
  Forall nonzero_id ids -> Forall nonzero_id ids'.
Proof.
  intros H Hs. unfold DeviceCompliance.harvest_action in H. rinv H.
  eapply (rfoldM_inv (Forall nonzero_id)); [|exact Hs|exact H].
  intros s x s' Hs0 Hstep. eapply harvest_config_nonzero; eauto.
Qed.

Lemma scheduled_step_nonzero st response st' :
  DeviceCompliance.scheduled_step st response = Ret st' ->
  Forall nonzero_id (snd st) -> Forall nonzero_id (snd st').
Proof.
  destruct st as [m ids]. intros H Hs.
  unfold DeviceCompliance.scheduled_step in H. rinv H.
  - injection H as <-. simpl.
    eapply (rfoldM_inv (Forall nonzero_id)); [|exact Hs|eassumption].
    intros s x s' Hs0 Hstep. eapply harvest_action_nonzero; eauto.
  - now injection H as <-.
  - now injection H as <-.
Qed.

Lemma dc_gather_nonzero env g st :
  outcome (DeviceCompliance.gather env g) = Ret st ->
  Forall nonzero_id (DeviceCompliance.g_template_ids st).
Proof.
  intros H. unfold DeviceCompliance.gather in H. minv H. unlift.
  injection H as <-. simpl.
  match goal with
  | Hf : rfoldM DeviceCompliance.scheduled_step _ _ = Ret (?m, ?ids) |- _ =>
      change ids with (snd (m, ids));
      eapply (rfoldM_inv (fun st => Forall nonzero_id (snd st))); [| |exact Hf]
  end.
  - intros s x s' Hs Hstep. eapply scheduled_step_nonzero; eauto.
  - constructor.
Qed.

Lemma dc_gather_no_template_batch env g :
  batch_calls DeviceCompliance.TEMPLATES_URL
    (events (DeviceCompliance.gather env g)) = [].
Proof.
  apply batch_calls_none.
  change (emits (not_batch_to DeviceCompliance.TEMPLATES_URL)
            (DeviceCompliance.gather env g)).
  unfold DeviceCompliance.gather, DeviceCompliance.fetch_scripts,
    DeviceCompliance.fetch_script.
  emits.
Qed.

Lemma dc_finish_template_batch env st :
  batch_calls DeviceCompliance.TEMPLATES_URL
    (events (DeviceCompliance.finish env st))
  = match DeviceCompliance.g_template_ids st with
    | [] => []
    | ids => [List.map id_item (set_order env ids)]
    end.
Proof.
  unfold DeviceCompliance.finish. rewrite batch_calls_mbind.
  replace (match outcome (DeviceCompliance.fetch_templates env
                            (DeviceCompliance.g_template_ids st)) with
           | Ret a => _
           | Exc _ => []
           end) with ([] : list (list json)).
  - rewrite app_nil_r. unfold DeviceCompliance.fetch_templates.
    destruct (DeviceCompliance.g_template_ids st) as [|x xs]; [reflexivity|].
    rewrite batch_calls_mbind. simpl.
    destruct (batch_request env _ _ _ _); reflexivity.
  - destruct (outcome _) as [tm|]; [|reflexivity].
    rewrite batch_calls_mbind. simpl.
    destruct (rfoldM _ _ _) as [[store done]|]; reflexivity.
Qed.

(** The batch calls for notification templates in a run of [main]. *)
Lemma dc_template_calls env :
  batch_calls DeviceCompliance.TEMPLATES_URL (events (DeviceCompliance.main env))
  = match primary_fetch DeviceComplianceModule env with
    | Ret g =>
        match outcome (DeviceCompliance.gather env g) with
        | Ret st =>
            match DeviceCompliance.g_template_ids st with
            | [] => []
            | ids => [List.map id_item (set_order env ids)]
            end
        | Exc _ => []
        end
    | Exc _ => []
    end.
Proof.
  rewrite (main_batch_calls DeviceComplianceModule env).
  destruct (primary_fetch DeviceComplianceModule env) as [g|]; [|reflexivity].
  simpl enrich_of. unfold DeviceCompliance.enrich.
  rewrite batch_calls_mbind, dc_gather_no_template_batch. simpl.
  destruct (outcome (DeviceCompliance.gather env g)) as [st|]; [|reflexivity].
  apply dc_finish_template_batch.
Qed.

Example compliance_run :
  DeviceCompliance.main compliance_env
  = ([EvRequest "https://graph.microsoft.com/beta/deviceManagement/compliancePolicies"
        [("$expand", "settings")];
      EvBatch [id_item (JStr "p1"); id_item (JStr "p2"); id_item (JStr "p3")]
        DeviceCompliance.CONFIG_ENDPOINT
        "/scheduledActionsForRule?$expand=scheduledActionConfigurations" "GET";
      EvBatch [id_item (JStr "tmpl1"); id_item (JStr "tmpl2")]
        DeviceCompliance.TEMPLATES_URL "" "GET";
      EvPersist compliance_output "/backup" "name" DeviceCompliance.LOG_MESSAGE],
     Ret (Some compliance_output)).
Proof. vm_compute. reflexivity. Qed.


(** ** C4: the search for the detection script *)

Lemma hd_error_app {A} (a b : list A) :
  hd_error (a ++ b) = match hd_error a with Some x => Some x | None => hd_error b end.
Proof. destruct a; reflexivity. Qed.

(** Induction for properties of the search: at an entry of a dict whose value
    is a list, the hypothesis is there for the elements of that list. *)
Lemma json_search_ind (Q : json -> Prop) :
  Q JNull -> (forall b, Q (JBool b)) -> (forall z, Q (JNum z)) ->
  (forall s, Q (JStr s)) ->
  (forall l, Forall Q l -> Q (JList l)) ->
  (forall kvs,
      Forall (fun kv => Q (snd kv)
                        /\ match snd kv with
                           | JList l => Forall Q l
                           | _ => True
                           end) kvs ->
      Q (JDict kvs)) ->
  forall j, Q j.
Proof.
  intros Hnull Hbool Hnum Hstr Hlist Hdict j.
  enough (H : Q j /\ match j with JList l => Forall Q l | _ => True end)
    by apply H.
  induction j as [| | | |l IH|kvs IH] using json_tree_ind; auto.
  - assert (Hl : Forall Q l).
    { eapply Forall_impl; [|exact IH]. intros x Hx. apply Hx. }
    auto.
Qed.

Lemma search_is_first_match data :
  forall path, _get_detection_script_id data path = hd_error (sentinel_paths data path).
Proof.
  induction data as [| | | |l IHl|kvs IH] using json_search_ind; intros path;
    try reflexivity.
  simpl. induction IH as [|[k v] rest [Hv Hl] Hrest IHrest]; [reflexivity|].
  simpl in Hv, Hl. rewrite hd_error_app.
  destruct v as [| | | |l|kvs'].
  - simpl. exact IHrest.
  - simpl. exact IHrest.
  - simpl. exact IHrest.
  - destruct (Py.eq_str (JStr s) SENTINEL); [reflexivity | exact IHrest].
  - rewrite <- IHrest.
    match goal with
    | |- match ?a with _ => _ end = match hd_error ?b with _ => _ end =>
        enough (Heq : a = hd_error b) by (rewrite Heq; reflexivity)
    end.
    generalize 0. clear - Hl.
    induction Hl as [|x l Hx Hl IH]; intros i; [reflexivity|].
    rewrite hd_error_app, <- Hx, <- IH. reflexivity.
  - rewrite <- IHrest, <- Hv. reflexivity.
Qed.

Lemma no_mention_no_match data :
  mentions_sentinel data = false -> forall path, sentinel_paths data path = [].
Proof.
  induction data as [| | | |l IHl|kvs IH] using json_search_ind; intros Hm path;
    try reflexivity.
  simpl in Hm |- *.
  induction IH as [|[k v] rest [Hv Hl] Hrest IHrest]; [reflexivity|].
  simpl in Hm, Hv, Hl. apply orb_false_elim in Hm as [Hmv Hmrest].
  rewrite (IHrest Hmrest), app_nil_r.
  destruct v as [| | | |l|kvs']; try reflexivity.
  - simpl in Hmv. unfold Py.eq_str. rewrite Hmv. reflexivity.
  - simpl in Hmv. generalize 0. clear - Hl Hmv.
    induction Hl as [|x l Hx Hl IH]; intros i; [reflexivity|].
    simpl in Hmv. apply orb_false_elim in Hmv as [H1 H2].
    rewrite (Hx H1), (IH H2). reflexivity.
  - apply Hv. exact Hmv.
Qed.

Lemma fresh_key_neq k kvs k' v :
  fresh_key k kvs = true -> In (k', v) kvs -> k' <> k.
Proof.
  induction kvs as [|[k0 v0] rest IH]; simpl; [contradiction|].
  intros H [Heq|Hin].
  - injection Heq as -> ->. apply andb_true_iff in H as [H _].
    apply negb_true_iff, String.eqb_neq in H. congruence.
  - apply andb_true_iff in H as [_ H]. auto.
Qed.

Lemma unique_keys_entries kvs :
  unique_keys (JDict kvs) = true ->
  forall k v, In (k, v) kvs -> unique_keys v = true /\ Py.dict_get k kvs = Some v.
Proof.
  induction kvs as [|[k0 v0] rest IH]; intros H k v Hin; [contradiction|].
  simpl in H. apply andb_true_iff in H as [H Hrest].
  apply andb_true_iff in H as [Hfresh Hv0].
  destruct Hin as [Heq|Hin].
  - injection Heq as -> ->. simpl. rewrite String.eqb_refl. auto.
  - destruct (IH Hrest k v Hin) as [Hu Hget]. split; [exact Hu|].
    simpl. pose proof (fresh_key_neq _ _ _ _ Hfresh Hin) as Hne.
    apply String.eqb_neq in Hne. rewrite Hne. exact Hget.
Qed.

Lemma list_index_nat {A} (l : list A) i x :
  nth_error l i = Some x -> Py.list_index l (Z.of_nat i) = Ret x.
Proof.
  intros H. assert (Hlt : i < List.length l) by (apply nth_error_Some; congruence).
  unfold Py.list_index. cbv zeta.
  destruct (Z.ltb_spec (Z.of_nat i) 0); [lia|].
  destruct (Z.ltb_spec (Z.of_nat i) 0); [lia|].
  destruct (Z.leb_spec (Z.of_nat (List.length l)) (Z.of_nat i)); [lia|].
  simpl. rewrite Nat2Z.id, H. reflexivity.
Qed.

Lemma match_resolves env data :
  unique_keys data = true ->
  forall path0 p, In p (sentinel_paths data path0) ->
                  leads_to_match env data path0 p.
Proof.
  induction data as [| | | |l IHl|kvs IH] using json_search_ind;
    intros Hu path0 p Hin; try contradiction.
  pose proof (unique_keys_entries kvs Hu) as Hent.
  simpl in Hin.
  assert (Hgen : forall rest,
             incl rest kvs ->
             In p ((fix items (kvs0 : list (string * json)) : list (list pelem) :=
                      match kvs0 with
                      | [] => []
                      | (k, v) :: rest0 =>
                          match v with
                          | JList l =>
                              (fix elems (l0 : list json) (i : nat) {struct l0}
                                 : list (list pelem) :=
                                 match l0 with
                                 | [] => []
                                 | item :: l' =>
                                     sentinel_paths item (path0 ++ [PKey k; PIdx i])
                                       ++ elems l' (S i)
                                 end) l 0
                          | JDict _ => sentinel_paths v (path0 ++ [PKey k])
                          | _ => if Py.eq_str v SENTINEL then [path0] else []
                          end ++ items rest0
                      end) rest) ->
             leads_to_match env (JDict kvs) path0 p).
  { clear Hin. intros rest. induction rest as [|[k v] rest IHrest];
      intros Hincl Hin; [contradiction|].
    apply in_app_or in Hin as [Hin|Hin];
      [|apply IHrest; [intros x Hx; apply Hincl; now right | exact Hin]].
    assert (Hkv : In (k, v) kvs) by (apply Hincl; now left).
    destruct (Hent k v Hkv) as [Huv Hget].
    pose proof (proj1 (Forall_forall _ _) IH (k, v) Hkv) as [Qv Ql].
    simpl in Qv, Ql.
    assert (Hscalar : In p (if Py.eq_str v SENTINEL then [path0] else []) ->
                      leads_to_match env (JDict kvs) path0 p).
    { intros H. destruct (Py.eq_str v SENTINEL) eqn:Heq; [|contradiction].
      destruct H as [<-|[]].
      destruct v; try discriminate. simpl in Heq. apply String.eqb_eq in Heq.
      subst s. exists [], kvs, k. rewrite app_nil_r. auto. }
    destruct v as [| | | |l|kvs']; try (apply Hscalar; exact Hin).
    - (* a list: its elements, by index *)
      assert (Hel : forall l' i0,
                 (forall j x, nth_error l' j = Some x ->
                              nth_error l (i0 + j) = Some x) ->
                 Forall (fun x => unique_keys x = true ->
                                  forall path1 p1,
                                    In p1 (sentinel_paths x path1) ->
                                    leads_to_match env x path1 p1) l' ->
                 forallb unique_keys l' = true ->
                 In p ((fix elems (l0 : list json) (i : nat) {struct l0}
                          : list (list pelem) :=
                          match l0 with
                          | [] => []
                          | item :: l'0 =>
                              sentinel_paths item (path0 ++ [PKey k; PIdx i])
                                ++ elems l'0 (S i)
                          end) l' i0) ->
                 leads_to_match env (JDict kvs) path0 p).
      { clear Hin. intros l'. induction l' as [|x l' IHl'];
          intros i0 Hnth HQ Hul Hin; [contradiction|].
        inversion HQ as [|? ? Hx HQ']; subst.
        simpl in Hul. apply andb_true_iff in Hul as [Hux Hul].
        apply in_app_or in Hin as [Hin|Hin].
        - destruct (Hx Hux _ _ Hin) as (q & kvs1 & k1 & -> & Hf & Hs).
          exists (PKey k :: PIdx i0 :: q), kvs1, k1.
          split; [now rewrite <- app_assoc|]. split; [|exact Hs].
          simpl. rewrite Hget. simpl.
          rewrite (list_index_nat l i0 x).
          + simpl. exact Hf.
          + specialize (Hnth 0 x eq_refl). now rewrite Nat.add_0_r in Hnth.
        - apply (IHl' (S i0)); auto.
          intros j y Hy. specialize (Hnth (S j) y Hy).
          now rewrite Nat.add_succ_r in Hnth. }
      apply (Hel l 0); auto.
    - (* a dict: one key deeper *)
      destruct (Qv Huv _ _ Hin) as (q & kvs1 & k1 & -> & Hf & Hs).
      exists (PKey k :: q), kvs1, k1.
      split; [now rewrite <- app_assoc|]. split; [|exact Hs].
      simpl. rewrite Hget. simpl. exact Hf. }
  apply (Hgen kvs); [apply incl_refl | exact Hin].
Qed.

(** C4 (as amended).  The search descends into the entries of a mapping in
    insertion order: into a mapping-valued entry, and into the elements of a
    sequence-valued entry in index order.  It returns the first match of
    that traversal, where a match is the path of a mapping that holds an
    entry whose value is the sentinel string; later matches are not looked
    at.  It returns [None] when the traversal has no match, in particular
    when the sentinel occurs nowhere in the tree.  On a tree whose dicts have
    no repeated key, following the path found ends at that mapping, and the
    path resolver returns its [simpleSettingValue.value]. *)
Theorem C4_search_returns_first_match (env : Env) (data : json)
    (path0 : list pelem) :
  _get_detection_script_id data path0 = hd_error (sentinel_paths data path0)
  /\ (mentions_sentinel data = false ->
      _get_detection_script_id data path0 = None)
  /\ (forall p,
        unique_keys data = true ->
        _get_detection_script_id data path0 = Some p ->
        exists q kvs k,
          p = path0 ++ q
          /\ follow_path env data q = Ret (JDict kvs)
          /\ In (k, JStr SENTINEL) kvs
          /\ _get_value_from_path env data q
             = (s <- Py.getitem (JDict kvs) "simpleSettingValue" ;;
                Py.getitem s "value")%res).
Proof.
  split; [apply search_is_first_match|]. split.
  - intros Hm. rewrite search_is_first_match, no_mention_no_match by exact Hm.
    reflexivity.
  - intros p Hu Hp. rewrite search_is_first_match in Hp.
    assert (Hin : In p (sentinel_paths data path0)).
    { destruct (sentinel_paths data path0); [discriminate|].
      injection Hp as ->. now left. }
    destruct (match_resolves env data Hu path0 p Hin) as (q & kvs & k & Hq & Hf & Hs).
    exists q, kvs, k. repeat split; auto.
    unfold _get_value_from_path. rewrite Hf. reflexivity.
Qed.

Lemma C4_witness :
  unique_keys linux_policy = true
  /\ _get_detection_script_id linux_policy []
     = Some [PKey "settings"; PIdx 0; PKey "settingInstance"]
  /\ _get_value_from_path (sample_env [] JNull (fun _ => [])) linux_policy
       [PKey "settings"; PIdx 0; PKey "settingInstance"]
     = Ret (JStr "script-1")
  /\ exists q kvs k,
       [PKey "settings"; PIdx 0; PKey "settingInstance"] = [] ++ q
       /\ follow_path (sample_env [] JNull (fun _ => [])) linux_policy q
          = Ret (JDict kvs)
       /\ In (k, JStr SENTINEL) kvs
       /\ _get_value_from_path (sample_env [] JNull (fun _ => [])) linux_policy q
          = (s <- Py.getitem (JDict kvs) "simpleSettingValue" ;;
             Py.getitem s "value")%res.
Proof.
  split; [reflexivity|]. split; [reflexivity|]. split; [reflexivity|].
  exact (proj2 (proj2 (C4_search_returns_first_match
                         (sample_env [] JNull (fun _ => [])) linux_policy []))
           [PKey "settings"; PIdx 0; PKey "settingInstance"] eq_refl eq_refl).
Defined.

(** The spec's sentence fails as written, twice.  The path returned for a
    match is the path of the mapping that holds the sentinel, so the value at
    that path is not the sentinel; and a sentinel under a sequence nested
    directly in a sequence is passed over: the search returns [None] although
    a path of the tree leads to the sentinel (and
    [_check_linux_discovery_script] finds it). *)
Lemma C4_counterexample :
  (_get_detection_script_id (JDict [("settingDefinitionId", JStr SENTINEL)]) []
   = Some []
   /\ value_at (JDict [("settingDefinitionId", JStr SENTINEL)]) []
      <> Some (JStr SENTINEL))
  /\ (value_at
        (JDict [("settings",
                 JList [JList [JDict [("settingDefinitionId", JStr SENTINEL)]]])])
        [PKey "settings"; PIdx 0; PIdx 0; PKey "settingDefinitionId"]
      = Some (JStr SENTINEL)
      /\ _check_linux_discovery_script
           (JDict [("settings",
                    JList [JList [JDict [("settingDefinitionId", JStr SENTINEL)]]])])
         = true
      /\ _get_detection_script_id
           (JDict [("settings",
                    JList [JList [JDict [("settingDefinitionId", JStr SENTINEL)]]])])
           []
         = None).
Proof.
  split; split; try reflexivity.
  - discriminate.
  - split; reflexivity.
Qed.

(** ** C3: one batch call per stage, over the deduplicated identifiers *)

Lemma key_eqb_sym a b : Py.key_eqb a b = Py.key_eqb b a.
Proof.
  destruct a, b; simpl; try reflexivity;
    try apply Z.eqb_sym; try apply String.eqb_sym.
Qed.

Lemma key_eqb_trans a b c :
  Py.key_eqb a b = true -> Py.key_eqb b c = true -> Py.key_eqb a c = true.
Proof.
  destruct a, b, c; simpl; try discriminate; try reflexivity;
    rewrite ?Z.eqb_eq, ?String.eqb_eq; congruence.
Qed.

Lemma set_mem_app x s t : Py.set_mem x (s ++ t) = Py.set_mem x s || Py.set_mem x t.
Proof. apply existsb_app. Qed.

Lemma set_mem_trans x y s :
  Py.key_eqb x y = true -> Py.set_mem y s = true -> Py.set_mem x s = true.
Proof.
  intros Hxy Hy. apply existsb_exists in Hy as (z & Hin & Hz).
  apply existsb_exists. exists z. split; [exact Hin|].
  eapply key_eqb_trans; eauto.
Qed.

Lemma key_nodup_snoc s x :
  key_nodup s -> Py.set_mem x s = false -> key_nodup (s ++ [x]).
Proof.
  induction s as [|a r IH]; simpl; intros Hs Hx; [auto|].
  destruct Hs as [Ha Hr]. apply orb_false_elim in Hx as [Hxa Hxr].
  split; [|auto].
  rewrite set_mem_app, Ha. simpl. rewrite key_eqb_sym, Hxa. reflexivity.
Qed.

Lemma adds_fold {S A} (proj : S -> Py.pyset) (step : S -> A -> res S) contrib :
  adds proj step contrib ->
  adds proj (rfoldM step) (fun l x => exists a, In a l /\ contrib a x).
Proof.
  intros Hstep s l. revert s. induction l as [|a l IH]; simpl; intros s s' H.
  - injection H as <-. split; [auto|]. intros x. split; [auto|].
    intros [Hx | (a & [] & _)]. exact Hx.
  - destruct (step s a) as [s1|] eqn:H1; simpl in H; [|discriminate].
    destruct (Hstep _ _ _ H1) as [Hn1 Hm1]. destruct (IH _ _ H) as [Hn Hm].
    split; [auto|]. intros x. rewrite Hm, Hm1. split.
    + intros [[Hx|Hx] | (b & Hb & Hx)]; eauto.
    + intros [Hx | (b & [<-|Hb] & Hx)]; eauto.
Qed.

Lemma adds_set_add :
  adds (fun s => s) Py.set_add (fun a x => Py.key_eqb x a = true).
Proof.
  intros s a s' H. unfold Py.set_add in H.
  destruct (Py.hashable a); [|discriminate].
  destruct (Py.set_mem a s) eqn:Hmem; injection H as <-.
  - split; [auto|]. intros x. split; [auto|].
    intros [Hx|Hx]; [exact Hx | eapply set_mem_trans; eauto].
  - split; [intros Hs; now apply key_nodup_snoc|].
    intros x. rewrite set_mem_app. simpl. rewrite orb_false_r.
    apply orb_true_iff.
Qed.

Lemma adds_set_update : adds (fun s => s) Py.set_update element_of.
Proof.
  intros s v s' H. unfold Py.set_update in H.
  destruct (Py.iter v) as [xs|] eqn:Hit; simpl in H; [|discriminate].
  destruct (adds_fold _ _ _ adds_set_add _ _ _ H) as [Hn Hm].
  split; [exact Hn|]. intros x. rewrite Hm. unfold element_of. split.
  - intros [Hx | (a & Ha & Hx)]; eauto 6.
  - intros [Hx | (xs' & a & Hit' & Ha & Hx)]; [auto|].
    rewrite Hit in Hit'. injection Hit' as <-. eauto.
Qed.

(** *** AppConfiguration *)

Lemma adds_collect_apps :
  adds (fun s => s) AppConfiguration.collect_apps app_of_record.
Proof.
  intros s item s' H. unfold AppConfiguration.collect_apps in H. rinv H.
  destruct (adds_set_update _ _ _ H) as [Hn Hm]. split; [exact Hn|].
  intros x. rewrite Hm. unfold app_of_record. split.
  - intros [Hx|Hx]; eauto.
  - intros [Hx | (apps & Hg & Hx)]; [auto|]. rewrite Ha in Hg.
    injection Hg as <-. auto.
Qed.

(** *** DeviceCompliance *)

Lemma adds_harvest_config :
  adds (fun s => s) DeviceCompliance.harvest_config template_of_config.
Proof.
  intros s config s' H. unfold DeviceCompliance.harvest_config in H. rinv H.
  - apply andb_true_iff in Hb as [Ht Hz]. apply negb_true_iff in Hz.
    destruct (adds_set_add _ _ _ H) as [Hn Hm]. split; [exact Hn|].
    intros x. rewrite Hm. unfold template_of_config. split.
    + intros [Hx|Hx]; eauto 7.
    + intros [Hx | (tid & Hg & _ & _ & Hx)]; [auto|].
      rewrite Ha in Hg. injection Hg as <-. auto.
  - injection H as <-. split; [auto|]. intros x. split; [auto|].
    intros [Hx | (tid & Hg & Ht & Hz & _)]; [exact Hx|].
    rewrite Ha in Hg. injection Hg as <-.
    rewrite Ht, Hz in Hb. discriminate.
Qed.

Lemma adds_harvest_action :
  adds (fun s => s) DeviceCompliance.harvest_action template_of_action.
Proof.
  intros s action s' H. unfold DeviceCompliance.harvest_action in H. rinv H.
  destruct (adds_fold _ _ _ adds_harvest_config _ _ _ H) as [Hn Hm].
  split; [exact Hn|]. intros x. rewrite Hm. unfold template_of_action. split.
  - intros [Hx | (c & Hc & Hx)]; eauto 8.
  - intros [Hx | (configs & cs & c & Hg & Hi & Hc & Hx)]; [auto|].
    rewrite Ha in Hg. injection Hg as <-. rewrite Ha0 in Hi.
    injection Hi as <-. eauto.
Qed.

Lemma adds_scheduled_step :
  adds snd DeviceCompliance.scheduled_step template_of_response.
Proof.
  intros [m ids] response [m' ids'] H.
  unfold DeviceCompliance.scheduled_step in H. rinv H.
  - injection H as <- <-. simpl.
    match goal with
    | Hf : rfoldM DeviceCompliance.harvest_action _ _ = Ret _ |- _ =>
        destruct (adds_fold _ _ _ adds_harvest_action _ _ _ Hf) as [Hn Hm]
    end.
    split; [exact Hn|]. intros x. rewrite Hm. unfold template_of_response. split.
    + intros [Hx | (act & Hact & Hx)]; [auto|]. right.
      exists a0, a1, a2, a4, act. auto 10.
    + intros [Hx | (key & body & v & actions & act & _ & _ & _ & Hb1 & Hb2 & Hi & Hact & Hx)];
        [auto|].
      rewrite Ha1 in Hb1. injection Hb1 as <-. rewrite Ha2 in Hb2.
      injection Hb2 as <-. rewrite Ha4 in Hi. injection Hi as <-. eauto.
  - injection H as <- <-. simpl. split; [auto|]. intros x. split; [auto|].
    intros [Hx | (key & body & v & actions & act & _ & Hk & Ht & _)]; [exact Hx|].
    rewrite Ha0 in Hk. injection Hk as <-. congruence.
  - injection H as <- <-. simpl. split; [auto|]. intros x. split; [auto|].
    intros [Hx | (key & body & v & actions & act & Hbv & _)]; [exact Hx|].
    congruence.
Qed.

(** *** Roles *)

Lemma adds_collect_members field :
  adds (fun s => s) (Roles.collect_members field) (member_of_detail field).
Proof.
  intros s detail s' H. unfold Roles.collect_members in H. rinv H.
  - destruct (adds_set_update _ _ _ H) as [Hn Hm]. split; [exact Hn|].
    intros x. rewrite Hm. unfold member_of_detail. split.
    + intros [Hx|Hx]; eauto 7.
    + intros [Hx | (v & members & _ & _ & Hg & Hx)]; [auto|].
      rewrite Ha0 in Hg. injection Hg as <-. auto.
  - injection H as <-. split; [auto|]. intros x. split; [auto|].
    intros [Hx | (v & members & Hg & Ht & _)]; [exact Hx|].
    rewrite Ha in Hg. injection Hg as <-. congruence.
Qed.

Lemma adds_collect_groups :
  adds (fun s => s) Roles.collect_groups group_of_detail.
Proof.
  intros s entry s' H. unfold Roles.collect_groups in H. rinv H.
  destruct (adds_collect_members _ _ _ _ Ha) as [Hn1 Hm1].
  destruct (adds_collect_members _ _ _ _ H) as [Hn2 Hm2].
  split; [auto|]. intros x. rewrite Hm2, Hm1. unfold group_of_detail. tauto.
Qed.

(** *** The harvested sets *)

Lemma harvested_set {S A} (proj : S -> Py.pyset) (step : S -> A -> res S)
    contrib s0 l s :
  adds proj step contrib ->
  proj s0 = [] ->
  rfoldM step s0 l = Ret s ->
  key_nodup (proj s)
  /\ forall x, Py.set_mem x (proj s) = true <-> exists a, In a l /\ contrib a x.
Proof.
  intros Hadds H0 H.
  destruct (adds_fold _ _ _ Hadds _ _ _ H) as [Hn Hm].
  rewrite H0 in Hn, Hm. split; [apply Hn; exact I|].
  intros x. rewrite Hm. simpl. split; [intros [Hx|Hx]; [discriminate | exact Hx] | auto].
Qed.

Lemma dc_gather_harvest env g st :
  outcome (DeviceCompliance.gather env g) = Ret st ->
  exists m,
    rfoldM DeviceCompliance.scheduled_step ([], []) (DeviceCompliance.g_responses st)
    = Ret (m, DeviceCompliance.g_template_ids st).
Proof.
  intros H. unfold DeviceCompliance.gather in H. minv H. unlift.
  injection H as <-. simpl. eauto.
Qed.

Lemma roles_gather_harvest env value st :
  outcome (Roles.gather env value) = Ret st ->
  rfoldM Roles.collect_groups [] (Roles.g_details st) = Ret (Roles.g_group_ids st).
Proof.
  intros H. unfold Roles.gather in H. minv H. unlift.
  injection H as <-. simpl. assumption.
Qed.

(** *** The batch calls *)

Lemma batch_calls_lift_bind {A B} url (r : res A) (f : A -> M B) :
  batch_calls url (events (mbind (lift r) f))
  = match r with
    | Ret a => batch_calls url (events (f a))
    | Exc _ => []
    end.
Proof. rewrite batch_calls_mbind. destruct r; reflexivity. Qed.

Lemma app_batch_calls env g value items ids :
  primary_fetch AppConfigurationModule env = Ret g ->
  Py.getitem g "value" = Ret value ->
  Py.truthy value = true ->
  Py.iter value = Ret items ->
  rfoldM AppConfiguration.collect_apps [] items = Ret ids ->
  batch_calls AppConfiguration.APP_ENDPOINT (events (AppConfiguration.main env))
  = match ids with
    | [] => []
    | _ => [List.map id_item (set_order env ids)]
    end.
Proof.
  intros Hf Hv Ht Hi Hc.
  rewrite (main_batch_calls AppConfigurationModule env), Hf.
  change (enrich_of AppConfigurationModule env g) with (AppConfiguration.enrich env g).
  unfold AppConfiguration.enrich.
  rewrite batch_calls_lift_bind, Hv, Ht.
  rewrite batch_calls_lift_bind, Hi.
  rewrite batch_calls_lift_bind, Hc.
  rewrite batch_calls_mbind.
  replace (match outcome (AppConfiguration.fetch_apps env ids) with
           | Ret a => _
           | Exc _ => []
           end) with ([] : list (list json))
    by (destruct (outcome _); reflexivity).
  rewrite app_nil_r. unfold AppConfiguration.fetch_apps.
  destruct ids as [|x xs]; [reflexivity|].
  rewrite batch_calls_mbind. simpl.
  destruct (batch_request env _ _ _ _); reflexivity.
Qed.

Lemma roles_gather_no_group_batch env value :
  batch_calls Roles.GROUPS_URL (events (Roles.gather env value)) = [].
Proof.
  apply batch_calls_none.
  change (emits (not_batch_to Roles.GROUPS_URL) (Roles.gather env value)).
  unfold Roles.gather, Roles.fetch_assignments, Roles.fetch_details.
  emits.
Qed.

Lemma roles_finish_group_batch env value st :
  batch_calls Roles.GROUPS_URL (events (Roles.finish env value st))
  = match Roles.g_group_ids st with
    | [] => []
    | ids => [List.map id_item (set_order env ids)]
    end.
Proof.
  unfold Roles.finish. rewrite batch_calls_mbind.
  replace (match outcome (Roles.fetch_groups env (Roles.g_group_ids st)) with
           | Ret a => _
           | Exc _ => []
           end) with ([] : list (list json)).
  - rewrite app_nil_r. unfold Roles.fetch_groups.
    destruct (Roles.g_group_ids st) as [|x xs]; [reflexivity|].
    rewrite batch_calls_mbind. simpl.
    destruct (batch_request env _ _ _ _); reflexivity.
  - destruct (outcome _) as [tm|]; [|reflexivity].
    rewrite batch_calls_mbind. simpl.
    destruct (rfoldM _ _ _) as [[store done]|]; reflexivity.
Qed.

Lemma roles_group_calls env g value st :
  Roles.assignments_wanted env = true ->
  primary_fetch RolesModule env = Ret g ->
  Py.getitem g "value" = Ret value ->
  outcome (Roles.gather env value) = Ret st ->
  batch_calls Roles.GROUPS_URL (events (Roles.main env))
  = match Roles.g_group_ids st with
    | [] => []
    | ids => [List.map id_item (set_order env ids)]
    end.
Proof.
  intros Hw Hf Hv Hg.
  rewrite (main_batch_calls RolesModule env), Hf.
  change (enrich_of RolesModule env g) with (Roles.enrich env g).
  rewrite roles_enrich_unfold, batch_calls_mbind.
  replace (match outcome (roles_before_cleanup env g) with
           | Ret a => batch_calls Roles.GROUPS_URL
                        (events (lift (for_each a Roles.cleanup)))
           | Exc _ => []
           end) with ([] : list (list json))
    by (destruct (outcome (roles_before_cleanup env g)); reflexivity).
  rewrite app_nil_r. unfold roles_before_cleanup. rewrite Hw.
  rewrite batch_calls_lift_bind, Hv.
  unfold Roles.assignment_stages.
  rewrite batch_calls_mbind, roles_gather_no_group_batch, Hg.
  apply roles_finish_group_batch.
Qed.

Lemma stage_calls_intro env ids calls :
  (forall s, Permutation (set_order env s) s) ->
  calls = match ids with
          | [] => []
          | _ => [List.map id_item (set_order env ids)]
          end ->
  stage_calls env ids calls.
Proof.
  intros Horder ->. unfold stage_calls. destruct ids as [|x xs]; [reflexivity|].
  eexists. split; [reflexivity|]. split; [reflexivity|]. split.
  - apply Permutation_map, Horder.
  - rewrite length_map. apply Permutation_length, Horder.
Qed.


(** The spec's sentence fails as written when no identifier is referenced:
    one record, no targeted app, and the run completes without any batch
    call. *)
Lemma C3_counterexample :
  let env := sample_env [] untargeted_configuration (fun _ => []) in
  batch_calls AppConfiguration.APP_ENDPOINT (events (AppConfiguration.main env)) = []
  /\ List.length (batch_calls AppConfiguration.APP_ENDPOINT
                    (events (AppConfiguration.main env))) <> 1
  /\ filter is_batch (events (AppConfiguration.main env)) = []
  /\ exists r, outcome (AppConfiguration.main env) = Ret (Some r).
Proof.
  cbv zeta. split; [vm_compute; reflexivity|].
  split; [vm_compute; discriminate|].
  split; [vm_compute; reflexivity|].
  eexists. vm_compute. reflexivity.
Qed.

(** ** C5: an identifier that does not resolve *)


Lemma first_resolved_none m apps :
  Forall (fun a => Py.hashable a = true /\ Py.map_find a m = None) apps ->
  AppConfiguration.first_resolved m apps = Ret None.
Proof.
  induction 1 as [|a apps [Hh Hf] _ IH]; [reflexivity|].
  simpl. unfold Py.map_get. rewrite Hh, Hf. simpl. exact IH.
Qed.

Lemma rmapM_Forall2 {A B} (f : A -> res B) l l' :
  Forall2 (fun x y => f x = Ret y) l l' -> rmapM f l = Ret l'.
Proof.
  induction 1 as [|x y l l' Hxy _ IH]; [reflexivity|].
  simpl. rewrite Hxy. simpl. rewrite IH. reflexivity.
Qed.

Lemma enriched_is_persisted b env g data :
  primary_fetch b env = Ret g ->
  outcome (enrich_of b env g) = Ret data ->
  persisted (events (main_of b env)) = [data].
Proof.
  intros Hf He.
  pose proof (main_run_trace b env _ (main_of_run b env)) as H.
  destruct (outcome (main_of b env)) as [[r|]|e].
  - destruct H as (_ & g' & data' & Hf' & He' & _ & Hd). congruence.
  - destruct H as (_ & [[[e Hx] _] | (g' & data' & e' & Hf' & He' & _ & Hd)]);
      congruence.
  - destruct H as (_ & _ & g' & Hf' & He'). congruence.
Qed.

Lemma outcome_lift_bind {A B} (r : res A) (f : A -> M B) :
  outcome (mbind (lift r) f)
  = match r with
    | Ret a => outcome (f a)
    | Exc e => Exc e
    end.
Proof. rewrite outcome_mbind. reflexivity. Qed.



Example linux_run :
  events (DeviceCompliance.main linux_env)
  = [EvRequest "https://graph.microsoft.com/beta/deviceManagement/compliancePolicies"
       [("$expand", "settings")];
     EvRequest
       "https://graph.microsoft.com/beta/deviceManagement/reusablePolicySettings/"
       [("$filter", "id eq 'script-1'")];
     EvBatch [id_item (JStr "lp1")] DeviceCompliance.CONFIG_ENDPOINT
       "/scheduledActionsForRule?$expand=scheduledActionConfigurations" "GET";
     EvPersist
       (JList [JDict [("id", JStr "lp1");
                      ("name", JStr "Linux custom compliance");
                      ("settings",
                       JList [JDict [("id", JStr "0");
                                     ("settingInstance",
                                      JDict [("settingDefinitionId", JStr SENTINEL);
                                             ("simpleSettingValue",
                                              JDict [("value", JStr "script-1")])])]]);
                      ("detectionScriptName", JStr "Check kernel");
                      ("scheduledActionsForRule", JList [])]])
       "/backup" "name" DeviceCompliance.LOG_MESSAGE].
Proof. vm_compute. reflexivity. Qed.

Example gpo_run :
  events (GroupPolicyConfigurations.main gpo_env)
  = [EvRequest
       "https://graph.microsoft.com/beta/deviceManagement/groupPolicyConfigurations" [];
     EvBatch [id_item (JStr "gp1")] GroupPolicyConfigurations.CONFIG_ENDPOINT
       "/definitionValues?$expand=definition" "GET";
     EvBatch [id_item (JStr "gp1/definitionValues/dv1")]
       GroupPolicyConfigurations.CONFIG_ENDPOINT
       "/presentationValues?$expand=presentation" "GET";
     EvPersist
       (JList [JDict [("id", JStr "gp1");
                      ("displayName", JStr "Edge");
                      ("definitionValues",
                       JList [JDict [("id", JStr "dv1");
                                     ("enabled", JBool true);
                                     ("presentationValues",
                                      JList [JDict [("id", JStr "pv1");
                                                    ("value", JStr "on")]])]])]])
       "/backup" "displayName" GroupPolicyConfigurations.LOG_MESSAGE].
Proof. vm_compute. reflexivity. Qed.

(** * Further properties of the modules *)

(** ** The two searches of DeviceCompliance *)

Lemma hd_error_In {A} (l : list A) x : hd_error l = Some x -> In x l.
Proof. destruct l; [discriminate|]. intros [= ->]. now left. Qed.

Lemma match_is_checked data :
  forall path p, In p (sentinel_paths data path) ->
                 _check_linux_discovery_script data = true.
Proof.
  induction data as [| | | |l IHl|kvs IH] using json_search_ind;
    intros path p Hin; try contradiction.
  simpl in Hin |- *.
  destruct (existsb (fun kv => Py.eq_str (snd kv) SENTINEL) kvs) eqn:Hdirect;
    [reflexivity|].
  revert Hdirect Hin.
  induction IH as [|[k v] rest [Hv Hl] Hrest IHrest]; intros Hdirect Hin;
    [contradiction|].
  simpl in Hdirect. apply orb_false_elim in Hdirect as [Hd1 Hd2].
  simpl. apply in_app_or in Hin as [Hin|Hin];
    [|rewrite (IHrest Hd2 Hin); apply orb_true_r].
  simpl in Hv, Hl, Hd1.
  destruct v as [| | | |l|kvs'];
    try (rewrite Hd1 in Hin; contradiction).
  - assert (Hex : existsb _check_linux_discovery_script l = true).
    { revert Hin. generalize 0. clear - Hl.
      induction Hl as [|x l Hx Hl IH]; intros i Hin; [contradiction|].
      simpl. apply in_app_or in Hin as [Hin|Hin].
      - rewrite (Hx _ _ Hin). reflexivity.
      - rewrite (IH _ Hin). apply orb_true_r. }
    simpl. rewrite Hex. reflexivity.
  - rewrite (Hv _ _ Hin). reflexivity.
Qed.

(** X1.  Whatever [_get_detection_script_id] finds, the check
    [_check_linux_discovery_script] accepts: a record that the guard of
    [main] (lines 145 and 208) turns away has no path to find. *)
Theorem X1_found_path_passes_check (data : json) (path p : list pelem)
    (Hfound : _get_detection_script_id data path = Some p) :
  _check_linux_discovery_script data = true.
Proof.
  rewrite search_is_first_match in Hfound.
  eapply match_is_checked. eapply hd_error_In. exact Hfound.
Qed.

Lemma X1_witness :
  _get_detection_script_id linux_policy []
  = Some [PKey "settings"; PIdx 0; PKey "settingInstance"]
  /\ _check_linux_discovery_script linux_policy = true.
Proof.
  split; [reflexivity|].
  exact (X1_found_path_passes_check linux_policy []
           [PKey "settings"; PIdx 0; PKey "settingInstance"] eq_refl).
Defined.

Lemma checked_has_match_dict kvs :
  (Forall (fun kv =>
       (flat_lists (snd kv) = true ->
        _check_linux_discovery_script (snd kv) = true ->
        match snd kv with
        | JList _ => True
        | _ => forall path, sentinel_paths (snd kv) path <> []
        end)
       /\ match snd kv with
          | JList l =>
              Forall (fun x => flat_lists x = true ->
                               _check_linux_discovery_script x = true ->
                               match x with
                               | JList _ => True
                               | _ => forall path, sentinel_paths x path <> []
                               end) l
          | _ => True
          end) kvs) ->
  flat_lists (JDict kvs) = true ->
  _check_linux_discovery_script (JDict kvs) = true ->
  forall path, sentinel_paths (JDict kvs) path <> [].
Proof.
  intros IH Hflat Hcheck path.
  simpl in Hflat, Hcheck |- *.
  assert (Hany : existsb (fun kv => Py.eq_str (snd kv) SENTINEL
                                    || _check_linux_discovery_script (snd kv)) kvs
                 = true).
  { destruct (existsb (fun kv => Py.eq_str (snd kv) SENTINEL) kvs) eqn:Hd.
    - apply existsb_exists in Hd as (kv & Hin & Hkv).
      apply existsb_exists. exists kv. rewrite Hkv. auto.
    - apply existsb_exists in Hcheck as (kv & Hin & Hkv).
      apply existsb_exists. exists kv. rewrite Hkv, orb_true_r. auto. }
  clear Hcheck.
  induction IH as [|[k v] rest [Hv Hl] Hrest IHrest]; [discriminate|].
  simpl in Hflat, Hany, Hv, Hl.
  apply andb_true_iff in Hflat as [Hfv Hfrest].
  apply orb_true_iff in Hany as [Hhere|Hlater].
  - intros Happ. apply app_eq_nil in Happ as [Hnil _]. revert Hnil.
    apply orb_true_iff in Hhere as [Hs|Hc].
    + destruct v; try discriminate. rewrite Hs. discriminate.
    + destruct v as [| | | |l|kvs']; try discriminate.
      * (* a list: one element passes the check *)
        simpl in Hc, Hfv. generalize 0. clear - Hl Hc Hfv.
        induction Hl as [|x l Hx Hl IH]; intros i; [discriminate|].
        simpl in Hc, Hfv. apply andb_true_iff in Hfv as [Hfx Hfl].
        apply orb_true_iff in Hc as [Hcx|Hcl].
        -- intros Happ. apply app_eq_nil in Happ as [Hnil _]. revert Hnil.
           destruct x; try discriminate; apply (Hx Hfx Hcx).
        -- intros Happ. apply app_eq_nil in Happ as [_ Hnil]. revert Hnil.
           apply IH; assumption.
      * apply (Hv Hfv Hc).
  - intros Happ. apply app_eq_nil in Happ as [_ Hnil]. revert Hnil.
    apply IHrest; assumption.
Qed.

Lemma checked_has_match data :
  flat_lists data = true ->
  _check_linux_discovery_script data = true ->
  match data with
  | JList _ => True
  | _ => forall path, sentinel_paths data path <> []
  end.
Proof.
  induction data as [| | | |l IHl|kvs IH] using json_search_ind;
    intros Hflat Hcheck; try discriminate; [exact I|].
  apply checked_has_match_dict; auto.
Qed.

(** X2.  On a record in which no list has a list as a direct element, the
    search finds a path whenever the check accepts the record: the test
    [detection_script_id_path is not None] of [main] (lines 147 and 210) can
    only fail on a tree with directly nested lists. *)
Theorem X2_check_implies_path_without_nested_lists
    (kvs : list (string * json)) (path : list pelem)
    (Hflat : flat_lists (JDict kvs) = true)
    (Hcheck : _check_linux_discovery_script (JDict kvs) = true) :
  exists p, _get_detection_script_id (JDict kvs) path = Some p.
Proof.
  rewrite search_is_first_match.
  pose proof (checked_has_match (JDict kvs) Hflat Hcheck path) as Hne.
  destruct (sentinel_paths (JDict kvs) path) as [|p rest]; [contradiction|].
  exists p. reflexivity.
Qed.

Lemma X2_witness :
  flat_lists linux_policy = true
  /\ _check_linux_discovery_script linux_policy = true
  /\ exists p, _get_detection_script_id linux_policy [] = Some p.
Proof.
  split; [reflexivity|]. split; [reflexivity|].
  exact (X2_check_implies_path_without_nested_lists
           [("id", JStr "lp1");
            ("name", JStr "Linux custom compliance");
            ("settings",
             JList [JDict [("id", JStr "0");
                           ("settingInstance",
                            JDict [("settingDefinitionId", JStr SENTINEL);
                                   ("simpleSettingValue",
                                    JDict [("value", JStr "script-1")])])]])]
           [] eq_refl eq_refl).
Defined.

(** ** The shape of the persisted compliance policies *)

Lemma check_needs_mention data :
  mentions_sentinel data = false -> _check_linux_discovery_script data = false.
Proof.
  induction data as [| | | |l IHl|kvs IH] using json_tree_ind; intros Hm;
    try reflexivity.
  - simpl in Hm |- *. induction IHl as [|x l Hx _ IH]; [reflexivity|].
    simpl in Hm |- *. apply orb_false_elim in Hm as [H1 H2].
    rewrite (Hx H1), (IH H2). reflexivity.
  - simpl in Hm |- *.
    assert (H1 : existsb (fun kv => Py.eq_str (snd kv) SENTINEL) kvs = false).
    { clear IH. induction kvs as [|[k v] rest IH]; [reflexivity|].
      simpl in Hm |- *. apply orb_false_elim in Hm as [Hv Hr].
      rewrite (IH Hr), orb_false_r.
      destruct v; try reflexivity. exact Hv. }
    rewrite H1. clear H1. revert Hm.
    induction IH as [|[k v] rest Hv _ IHrest]; intros Hm; [reflexivity|].
    simpl in Hm, Hv |- *. apply orb_false_elim in Hm as [Hmv Hmr].
    rewrite (Hv Hmv), (IHrest Hmr). reflexivity.
Qed.

Lemma dc_process_step_shape env scripts templates s done item s' done' :
  DeviceCompliance.process_step env scripts templates (s, done) item
  = Ret (s', done') ->
  exists y, done' = done ++ [y]
            /\ forall store, compliance_shape item (DeviceCompliance.resolve store y).
Proof.
  intros H. unfold DeviceCompliance.process_step in H. rinv H.
  - injection H as <- <-. eexists. split; [reflexivity|]. intros store.
    destruct a as [| | | | |kvs]; try discriminate.
    simpl in Ha2. injection Ha2 as <-. simpl.
    assert (Hscript : _check_linux_discovery_script item = false ->
                      Py.dict_get "detectionScriptName" kvs
                      = field_of "detectionScriptName" item).
    { intros Hc. unfold DeviceCompliance.add_script_name in Ha.
      rewrite Hc in Ha. injection Ha as ->. reflexivity. }
    destruct (Py.map_find a0 store); unfold compliance_shape; simpl;
      (split; [reflexivity|]); (split; [rewrite dict_get_set_same; eauto|]);
      intros Hc; rewrite !dict_get_set_other by discriminate; auto.
  - injection H as <- <-. eexists. split; [reflexivity|]. intros store.
    destruct a as [| | | | |kvs]; try discriminate.
    simpl in Ha2. injection Ha2 as <-. unfold compliance_shape. simpl.
    split; [reflexivity|]. split; [rewrite dict_get_set_same; eauto|].
    intros Hc. rewrite dict_get_set_other by discriminate.
    unfold DeviceCompliance.add_script_name in Ha.
    rewrite Hc in Ha. injection Ha as ->. reflexivity.
Qed.

Lemma dc_persisted_shape env g items data :
  primary_fetch DeviceComplianceModule env = Ret g ->
  Py.getitem g "value" = Ret (JList items) ->
  In data (persisted (events (DeviceCompliance.main env))) ->
  exists items', data = JList items' /\ Forall2 compliance_shape items items'.
Proof.
  intros Hf Hv Hin.
  pose proof (persisted_from_enrich DeviceComplianceModule env g data Hf Hin) as H.
  simpl in H. unfold DeviceCompliance.enrich in H. minv H.
  destruct (dc_gather_items _ _ _ _ Ha Hv) as [Hval Hit].
  unfold DeviceCompliance.finish in H. minv H. unlift.
  rewrite Hval, Hit in *. injection H as <-.
  match goal with
  | Hfold : rfoldM (DeviceCompliance.process_step _ _ _) _ _ = Ret _ |- _ =>
      eapply (rfoldM_appends
                (fun item y => forall store,
                     compliance_shape item (DeviceCompliance.resolve store y)))
        in Hfold as (new & -> & HF)
  end.
  - eexists. split; [reflexivity|]. simpl. apply Forall2_map_r.
    eapply Forall2_impl; [|exact HF]. intros x y Hxy. apply Hxy.
  - intros. eapply dc_process_step_shape; eauto.
Qed.


(** X4.  A compliance policy in whose tree the sentinel string occurs
    nowhere leaves [main] with its [detectionScriptName] field as fetched:
    none is added. *)
Theorem X4_no_sentinel_no_script_name (env : Env) (g : json)
    (items : list json) (data : json)
    (Hfetch : primary_fetch DeviceComplianceModule env = Ret g)
    (Hvalue : Py.getitem g "value" = Ret (JList items))
    (Hpersisted : In data (persisted (events (DeviceCompliance.main env)))) :
  exists items',
    data = JList items'
    /\ Forall2 (fun r r' => mentions_sentinel r = false ->
                            field_of "detectionScriptName" r'
                            = field_of "detectionScriptName" r)
         items items'.
Proof.
  destruct (dc_persisted_shape env g items data Hfetch Hvalue Hpersisted)
    as (items' & -> & HF).
  exists items'. split; [reflexivity|].
  eapply Forall2_impl; [|exact HF]. intros x y (_ & _ & Hs) Hm.
  apply Hs, check_needs_mention, Hm.
Qed.

Lemma X4_witness :
  primary_fetch DeviceComplianceModule compliance_env = Ret compliance_graph
  /\ In compliance_output (persisted (events (DeviceCompliance.main compliance_env)))
  /\ exists items',
       compliance_output = JList items'
       /\ Forall2 (fun r r' => mentions_sentinel r = false ->
                               field_of "detectionScriptName" r'
                               = field_of "detectionScriptName" r)
            [JDict [("id", JStr "p1"); ("name", JStr "Windows baseline")];
             JDict [("id", JStr "p2"); ("name", JStr "Kiosk")];
             JDict [("id", JStr "p3"); ("name", JStr "Phones")]] items'.
Proof.
  assert (Hin : In compliance_output
                  (persisted (events (DeviceCompliance.main compliance_env)))).
  { vm_compute. left. reflexivity. }
  split; [reflexivity|]. split; [exact Hin|].
  exact (X4_no_sentinel_no_script_name compliance_env compliance_graph _
           compliance_output eq_refl eq_refl Hin).
Defined.


(** ** The shape of the persisted group policy configurations *)

Lemma gpo_assemble_item_shape env dm pm item item' :
  GroupPolicyConfigurations.assemble_item env dm pm item = Ret item' ->
  policy_shape item'.
Proof.
  intros H. unfold GroupPolicyConfigurations.assemble_item in H. rinv H.
  destruct a1 as [| | | | |kvs]; try discriminate.
  simpl in H. injection H as <-.
  exists a2. split; [simpl; apply dict_get_set_same|].
  intros ds ->. destruct a0 as [| | | |l|kvs0].
  - simpl in Ha2. discriminate.
  - simpl in Ha2. discriminate.
  - simpl in Ha2. discriminate.
  - unfold for_each in Ha2. rinv Ha2. discriminate.
  - apply for_each_list in Ha2 as (l' & [= ->] & HF).
    clear - HF. induction HF as [|x y l l' Hxy _ IH]; constructor; auto.
    unfold GroupPolicyConfigurations.attach_presentations in Hxy. rinv Hxy.
    destruct x; try discriminate. simpl in Hxy. injection Hxy as <-.
    eexists. simpl. apply dict_get_set_same.
  - unfold for_each in Ha2. rinv Ha2. discriminate.
Qed.


(** ** Envelope ids that route back *)

Lemma starts_with_slash c s :
  PyStr.starts_with "/" (String c s) = Ascii.eqb "/" c.
Proof. cbn [PyStr.starts_with]. apply andb_true_r. Qed.

Lemma rev_string_app acc s t :
  (PyStr.rev_string acc s ++ t)%string = PyStr.rev_string (acc ++ t)%string s.
Proof.
  revert acc. induction s as [|c s IH]; intros acc; simpl; [reflexivity|].
  apply IH.
Qed.

Lemma split_go_no_slash t cur :
  PyStr.contains "/" t = false ->
  PyStr.split_go "/" t 0 cur = [(PyStr.rev_string "" cur ++ t)%string].
Proof.
  revert cur. induction t as [|c t IH]; intros cur Hc.
  - simpl. rewrite rev_string_app. reflexivity.
  - rewrite contains_cons in Hc. apply orb_false_elim in Hc as [Hs Hc].
    rewrite split_go_cons, Hs, (IH _ Hc). f_equal.
    rewrite !rev_string_app. reflexivity.
Qed.

Lemma split_slash_app a b cur :
  PyStr.split_go "/" (a ++ String "/" b) 0 cur
  = PyStr.split_go "/" a 0 cur ++ PyStr.split_go "/" b 0 "".
Proof.
  revert cur. induction a as [|c a IH]; intros cur.
  - change ("" ++ String "/" b)%string with (String "/" b).
    rewrite split_go_cons. reflexivity.
  - change (String c a ++ String "/" b)%string with (String c (a ++ String "/" b)).
    rewrite !split_go_cons, !starts_with_slash.
    destruct (Ascii.eqb "/" c); rewrite IH; reflexivity.
Qed.

Lemma contains_slash_app a b :
  PyStr.contains "/" (a ++ String "/" b) = true.
Proof.
  induction a as [|c a IH].
  - reflexivity.
  - change (String c a ++ String "/" b)%string with (String c (a ++ String "/" b)).
    rewrite contains_cons, IH. apply orb_true_r.
Qed.

Lemma nth_pred_last {A} (l : list A) d :
  nth (List.length l - 1) l d = last l d.
Proof.
  induction l as [|x l IH]; [reflexivity|].
  destruct l as [|y l]; [reflexivity|].
  change (last (x :: y :: l) d) with (last (y :: l) d).
  rewrite <- IH. simpl List.length.
  replace (S (S (List.length l)) - 1) with (S (List.length l)) by lia.
  replace (S (List.length l) - 1) with (List.length l) by lia.
  reflexivity.
Qed.

Lemma correlation_key_of_slashed kvs s :
  Py.dict_get "id" kvs = Some (JStr s) ->
  PyStr.contains "/" s = true ->
  correlation_key (JDict kvs) = Ret (JStr (second_to_last s)).
Proof.
  intros Hid Hc. unfold correlation_key, Py.get_or, Py.get. simpl.
  rewrite Hid. simpl. rewrite Hc. unfold PyStr.split.
  rewrite (list_index_from_end _ "" (split_slash_two s "" Hc)). reflexivity.
Qed.

(** X6.  Correlation round trip.  An envelope id made of a record id [p], a
    ['/'] and a subpath [t] without ['/'] (as in
    [p/scheduledActionsForRule?...], [p/roleAssignments],
    [p/definitionValues?...]) gives as correlation key the last
    ['/']-delimited segment of [p]: [p] itself when [p] has no ['/']. *)
Theorem X6_correlation_round_trip (kvs : list (string * json)) (p t : string)
    (Hid : Py.dict_get "id" kvs = Some (JStr (p ++ String "/" t)))
    (Ht : PyStr.contains "/" t = false) :
  correlation_key (JDict kvs) = Ret (JStr (last (PyStr.split "/" p) ""))
  /\ (PyStr.contains "/" p = false -> last (PyStr.split "/" p) "" = p).
Proof.
  split.
  - rewrite (correlation_key_of_slashed kvs _ Hid (contains_slash_app p t)).
    f_equal. f_equal. unfold second_to_last, PyStr.split.
    rewrite split_slash_app, (split_go_no_slash t "" Ht).
    change (PyStr.rev_string "" "" ++ t)%string with t.
    rewrite length_app. simpl List.length.
    pose proof (split_go_nonempty "/" p 0 "") as Hlen.
    replace (List.length (PyStr.split_go "/" p 0 "") + 1 - 2)
      with (List.length (PyStr.split_go "/" p 0 "") - 1) by lia.
    rewrite app_nth1 by lia. apply nth_pred_last.
  - intros Hp. unfold PyStr.split. rewrite (split_go_no_slash p "" Hp).
    reflexivity.
Qed.

Lemma X6_witness :
  Py.dict_get "id" [("id", JStr "p1/scheduledActionsForRule?$expand=scheduledActionConfigurations")]
  = Some (JStr ("p1" ++ String "/" "scheduledActionsForRule?$expand=scheduledActionConfigurations"))
  /\ correlation_key
       (JDict [("id", JStr "p1/scheduledActionsForRule?$expand=scheduledActionConfigurations")])
     = Ret (JStr "p1").
Proof.
  split; [reflexivity|].
  exact (proj1 (X6_correlation_round_trip
                  [("id", JStr "p1/scheduledActionsForRule?$expand=scheduledActionConfigurations")]
                  "p1" "scheduledActionsForRule?$expand=scheduledActionConfigurations"
                  eq_refl eq_refl)).
Defined.


(** ** The presentation values of a definition *)

Lemma starts_with_app_cases p a b :
  PyStr.starts_with p (a ++ b) = true ->
  PyStr.starts_with p a = true
  \/ exists p2, p = (a ++ p2)%string /\ p2 <> ""
                /\ PyStr.starts_with p2 b = true.
Proof.
  revert a. induction p as [|c p IH]; intros a H; [left; destruct a; reflexivity|].
  destruct a as [|d a].
  - right. exists (String c p). repeat split; [discriminate | exact H].
  - change (String d a ++ b)%string with (String d (a ++ b)) in H.
    cbn [PyStr.starts_with] in H |- *.
    apply andb_true_iff in H as [Hcd H]. apply Ascii.eqb_eq in Hcd as ->.
    destruct (IH a H) as [Hl | (p2 & -> & Hne & Hp2)].
    + left. rewrite Ascii.eqb_refl. exact Hl.
    + right. exists p2. auto.
Qed.

Lemma starts_with_self_app p b : PyStr.starts_with p (p ++ b) = true.
Proof.
  induction p as [|c p IH]; [destruct b; reflexivity|].
  change (String c p ++ b)%string with (String c (p ++ b)).
  cbn [PyStr.starts_with]. rewrite Ascii.eqb_refl. exact IH.
Qed.

Lemma contains_char_app c a b :
  PyStr.contains (String c "") (a ++ String c b) = true.
Proof.
  induction a as [|x a IH].
  - change ("" ++ String c b)%string with (String c b).
    rewrite contains_cons. cbn [PyStr.starts_with].
    rewrite Ascii.eqb_refl. reflexivity.
  - change (String x a ++ String c b)%string with (String x (a ++ String c b)).
    rewrite contains_cons, IH. apply orb_true_r.
Qed.

(** A separator whose first character occurs nowhere else in it cannot
    match across the end of a text that is followed by the separator. *)
Lemma no_early_match c tail a rest :
  PyStr.contains (String c "") tail = false ->
  a <> "" ->
  PyStr.starts_with (String c tail) a = false ->
  PyStr.starts_with (String c tail) (a ++ (String c tail ++ rest)) = false.
Proof.
  intros Htail Hne Ha.
  destruct (PyStr.starts_with (String c tail) (a ++ (String c tail ++ rest)))
    eqn:H; [|reflexivity].
  apply starts_with_app_cases in H as [H | (p2 & Heq & Hp2 & Hs)]; [congruence|].
  destruct a as [|x a]; [contradiction|].
  injection Heq as Hc Ht. subst x tail.
  destruct p2 as [|d p2]; [contradiction|].
  change (String c (a ++ String d p2) ++ rest)%string
    with (String c ((a ++ String d p2) ++ rest)) in Hs.
  cbn [PyStr.starts_with] in Hs. apply andb_true_iff in Hs as [Hd _].
  apply Ascii.eqb_eq in Hd. subst d.
  rewrite contains_char_app in Htail. discriminate.
Qed.

Lemma split_first_segment c tail a rest cur :
  PyStr.contains (String c "") tail = false ->
  PyStr.contains (String c tail) a = false ->
  hd "" (PyStr.split_go (String c tail) (a ++ (String c tail ++ rest)) 0 cur)
  = (PyStr.rev_string "" cur ++ a)%string.
Proof.
  intros Htail. revert cur. induction a as [|x a IH]; intros cur Ha.
  - change ("" ++ (String c tail ++ rest))%string
      with (String c (tail ++ rest)).
    rewrite split_go_cons.
    change (String c (tail ++ rest)) with (String c tail ++ rest)%string.
    rewrite starts_with_self_app. simpl hd. rewrite rev_string_app. reflexivity.
  - rewrite contains_cons in Ha. apply orb_false_elim in Ha as [Hs Ha].
    change (String x a ++ (String c tail ++ rest))%string
      with (String x (a ++ (String c tail ++ rest))).
    rewrite split_go_cons.
    change (String x (a ++ (String c tail ++ rest)))
      with (String x a ++ (String c tail ++ rest))%string.
    rewrite (no_early_match c tail (String x a) rest Htail) by
        (try discriminate; exact Hs).
    rewrite (IH _ Ha), !rev_string_app. reflexivity.
Qed.

Lemma contains_app_self p a b : PyStr.contains p (a ++ (p ++ b)) = true.
Proof.
  induction a as [|x a IH].
  - change ("" ++ (p ++ b))%string with (p ++ b)%string.
    destruct (p ++ b)%string eqn:E.
    + destruct p; [reflexivity | discriminate].
    + rewrite contains_cons, <- E, starts_with_self_app. reflexivity.
  - change (String x a ++ (p ++ b))%string with (String x (a ++ (p ++ b))).
    rewrite contains_cons, IH. apply orb_true_r.
Qed.

Lemma list_index_head {A} (l : list A) (d : A) :
  l <> [] -> Py.list_index l 0 = Ret (hd d l).
Proof.
  destruct l as [|x l]; [contradiction|]. intros _.
  unfold Py.list_index. cbv zeta. change (Z.ltb 0 0) with false. cbv iota.
  destruct (Z.leb_spec (Z.of_nat (List.length (x :: l))) 0) as [H|H];
    [simpl List.length in H; lia|].
  reflexivity.
Qed.

Lemma map_find_put_same {V} (k : string) (v : V) (m : Py.pymap V) :
  Py.map_find (JStr k) (Py.map_put (JStr k) v m) = Some v.
Proof.
  induction m as [|[k' v'] m IH]; cbn [Py.map_put Py.map_find].
  - cbn [Py.key_eqb]. rewrite String.eqb_refl. reflexivity.
  - destruct (Py.key_eqb (JStr k) k') eqn:E; cbn [Py.map_find]; rewrite E;
      [reflexivity | exact IH].
Qed.

(** X7.  Presentation round trip.  A response whose id is a request id
    [key] followed by ["/presentationValues"] and anything else, and whose
    body carries a non-empty value [v], is filed under exactly [key]
    (provided [key] does not itself contain ["/presentationValues"]); the
    definition whose request id is [key] then receives [v] as its
    [presentationValues]. *)
Theorem X7_presentation_round_trip (env : Env) (m : Py.pymap json)
    (kvs bkvs : list (string * json)) (key rest : string) (v : json)
    (Hid : Py.dict_get "id" kvs
           = Some (JStr (key ++ ("/presentationValues" ++ rest))))
    (Hkey : PyStr.contains "/presentationValues" key = false)
    (Hbody : Py.dict_get "body" kvs = Some (JDict bkvs))
    (Hvalue : Py.dict_get "value" bkvs = Some v)
    (Htruthy : Py.truthy v = true) :
  GroupPolicyConfigurations.presentation_step m (JDict kvs)
  = Ret (Py.map_put (JStr key) v m)
  /\ forall policy_id definition,
       GroupPolicyConfigurations.presentation_key env policy_id definition
       = Ret key ->
       GroupPolicyConfigurations.attach_presentations env
         (Py.map_put (JStr key) v m) policy_id definition
       = Py.setitem definition "presentationValues" v.
Proof.
  split.
  - unfold GroupPolicyConfigurations.presentation_step, has_body_value,
      Py.get_none, Py.get_or, Py.get, rbind.
    rewrite Hbody.
    assert (Htb : Py.truthy (JDict bkvs) = true).
    { destruct bkvs; [discriminate | reflexivity]. }
    rewrite Htb, Hvalue, Htruthy, Hid.
    unfold str_in, str_split. rewrite contains_app_self.
    unfold PyStr.split.
    rewrite (list_index_head _ "") by
        (intros E; pose proof (split_go_nonempty "/presentationValues"
                                 (key ++ ("/presentationValues" ++ rest)) 0 "") as Hl;
         rewrite E in Hl; simpl in Hl; lia).
    rewrite (split_first_segment "/" "presentationValues" key rest "" eq_refl Hkey).
    unfold Py.getitem. rewrite Hbody, Hvalue. reflexivity.
  - intros policy_id definition Hk.
    unfold GroupPolicyConfigurations.attach_presentations.
    rewrite Hk. unfold rbind, Py.map_get. simpl Py.hashable. cbv iota.
    rewrite map_find_put_same. reflexivity.
Qed.

Lemma X7_witness :
  GroupPolicyConfigurations.presentation_step []
    (JDict [("id", JStr "gp1/definitionValues/dv1/presentationValues?$expand=presentation");
            ("body", JDict [("value", JList [JDict [("id", JStr "pv1")]])])])
  = Ret [(JStr "gp1/definitionValues/dv1", JList [JDict [("id", JStr "pv1")]])].
Proof.
  exact (proj1 (X7_presentation_round_trip gpo_env []
                  [("id", JStr "gp1/definitionValues/dv1/presentationValues?$expand=presentation");
                   ("body", JDict [("value", JList [JDict [("id", JStr "pv1")]])])]
                  [("value", JList [JDict [("id", JStr "pv1")]])]
                  "gp1/definitionValues/dv1" "?$expand=presentation"
                  (JList [JDict [("id", JStr "pv1")]])
                  eq_refl eq_refl eq_refl eq_refl eq_refl)).
Defined.


(** ** An empty primary list *)

Lemma filter_batch_main b env :
  filter is_batch (events (main_of b env))
  = match primary_fetch b env with
    | Ret g => filter is_batch (events (enrich_of b env g))
    | Exc _ => []
    end.
Proof.
  assert (Hf : forall t, filter is_batch (fetch_event b env :: t) = filter is_batch t)
    by (intros t; destruct b; reflexivity).
  destruct (main_of_run b env) as [e msg Hx | g e Hx He | g data e msg Hx He Hp
                                   | g data r Hx He Hp];
    rewrite Hx; unfold events at 1; simpl fst; rewrite Hf;
    rewrite ?filter_app; simpl; rewrite ?app_nil_r; reflexivity.
Qed.

(** X8.  When the primary fetch returns an empty list, AppConfiguration,
    GroupPolicyConfigurations and Roles send no batch call and hand the empty
    list to the persistence call; DeviceCompliance still sends its
    scheduled-actions batch call first, with no items (line 169 is not
    guarded), and hands on the empty list when that call answers with no
    envelope. *)
Theorem X8_empty_primary_list (b : backup_module) (env : Env) (g : json)
    (Hfetch : primary_fetch b env = Ret g)
    (Hvalue : Py.getitem g "value" = Ret (JList [])) :
  match b with
  | DeviceComplianceModule =>
      hd_error (filter is_batch (events (main_of b env)))
      = Some (EvBatch [] DeviceCompliance.CONFIG_ENDPOINT
                "/scheduledActionsForRule?$expand=scheduledActionConfigurations"
                "GET")
  | _ => filter is_batch (events (main_of b env)) = []
  end
  /\ ((b <> DeviceComplianceModule
       \/ batch_request env [] DeviceCompliance.CONFIG_ENDPOINT
            "/scheduledActionsForRule?$expand=scheduledActionConfigurations" "GET"
          = Ret []) ->
      persisted (events (main_of b env)) = [JList []]).
Proof.
  split.
  - destruct b; rewrite filter_batch_main, Hfetch; simpl enrich_of.
    + unfold AppConfiguration.enrich, mbind, lift. rewrite Hvalue. reflexivity.
    + unfold DeviceCompliance.enrich, DeviceCompliance.gather, mbind, lift.
      rewrite Hvalue. simpl.
      destruct (batch_request env [] DeviceCompliance.CONFIG_ENDPOINT _ _)
        as [rs|]; [|reflexivity].
      destruct (rfoldM DeviceCompliance.scheduled_step ([], []) rs)
        as [[m ids]|]; [|reflexivity].
      unfold mret. cbv beta iota.
      destruct (DeviceCompliance.finish env _); reflexivity.
    + unfold GroupPolicyConfigurations.enrich, mbind, lift. rewrite Hvalue.
      reflexivity.
    + unfold Roles.enrich, Roles.assignment_stages, Roles.gather, Roles.finish,
        mbind, lift.
      destruct (Roles.assignments_wanted env); rewrite Hvalue; reflexivity.
  - intros Hcase.
    apply (enriched_is_persisted b env g); [exact Hfetch|].
    destruct b; simpl enrich_of.
    + unfold AppConfiguration.enrich, mbind, lift. rewrite Hvalue. reflexivity.
    + destruct Hcase as [Hb|Hbatch]; [contradiction|].
      unfold DeviceCompliance.enrich, DeviceCompliance.gather, mbind, lift.
      rewrite Hvalue. simpl. rewrite Hbatch. reflexivity.
    + unfold GroupPolicyConfigurations.enrich, mbind, lift. rewrite Hvalue.
      reflexivity.
    + unfold Roles.enrich, Roles.assignment_stages, Roles.gather, Roles.finish,
        mbind, lift.
      destruct (Roles.assignments_wanted env); rewrite Hvalue; reflexivity.
Qed.

Lemma X8_witness :
  primary_fetch DeviceComplianceModule
    (sample_env [] (JDict [("value", JList [])]) (fun _ => []))
  = Ret (JDict [("value", JList [])])
  /\ hd_error
       (filter is_batch
          (events (DeviceCompliance.main
                     (sample_env [] (JDict [("value", JList [])]) (fun _ => [])))))
     = Some (EvBatch [] DeviceCompliance.CONFIG_ENDPOINT
               "/scheduledActionsForRule?$expand=scheduledActionConfigurations"
               "GET")
  /\ persisted
       (events (DeviceCompliance.main
                  (sample_env [] (JDict [("value", JList [])]) (fun _ => []))))
     = [JList []].
Proof.
  split; [reflexivity|].
  pose proof (X8_empty_primary_list DeviceComplianceModule
                (sample_env [] (JDict [("value", JList [])]) (fun _ => []))
                (JDict [("value", JList [])]) eq_refl eq_refl) as [H1 H2].
  split; [exact H1|]. apply H2. right. reflexivity.
Defined.


(** ** The first batch call *)

Lemma rmapM_id_items items sent :
  rmapM (fun item => (id <- Py.getitem item "id" ;; Ret (id_item id))%res) items
  = Ret sent ->
  one_item_per_record items sent.
Proof.
  intros H. apply rmapM_ret in H.
  induction H as [|r x l l' Hrx _ IH]; constructor; auto.
  destruct (Py.getitem r "id") as [id|] eqn:Hid; simpl in Hrx; [|discriminate].
  injection Hrx as <-. eauto.
Qed.

Lemma dc_collect_items env items s0 sent0 s sent :
  rfoldM (DeviceCompliance.collect_step env) (s0, sent0) items = Ret (s, sent) ->
  exists new, sent = sent0 ++ new /\ one_item_per_record items new.
Proof.
  apply (rfoldM_appends
           (fun r x => exists id, Py.getitem r "id" = Ret id /\ x = id_item id)).
  clear. intros s done x s' done' H.
  unfold DeviceCompliance.collect_step in H.
  rinv H. injection H as _ <-.
  match goal with
  | Hid : Py.getitem x "id" = Ret ?id |- _ => exists (id_item id); eauto
  end.
Qed.

Lemma dc_scripts_no_batch env url ids :
  batch_calls url (events (DeviceCompliance.fetch_scripts env ids)) = [].
Proof.
  apply batch_calls_none.
  change (emits (not_batch_to url) (DeviceCompliance.fetch_scripts env ids)).
  unfold DeviceCompliance.fetch_scripts, DeviceCompliance.fetch_script.
  emits.
Qed.

Lemma hd_batch_lift {A B} url (r : res A) (f : A -> M B) :
  hd_error (batch_calls url (events (mbind (lift r) f)))
  = match r with
    | Ret a => hd_error (batch_calls url (events (f a)))
    | Exc _ => None
    end.
Proof. rewrite batch_calls_lift_bind. destruct r; reflexivity. Qed.

Lemma hd_batch_after_silent {A B} url (m : M A) (f : A -> M B) :
  batch_calls url (events m) = [] ->
  hd_error (batch_calls url (events (mbind m f)))
  = match outcome m with
    | Ret a => hd_error (batch_calls url (events (f a)))
    | Exc _ => None
    end.
Proof.
  intros H. rewrite batch_calls_mbind, H. destruct (outcome m); reflexivity.
Qed.

Lemma hd_batch_first {B} env data url extra method (f : list json -> M B) :
  hd_error (batch_calls url (events (mbind (batch env data url extra method) f)))
  = Some data.
Proof.
  rewrite batch_calls_mbind. unfold batch, events at 1.
  cbn [fst batch_calls app hd_error]. rewrite String.eqb_refl. reflexivity.
Qed.

Lemma hd_batch_first_nested {A B} env data url extra method
    (f : list json -> M A) (k : A -> M B) :
  hd_error (batch_calls url
              (events (mbind (mbind (batch env data url extra method) f) k)))
  = Some data.
Proof.
  rewrite batch_calls_mbind.
  pose proof (hd_batch_first env data url extra method f) as H.
  destruct (batch_calls url (events (mbind (batch env data url extra method) f)));
    [discriminate|exact H].
Qed.

Lemma dc_finish_no_config_batch env st :
  batch_calls DeviceCompliance.CONFIG_ENDPOINT
    (events (DeviceCompliance.finish env st)) = [].
Proof.
  apply batch_calls_none.
  change (emits (not_batch_to DeviceCompliance.CONFIG_ENDPOINT)
            (DeviceCompliance.finish env st)).
  unfold DeviceCompliance.finish, DeviceCompliance.fetch_templates.
  emits.
Qed.

Lemma roles_finish_no_config_batch env value st :
  batch_calls Roles.CONFIG_ENDPOINT (events (Roles.finish env value st)) = [].
Proof.
  apply batch_calls_none.
  change (emits (not_batch_to Roles.CONFIG_ENDPOINT) (Roles.finish env value st)).
  unfold Roles.finish, Roles.fetch_groups.
  emits.
Qed.

(** X9.  In DeviceCompliance, GroupPolicyConfigurations and Roles the first
    batch call sent to the module's own endpoint carries one [{"id": ...}]
    item per fetched record, in the order of the records and without
    removing a repeated id. *)
Theorem X9_first_batch_one_item_per_record (b : backup_module) (env : Env)
    (g : json) (items sent : list json)
    (Hmodule : b <> AppConfigurationModule)
    (Hfetch : primary_fetch b env = Ret g)
    (Hvalue : Py.getitem g "value" = Ret (JList items))
    (Hsent : hd_error (batch_calls (config_endpoint_of b) (events (main_of b env)))
             = Some sent) :
  one_item_per_record items sent.
Proof.
  rewrite main_batch_calls, Hfetch in Hsent.
  destruct b; [contradiction| | |]; simpl enrich_of in Hsent;
    simpl config_endpoint_of in Hsent.
  - unfold DeviceCompliance.enrich in Hsent.
    rewrite batch_calls_mbind in Hsent.
    replace (match outcome (DeviceCompliance.gather env g) with
             | Ret a => batch_calls DeviceCompliance.CONFIG_ENDPOINT
                          (events (DeviceCompliance.finish env a))
             | Exc _ => []
             end) with (@nil (list json)) in Hsent
      by (destruct (outcome _); [rewrite dc_finish_no_config_batch|];
          reflexivity).
    rewrite app_nil_r in Hsent.
    unfold DeviceCompliance.gather in Hsent.
    rewrite hd_batch_lift, Hvalue in Hsent.
    rewrite hd_batch_lift in Hsent. cbn [Py.iter] in Hsent.
    rewrite hd_batch_lift in Hsent.
    destruct (rfoldM (DeviceCompliance.collect_step env) ([], []) items)
      as [[sids sched]|] eqn:Hc; [|discriminate].
    apply dc_collect_items in Hc. destruct Hc as [new [-> Hnew]].
    rewrite hd_batch_after_silent in Hsent by apply dc_scripts_no_batch.
    destruct (outcome (DeviceCompliance.fetch_scripts env sids));
      [|discriminate].
    rewrite hd_batch_first in Hsent. injection Hsent as <-. exact Hnew.
  - unfold GroupPolicyConfigurations.enrich in Hsent.
    rewrite hd_batch_lift, Hvalue in Hsent.
    rewrite hd_batch_lift in Hsent. cbn [Py.iter] in Hsent.
    rewrite hd_batch_lift in Hsent.
    destruct (rmapM _ items) as [reqs|] eqn:Hreqs; [|discriminate].
    apply rmapM_id_items in Hreqs.
    destruct reqs as [|q qs].
    + inversion Hreqs; subst. discriminate.
    + unfold GroupPolicyConfigurations.fetch_definitions in Hsent.
      rewrite hd_batch_first_nested in Hsent.
      injection Hsent as <-. exact Hreqs.
  - unfold Roles.enrich in Hsent. rewrite batch_calls_mbind in Hsent.
    replace (match outcome (if Roles.assignments_wanted env
                            then mbind (lift (Py.getitem g "value"))
                                   (fun value => Roles.assignment_stages env value)
                            else lift (Py.getitem g "value")) with
             | Ret a => batch_calls Roles.CONFIG_ENDPOINT
                          (events (lift (for_each a Roles.cleanup)))
             | Exc _ => []
             end) with (@nil (list json)) in Hsent
      by (destruct (outcome _); reflexivity).
    rewrite app_nil_r in Hsent.
    destruct (Roles.assignments_wanted env); [|discriminate].
    rewrite hd_batch_lift, Hvalue in Hsent.
    unfold Roles.assignment_stages in Hsent.
    rewrite batch_calls_mbind in Hsent.
    replace (match outcome (Roles.gather env (JList items)) with
             | Ret a => batch_calls Roles.CONFIG_ENDPOINT
                          (events (Roles.finish env (JList items) a))
             | Exc _ => []
             end) with (@nil (list json)) in Hsent
      by (destruct (outcome _); [rewrite roles_finish_no_config_batch|];
          reflexivity).
    rewrite app_nil_r in Hsent.
    unfold Roles.gather in Hsent.
    rewrite hd_batch_lift in Hsent. cbn [Py.iter] in Hsent.
    rewrite hd_batch_lift in Hsent.
    destruct (rmapM _ items) as [reqs|] eqn:Hreqs; [|discriminate].
    apply rmapM_id_items in Hreqs.
    destruct reqs as [|q qs].
    + inversion Hreqs; subst. discriminate.
    + unfold Roles.fetch_assignments in Hsent.
      rewrite hd_batch_first_nested in Hsent.
      injection Hsent as <-. exact Hreqs.
Qed.

Lemma X9_witness :
  one_item_per_record [helpdesk_role] [id_item (JStr "role1")].
Proof.
  apply (X9_first_batch_one_item_per_record RolesModule roles_env roles_graph
           [helpdesk_role] [id_item (JStr "role1")]).
  - discriminate.
  - reflexivity.
  - reflexivity.
  - vm_compute. reflexivity.
Defined.


(** ** The maps built from batch responses *)

Lemma has_body_value_true r :
  has_body_value r = Ret true ->
  forall body v,
    Py.getitem r "body" = Ret body -> Py.getitem body "value" = Ret v ->
    Py.truthy v = true.
Proof.
  unfold has_body_value, Py.get_none, Py.get_or, Py.get, Py.getitem.
  intros H body v Hb Hv.
  destruct r as [| | | | |kvs]; try discriminate.
  cbn [rbind] in H.
  destruct (Py.dict_get "body" kvs) as [b|]; [|discriminate].
  injection Hb as ->.
  destruct (Py.truthy body); [|discriminate].
  destruct body as [| | | | |bkvs]; try discriminate.
  cbn [rbind] in H.
  destruct (Py.dict_get "value" bkvs) as [w|]; [|discriminate].
  injection Hv as ->. injection H as H. exact H.
Qed.

Lemma correlation_key_string r k :
  correlation_key r = Ret k -> Py.truthy k = true ->
  exists s, k = JStr s /\ s <> EmptyString.
Proof.
  unfold correlation_key. intros H Ht. rinv H.
  - injection H as <-. eexists; split; [reflexivity|].
    intros ->. discriminate.
  - injection H as <-. discriminate.
Qed.

Lemma correlated_entry_weaken rs rs' kv :
  (forall r, In r rs -> In r rs') ->
  correlated_entry rs kv -> correlated_entry rs' kv.
Proof.
  intros Hsub (Hk & Hv & r & body & Hin & Hrest).
  split; [exact Hk|]. split; [exact Hv|]. exists r, body. auto.
Qed.

Lemma map_put_correlated rs s v m :
  Forall (correlated_entry rs) m ->
  correlated_entry rs (JStr s, v) ->
  Forall (correlated_entry rs) (Py.map_put (JStr s) v m).
Proof.
  intros Hm Hnew.
  induction m as [|[k' v'] m IH]; cbn [Py.map_put].
  - constructor; [exact Hnew|constructor].
  - inversion Hm as [|? ? Hhd Htl]; subst.
    destruct (Py.key_eqb (JStr s) k') eqn:Hk.
    + constructor; [|exact Htl].
      destruct Hhd as [[t [Hkt _]] _]. cbn [fst] in Hkt. subst k'.
      cbn [Py.key_eqb] in Hk. apply String.eqb_eq in Hk. subst t.
      exact Hnew.
    + constructor; [exact Hhd|]. apply IH. exact Htl.
Qed.

Lemma correlate_step_entries rs m r m' :
  In r rs ->
  Forall (correlated_entry rs) m ->
  correlate_step m r = Ret m' ->
  Forall (correlated_entry rs) m'.
Proof.
  intros Hin Hm H. unfold correlate_step in H. rinv H;
    try (injection H as <-; exact Hm).
  unfold Py.map_set in H.
  match goal with
  | Hc : correlation_key r = Ret ?k, Ht : Py.truthy ?k = true |- _ =>
      destruct (correlation_key_string r k Hc Ht) as [s [-> Hs]]
  end.
  cbn [Py.hashable] in H. injection H as <-.
  apply map_put_correlated; [exact Hm|].
  split; [exists s; split; [reflexivity|exact Hs]|]. split.
  - eapply has_body_value_true; eassumption.
  - exists r. eexists. repeat split; eassumption.
Qed.

Lemma correlate_fold_entries all rs :
  (forall r, In r rs -> In r all) ->
  forall m m',
    Forall (correlated_entry all) m ->
    rfoldM correlate_step m rs = Ret m' ->
    Forall (correlated_entry all) m'.
Proof.
  induction rs as [|r rs IH]; intros Hsub m m' Hm H; simpl in H.
  - injection H as <-. exact Hm.
  - destruct (correlate_step m r) as [m1|] eqn:H1; simpl in H; [|discriminate].
    apply (IH (fun x Hx => Hsub x (or_intror Hx)) m1 m'); [|exact H].
    eapply correlate_step_entries; [|exact Hm|exact H1].
    apply Hsub. left. reflexivity.
Qed.

Lemma scheduled_step_map st r st' :
  DeviceCompliance.scheduled_step st r = Ret st' ->
  correlate_step (fst st) r = Ret (fst st').
Proof.
  destruct st as [m ids].
  unfold DeviceCompliance.scheduled_step, correlate_step.
  intros H. cbn [fst].
  destruct (has_body_value r) as [[|]|]; cbn [rbind] in *; try discriminate;
    [|injection H as <-; reflexivity].
  destruct (correlation_key r) as [k|]; cbn [rbind] in *; [|discriminate].
  destruct (Py.truthy k); [|injection H as <-; reflexivity].
  rinv H. injection H as <-. cbn [fst].
  repeat match goal with
         | Hx : ?t = Ret _ |- context [?t] => rewrite Hx; cbn [rbind]
         end.
  reflexivity.
Qed.

(** X10.  The map that GroupPolicyConfigurations (lines 61-66) and Roles
    (lines 89-93) build from the responses of their first batch call, and
    the scheduled-actions map of DeviceCompliance (lines 177-182), hold
    only entries whose key is a non-empty string and whose value is a
    truthy [body.value] of a response with that correlation key. *)
Theorem X10_correlated_maps_hold_answered_policies (rs : list json) :
  (forall m,
      rfoldM correlate_step [] rs = Ret m ->
      Forall (correlated_entry rs) m)
  /\ (forall m ids,
         rfoldM DeviceCompliance.scheduled_step ([], []) rs = Ret (m, ids) ->
         Forall (correlated_entry rs) m).
Proof.
  split.
  - intros m H.
    apply (correlate_fold_entries rs rs (fun _ Hx => Hx) [] m); [constructor|exact H].
  - intros m ids H.
    assert (Hgen : forall l st st',
               rfoldM DeviceCompliance.scheduled_step st l = Ret st' ->
               rfoldM correlate_step (fst st) l = Ret (fst st')).
    { clear. induction l as [|r l IH]; intros st st' H; simpl in H.
      - injection H as <-. reflexivity.
      - destruct (DeviceCompliance.scheduled_step st r) as [st1|] eqn:H1;
          simpl in H; [|discriminate].
        simpl. rewrite (scheduled_step_map st r st1 H1). simpl.
        apply IH. exact H. }
    apply Hgen in H. cbn [fst] in H.
    apply (correlate_fold_entries rs rs (fun _ Hx => Hx) [] m); [constructor|exact H].
Qed.

Lemma X10_witness :
  rfoldM correlate_step [] assignment_responses
  = Ret [(JStr "role1", JList [JDict [("id", JStr "asg3")]])]
  /\ Forall (correlated_entry assignment_responses)
       [(JStr "role1", JList [JDict [("id", JStr "asg3")]])].
Proof.
  split; [reflexivity|].
  apply (proj1 (X10_correlated_maps_hold_answered_policies assignment_responses)).
  reflexivity.
Defined.


(** ** [_get_group_names] *)

Lemma group_names_loop_answered env rest :
  Forall (group_answered env) rest ->
  forall groups,
    Roles.group_names_loop env groups rest
    = (List.map (group_request env) rest,
       Ret (Some (groups ++ names_of env rest))).
Proof.
  induction 1 as [|group rest (answer & Hreq & Hname) _ IH]; intros groups.
  - simpl. rewrite app_nil_r. reflexivity.
  - cbn [Roles.group_names_loop names_of flat_map List.map].
    unfold try_or_return, request. fold (group_url env group).
    rewrite Hreq.
    destruct (Py.truthy answer) eqn:Ht.
    + destruct (Hname eq_refl) as [name Hn]. rewrite Hn.
      unfold mbind, lift. cbn [fst snd]. rewrite IH.
      unfold group_request. cbn [app].
      rewrite <- app_assoc. reflexivity.
    + rewrite IH. reflexivity.
Qed.

(** X11.  When every request of [_get_group_names] is answered, it sends
    one request per group id, in order (no batch call), and returns the
    [displayName] of each truthy answer, in order; a falsy answer adds
    nothing. *)
Theorem X11_group_names_one_request_per_group (env : Env) (groups : list json)
    (Hanswered : Forall (group_answered env) groups) :
  Roles._get_group_names env (JList groups)
  = (List.map (group_request env) groups, Ret (Some (names_of env groups))).
Proof.
  unfold Roles._get_group_names, mbind, lift. cbn [Py.iter].
  rewrite (group_names_loop_answered env groups Hanswered []). reflexivity.
Qed.

Lemma X11_witness :
  Roles._get_group_names groups_env (JList [JStr "g0"; JStr "g1"])
  = ([group_request groups_env (JStr "g0"); group_request groups_env (JStr "g1")],
     Ret (Some [JStr "Group One"])).
Proof.
  apply (X11_group_names_one_request_per_group groups_env [JStr "g0"; JStr "g1"]).
  repeat constructor.
  - exists JNull. split; [reflexivity|]. discriminate.
  - exists (JDict [("displayName", JStr "Group One")]).
    split; [reflexivity|]. intros _. exists (JStr "Group One"). reflexivity.
Defined.

Lemma group_names_loop_fails env before after group e :
  Forall (group_answered env) before ->
  make_graph_request env (group_url env group) [("$select", "displayName")]
  = Exc e ->
  forall groups,
    Roles.group_names_loop env groups (before ++ group :: after)
    = (List.map (group_request env) (before ++ [group])
         ++ [EvLog "error"
               ("Error getting group data from "
                  ++ endpoint env ++ Roles.CONFIG_ENDPOINT ++ ": ")%string e],
       Ret None).
Proof.
  intros Hbefore Hfails.
  induction Hbefore as [|g rest (answer & Hreq & Hname) _ IH]; intros groups.
  - cbn [app Roles.group_names_loop List.map].
    unfold try_or_return, request. fold (group_url env group).
    rewrite Hfails. reflexivity.
  - cbn [app Roles.group_names_loop List.map].
    unfold try_or_return, request. fold (group_url env g).
    rewrite Hreq.
    destruct (Py.truthy answer) eqn:Ht.
    + destruct (Hname eq_refl) as [name Hn]. rewrite Hn.
      unfold mbind, lift. cbn [fst snd]. rewrite IH. reflexivity.
    + rewrite IH. reflexivity.
Qed.

(** X12.  When the request for one group raises, [_get_group_names] logs
    one error, returns [None] and sends no request for the groups after
    it; the names found before are lost. *)
Theorem X12_group_names_stop_at_first_failure (env : Env)
    (before after : list json) (group : json) (e : exn)
    (Hbefore : Forall (group_answered env) before)
    (Hfails : make_graph_request env (group_url env group)
                [("$select", "displayName")] = Exc e) :
  Roles._get_group_names env (JList (before ++ group :: after))
  = (List.map (group_request env) (before ++ [group])
       ++ [EvLog "error"
             ("Error getting group data from "
                ++ endpoint env ++ Roles.CONFIG_ENDPOINT ++ ": ")%string e],
     Ret None).
Proof.
  unfold Roles._get_group_names, mbind, lift. cbn [Py.iter].
  rewrite (group_names_loop_fails env before after group e Hbefore Hfails []).
  reflexivity.
Qed.

Lemma X12_witness :
  Roles._get_group_names groups_env (JList [JStr "g1"; JStr "g2"; JStr "g1"])
  = ([group_request groups_env (JStr "g1"); group_request groups_env (JStr "g2");
      EvLog "error"
        ("Error getting group data from "
           ++ endpoint groups_env ++ Roles.CONFIG_ENDPOINT ++ ": ")%string (External "404")],
     Ret None).
Proof.
  apply (X12_group_names_stop_at_first_failure groups_env
           [JStr "g1"] [JStr "g1"] (JStr "g2") (External "404")).
  - repeat constructor.
    exists (JDict [("displayName", JStr "Group One")]).
    split; [reflexivity|]. intros _. exists (JStr "Group One"). reflexivity.
  - reflexivity.
Defined.


(** ** The cleanup of a role record *)

Lemma Forall2_compose {A B C} (R : A -> B -> Prop) (S : B -> C -> Prop) l1 l2 l3 :
  Forall2 R l1 l2 -> Forall2 S l2 l3 ->
  Forall2 (fun a c => exists b, R a b /\ S b c) l1 l3.
Proof.
  intros H. revert l3.
  induction H as [|a b l1 l2 Hab _ IH]; intros l3 H23;
    inversion H23; subst; constructor; eauto.
Qed.

Lemma cleanup_first_permission r r' :
  Roles.cleanup r = Ret r' -> first_permission_cleaned r r'.
Proof.
  intros H first rest Hrp.
  destruct r as [| | | | |kvs]; try discriminate.
  cbn [field_of] in Hrp.
  unfold Roles.cleanup in H. cbn [Py.pop_default rbind] in H.
  unfold Py.getitem at 1 in H.
  rewrite dict_get_remove_other, Hrp in H by discriminate.
  cbn [rbind Py.getitem_int] in H.
  rewrite (list_index_head (first :: rest) JNull) in H by discriminate.
  cbn [rbind hd] in H.
  destruct first as [| | | | |fkvs]; try discriminate.
  exists fkvs. split; [reflexivity|].
  cbn [Py.pop_default rbind Py.setitem] in H. injection H as <-.
  cbn [field_of]. apply dict_get_set_same.
Qed.

(** X14.  In every role record that reaches the persistence call, the
    first entry of [rolePermissions] is a dict without its [actions] and
    the entries after the first are as they were fetched: line 175 reaches
    index 0 only. *)
Theorem X14_cleanup_reaches_first_permission_only (env : Env) (g : json)
    (items : list json) (data : json)
    (Hfetch : primary_fetch RolesModule env = Ret g)
    (Hvalue : Py.getitem g "value" = Ret (JList items))
    (Hdata : In data (persisted (events (Roles.main env)))) :
  exists items',
    data = JList items' /\ Forall2 first_permission_cleaned items items'.
Proof.
  pose proof (persisted_from_enrich RolesModule env g data Hfetch Hdata) as H.
  cbn [enrich_of] in H.
  rewrite roles_enrich_unfold, outcome_mbind in H.
  destruct (outcome (roles_before_cleanup env g)) as [v|] eqn:Hv; [|discriminate].
  destruct (roles_before_cleanup_keeps env g items v "rolePermissions" Hv Hvalue)
    as (items1 & -> & HF); [discriminate|].
  rewrite outcome_lift in H. unfold for_each in H.
  destruct (rmapM Roles.cleanup items1) as [items'|] eqn:Hc; [|discriminate].
  cbn [rbind] in H. injection H as <-.
  exists items'. split; [reflexivity|].
  apply rmapM_ret in Hc.
  pose proof (Forall2_compose _ _ _ _ _ HF Hc) as Hall.
  eapply Forall2_impl; [|exact Hall].
  intros r r' (r1 & Hr1 & Hclean) first rest Hrp.
  apply (cleanup_first_permission r1 r' Hclean).
  destruct Hr1 as [->|(_ & _ & Hsame)]; [exact Hrp|].
  rewrite Hsame. exact Hrp.
Qed.

Lemma X14_witness :
  exists items',
    JList [JDict [("id", JStr "role2");
                  ("displayName", JStr "Operators");
                  ("rolePermissions",
                   JList [JDict [("resourceActions", JList [])];
                          JDict [("actions", JList [JStr "Microsoft.Intune_Wipe"]);
                                 ("resourceActions", JList [])]])]]
    = JList items'
    /\ Forall2 first_permission_cleaned [two_block_role] items'.
Proof.
  apply (X14_cleanup_reaches_first_permission_only two_block_env
           (JDict [("value", JList [two_block_role])]) [two_block_role]).
  - reflexivity.
  - reflexivity.
  - vm_compute. left. reflexivity.
Defined.


(** ** A payload that cannot be decoded *)

Lemma app_enrich_apps_same k m item item' :
  AppConfiguration.enrich_apps m item = Ret item' ->
  k <> "targetedMobileApps" -> same_field k item item'.
Proof.
  intros Ha Hk. unfold AppConfiguration.enrich_apps in Ha. rinv Ha.
  - match goal with
    | Hp : Py.pop item _ = Ret ?x |- _ => apply same_field_trans with x
    end.
    + eapply same_field_pop; eauto.
    + eapply same_field_setitem; eauto.
  - injection Ha as <-. apply same_field_refl. eapply get_or_is_dict; eauto.
  - injection Ha as <-. apply same_field_refl. eapply get_or_is_dict; eauto.
Qed.

Lemma decode_payload_raises env kvs p e :
  Py.dict_get "payloadJson" kvs = Some p ->
  Py.truthy p = true ->
  (decoded <- decode_base64 env p ;; json_loads env decoded)%res = Exc e ->
  AppConfiguration.decode_payload env (JDict kvs) = Exc e.
Proof.
  intros Hp Ht He. unfold AppConfiguration.decode_payload.
  unfold Py.get_none, Py.get_or, Py.get, Py.getitem at 1.
  cbn [rbind]. rewrite Hp, Ht. cbn [rbind].
  destruct (decode_base64 env p) as [d|e0]; cbn [rbind] in *; [|exact He].
  cbn [Py.setitem rbind Py.getitem]. rewrite dict_get_set_same.
  cbn [rbind]. rewrite He. reflexivity.
Qed.

(** X15.  AppConfiguration decodes [payloadJson] outside any [try]: when a
    fetched record has a truthy [payloadJson] that [decode_base64] or
    [json.loads] rejects, [main] ends with an exception, without an error
    log and without a persistence call. *)
Theorem X15_undecodable_payload_aborts (env : Env) (g : json)
    (items : list json) (kvs : list (string * json)) (p : json) (e : exn)
    (Hfetch : primary_fetch AppConfigurationModule env = Ret g)
    (Hvalue : Py.getitem g "value" = Ret (JList items))
    (Hrecord : In (JDict kvs) items)
    (Hpayload : Py.dict_get "payloadJson" kvs = Some p)
    (Htruthy : Py.truthy p = true)
    (Hdecode : (decoded <- decode_base64 env p ;; json_loads env decoded)%res
               = Exc e) :
  exists e',
    outcome (AppConfiguration.main env) = Exc e'
    /\ filter is_log (events (AppConfiguration.main env)) = []
    /\ persisted (events (AppConfiguration.main env)) = [].
Proof.
  assert (Hitem : forall m, exists e',
             AppConfiguration.process_item env m (JDict kvs) = Exc e').
  { intros m. unfold AppConfiguration.process_item.
    destruct (AppConfiguration.enrich_apps m (JDict kvs)) as [item1|e1] eqn:H1;
      cbn [rbind]; [|eauto].
    destruct (app_enrich_apps_same "payloadJson" m _ _ H1) as (_ & Hd & Hf);
      [discriminate|].
    destruct item1 as [| | | | |kvs1]; try discriminate.
    cbn [field_of] in Hf. rewrite Hpayload in Hf.
    exists e. eapply decode_payload_raises; eauto. }
  assert (Hraise : exists e', outcome (AppConfiguration.enrich env g) = Exc e').
  { unfold AppConfiguration.enrich.
    rewrite outcome_lift_bind, Hvalue.
    destruct items as [|x xs]; [contradiction|].
    cbn [Py.truthy].
    rewrite outcome_lift_bind. cbn [Py.iter].
    rewrite outcome_lift_bind.
    destruct (rfoldM AppConfiguration.collect_apps [] (x :: xs)) as [ids|];
      [|eauto].
    rewrite outcome_mbind.
    destruct (outcome (AppConfiguration.fetch_apps env ids)) as [m|]; [|eauto].
    rewrite outcome_lift. unfold for_each.
    destruct (Hitem m) as (e1 & He1).
    destruct (rmapM_exc (AppConfiguration.process_item env m) (x :: xs)
                (JDict kvs) e1 Hrecord He1) as (e2 & ->).
    cbn [rbind]. eauto. }
  destruct Hraise as (e1 & He1).
  pose proof (main_run_trace AppConfigurationModule env _
                (main_of_run AppConfigurationModule env)) as H.
  change (main_of AppConfigurationModule env) with (AppConfiguration.main env) in H.
  destruct (outcome (AppConfiguration.main env)) as [[r|]|e'].
  - destruct H as (_ & g' & data & Hf & Hen & _). simpl in Hen. congruence.
  - destruct H as (_ & [[[e' Hf] _] | (g' & data & e' & Hf & Hen & _)]);
      simpl in *; congruence.
  - exists e'. destruct H as (Hl & Hd & _). auto.
Qed.

Lemma X15_witness :
  exists e',
    outcome (AppConfiguration.main undecodable_env) = Exc e'
    /\ filter is_log (events (AppConfiguration.main undecodable_env)) = []
    /\ persisted (events (AppConfiguration.main undecodable_env)) = [].
Proof.
  apply (X15_undecodable_payload_aborts undecodable_env
           (JDict [("value",
                    JList [JDict [("id", JStr "cfg1");
                                  ("targetedMobileApps", JList []);
                                  ("payloadJson", JStr "%%%")]])])
           [JDict [("id", JStr "cfg1");
                   ("targetedMobileApps", JList []);
                   ("payloadJson", JStr "%%%")]]
           [("id", JStr "cfg1");
            ("targetedMobileApps", JList []);
            ("payloadJson", JStr "%%%")]
           (JStr "%%%") ValueError).
  - reflexivity.
  - reflexivity.
  - left. reflexivity.
  - reflexivity.
  - reflexivity.
  - reflexivity.
Defined.


Lemma decode_payload_decodes env r r' :
  AppConfiguration.decode_payload env r = Ret r' -> payload_decoded env r r'.
Proof.
  intros H. unfold AppConfiguration.decode_payload in H.
  destruct r as [| | | | |kvs]; try discriminate.
  unfold payload_decoded. cbn [field_of].
  unfold Py.get_none, Py.get_or, Py.get, Py.getitem at 1 in H. cbn [rbind] in H.
  destruct (Py.dict_get "payloadJson" kvs) as [p|] eqn:Hp.
  - destruct (Py.truthy p) eqn:Ht.
    + cbn [rbind] in H.
      destruct (decode_base64 env p) as [d|] eqn:Hd; cbn [rbind] in H;
        [|discriminate].
      cbn [Py.setitem rbind Py.getitem] in H.
      rewrite dict_get_set_same in H. cbn [rbind] in H.
      destruct (json_loads env d) as [parsed|] eqn:Hl; cbn [rbind] in H;
        [|discriminate].
      injection H as <-. exists d, parsed.
      repeat split; try assumption.
      cbn [field_of]. apply dict_get_set_same.
    + injection H as <-. cbn [field_of]. exact Hp.
  - cbn [Py.truthy] in H. injection H as <-. cbn [field_of]. exact Hp.
Qed.

Lemma app_process_item_decodes env m r r' :
  AppConfiguration.process_item env m r = Ret r' -> payload_decoded env r r'.
Proof.
  intros H. unfold AppConfiguration.process_item in H. rinv H.
  destruct (app_enrich_apps_same "payloadJson" m r a Ha) as (_ & _ & Hf);
    [discriminate|].
  apply decode_payload_decodes in H.
  unfold payload_decoded in *. rewrite <- Hf. exact H.
Qed.

(** X16.  In the data AppConfiguration hands to the persistence call, a
    record fetched with a truthy [payloadJson] carries
    [json.loads(decode_base64(payloadJson))] in its place, and a record
    whose [payloadJson] is absent, null or empty has it as fetched. *)
Theorem X16_payload_decoded_then_parsed (env : Env) (g : json)
    (items : list json) (data : json)
    (Hfetch : primary_fetch AppConfigurationModule env = Ret g)
    (Hvalue : Py.getitem g "value" = Ret (JList items))
    (Hdata : In data (persisted (events (AppConfiguration.main env)))) :
  exists items',
    data = JList items' /\ Forall2 (payload_decoded env) items items'.
Proof.
  pose proof (persisted_from_enrich AppConfigurationModule env g data Hfetch Hdata)
    as H.
  cbn [enrich_of] in H.
  unfold AppConfiguration.enrich in H. minv H. unlift.
  rewrite Hvalue in Ha. injection Ha as <-.
  destruct (Py.truthy (JList items)) eqn:Ht.
  - minv H. unlift.
    apply for_each_list in H as (items' & -> & HF).
    exists items'. split; [reflexivity|].
    eapply Forall2_impl; [|exact HF]. intros x y Hxy.
    eapply app_process_item_decodes; exact Hxy.
  - destruct items; [|discriminate]. injection H as <-.
    exists []. split; [reflexivity | constructor].
Qed.

Lemma X16_witness :
  exists items',
    JList [JDict [("id", JStr "cfg1");
                  ("targetedMobileApps", JList []);
                  ("payloadJson", JDict [])];
           JDict [("id", JStr "cfg2");
                  ("targetedMobileApps", JList []);
                  ("payloadJson", JNull)]]
    = JList items'
    /\ Forall2 (payload_decoded decoding_env)
         [JDict [("id", JStr "cfg1");
                 ("targetedMobileApps", JList []);
                 ("payloadJson", JStr "b64:{}")];
          JDict [("id", JStr "cfg2");
                 ("targetedMobileApps", JList []);
                 ("payloadJson", JNull)]]
         items'.
Proof.
  apply (X16_payload_decoded_then_parsed decoding_env
           (JDict [("value",
                    JList [JDict [("id", JStr "cfg1");
                                  ("targetedMobileApps", JList []);
                                  ("payloadJson", JStr "b64:{}")];
                           JDict [("id", JStr "cfg2");
                                  ("targetedMobileApps", JList []);
                                  ("payloadJson", JNull)]])])).
  - reflexivity.
  - reflexivity.
  - vm_compute. left. reflexivity.
Defined.


(** ** The detection script lookups *)

Lemma fetch_script_events env m script_id :
  events (DeviceCompliance.fetch_script env m script_id)
  = [script_request env script_id].
Proof.
  unfold DeviceCompliance.fetch_script, request, mbind, lift, script_request.
  destruct (make_graph_request env _ _) as [d|]; [|reflexivity].
  destruct (_ <- Py.get_none d "value" ;; _)%res; reflexivity.
Qed.

Lemma fetch_script_fold_events env l :
  forall m0,
    (exists n,
        events (mfoldM (DeviceCompliance.fetch_script env) m0 l)
        = List.map (script_request env) (firstn n l))
    /\ (forall m,
           outcome (mfoldM (DeviceCompliance.fetch_script env) m0 l) = Ret m ->
           events (mfoldM (DeviceCompliance.fetch_script env) m0 l)
           = List.map (script_request env) l).
Proof.
  induction l as [|x xs IH]; intros m0.
  - split; [exists 0; reflexivity|]. reflexivity.
  - cbn [mfoldM]. rewrite events_mbind, outcome_mbind, fetch_script_events.
    destruct (outcome (DeviceCompliance.fetch_script env m0 x)) as [m1|].
    + destruct (IH m1) as [[n Hn] Hall]. split.
      * exists (S n). cbn [firstn List.map app]. rewrite Hn. reflexivity.
      * intros m Hm. cbn [List.map app]. rewrite (Hall m Hm). reflexivity.
    + split; [exists 1; destruct xs; reflexivity|]. discriminate.
Qed.

Lemma adds_collect_step env :
  adds fst (DeviceCompliance.collect_step env) (script_of_record env).
Proof.
  intros [s sent] item [s' sent'] H.
  unfold DeviceCompliance.collect_step in H.
  apply rbind_ret in H. destruct H as (ids & Hids & H).
  apply rbind_ret in H. destruct H as (id & _ & H).
  injection H as <- _. cbn [fst]. unfold script_of_record.
  destruct (_check_linux_discovery_script item).
  - destruct (_get_detection_script_id item []) as [p|].
    + apply rbind_ret in Hids. destruct Hids as (sid & Hsid & Hadd).
      destruct (adds_set_add _ _ _ Hadd) as [Hn Hm].
      split; [exact Hn|]. intros x. rewrite Hm. split.
      * intros [Hx|Hx]; [left; exact Hx|].
        right. split; [reflexivity|]. exists p, sid. auto.
      * intros [Hx|(_ & p' & id' & Hp & Hid & Hx)]; [left; exact Hx|].
        right. injection Hp as <-. rewrite Hsid in Hid. injection Hid as <-.
        exact Hx.
    + injection Hids as <-. split; [auto|]. intros x. split; [auto|].
      intros [Hx|(_ & p' & id' & Hp & _)]; [exact Hx|discriminate].
  - injection Hids as <-. split; [auto|]. intros x. split; [auto|].
    intros [Hx|(Hc & _)]; [exact Hx|discriminate].
Qed.



(** ** The order of the calls of a run *)

(** X17.  Every run of a [main] is its fetching calls, beginning with the
    primary fetch, followed by at most one persistence call and at most one
    error log: no request or batch call is sent after the persistence call,
    and nothing is persisted twice. *)
Theorem X17_calls_then_one_persistence (b : backup_module) (env : Env) :
  exists calls tail,
    events (main_of b env) = calls ++ tail
    /\ hd_error calls = Some (fetch_event b env)
    /\ Forall (fun ev => is_call ev = true) calls
    /\ run_tail b env tail.
Proof.
  assert (Hfetch : is_call (fetch_event b env) = true) by (destruct b; reflexivity).
  unfold run_tail.
  destruct (main_of_run b env) as [e msg Hx | g e Hx He | g data e msg Hx He Hp
                                   | g data r Hx He Hp].
  - exists [fetch_event b env], [EvLog "error" msg e].
    repeat split; [repeat constructor; exact Hfetch|]. right. left. eauto.
  - exists (fetch_event b env :: events (enrich_of b env g)), [].
    rewrite app_nil_r. repeat split.
    + constructor; [exact Hfetch|]. apply calls_only_enrich.
    + left. reflexivity.
  - exists (fetch_event b env :: events (enrich_of b env g)),
      [persist_event b env data; EvLog "error" msg e].
    repeat split.
    + constructor; [exact Hfetch|]. apply calls_only_enrich.
    + right. right. right. eauto.
  - exists (fetch_event b env :: events (enrich_of b env g)),
      [persist_event b env data].
    repeat split.
    + constructor; [exact Hfetch|]. apply calls_only_enrich.
    + right. right. left. eauto.
Qed.

(** ** [_get_notification_template] and the path [main] takes *)

(** X13.  An action whose [notificationTemplateId] is missing or null makes
    the loop body of [_get_notification_template] raise before it sends any
    request ([KeyError] for a missing key, [TypeError] for null), whereas
    the code [main] runs skips such an action: it harvests no template id
    from it and only applies [remove_keys] to it. *)
Theorem X13_action_without_template_id (env : Env) (templates : Py.pymap json)
    (ids : Py.pyset) (kvs : list (string * json))
    (Hmissing : no_template_id kvs) :
  notify_action env (JDict kvs)
  = ([], Exc (match Py.dict_get "notificationTemplateId" kvs with
              | None => KeyError (JStr "notificationTemplateId")
              | Some _ => TypeError
              end))
  /\ harvest_config ids (JDict kvs) = Ret ids
  /\ enrich_config env templates (JDict kvs) = remove_keys env (JDict kvs).
Proof.
  unfold notify_action, harvest_config, enrich_config, in_place.
  unfold Py.get_none, Py.get_or, Py.get, Py.getitem, mbind, lift.
  cbn [rbind].
  destruct Hmissing as [H|H]; rewrite H; cbn [rbind Py.truthy Py.eq_str negb andb];
    repeat split; reflexivity.
Qed.

Lemma X13_witness :
  notify_action compliance_env (JDict [("ruleName", JNull)])
  = ([], Exc (KeyError (JStr "notificationTemplateId")))
  /\ harvest_config [] (JDict [("ruleName", JNull)]) = Ret []
  /\ enrich_config compliance_env [] (JDict [("ruleName", JNull)])
     = remove_keys compliance_env (JDict [("ruleName", JNull)]).
Proof.
  apply (X13_action_without_template_id compliance_env [] []
           [("ruleName", JNull)]).
  left. reflexivity.
Defined.


(** ** The position of the rewritten field *)

Lemma filter_absent_key k kvs :
  ~ In k (keys_of kvs) ->
  filter (fun kv => negb (String.eqb k (fst kv))) kvs = kvs.
Proof.
  unfold keys_of.
  induction kvs as [|[k' v] rest IH]; intros Hnotin; [reflexivity|].
  cbn [filter fst List.map] in *.
  destruct (String.eqb_spec k k') as [->|Hne]; cbn [negb].
  - exfalso. apply Hnotin. left. reflexivity.
  - f_equal. apply IH. intros Hin. apply Hnotin. right. exact Hin.
Qed.

Lemma dict_remove_filter k kvs :
  NoDup (keys_of kvs) ->
  Py.dict_remove k kvs = filter (fun kv => negb (String.eqb k (fst kv))) kvs.
Proof.
  unfold keys_of.
  induction kvs as [|[k' v] rest IH]; intros Hnd; [reflexivity|].
  cbn [Py.dict_remove filter fst List.map] in *.
  inversion Hnd as [|? ? Hnotin Hrest]; subst.
  destruct (String.eqb_spec k k') as [->|Hne]; cbn [negb].
  - symmetry. apply filter_absent_key. exact Hnotin.
  - f_equal. apply IH. exact Hrest.
Qed.

Lemma dict_set_new k v kvs :
  Py.dict_get k kvs = None -> Py.dict_set k v kvs = (kvs ++ [(k, v)])%list.
Proof.
  induction kvs as [|[k' v'] rest IH]; intros H; [reflexivity|].
  cbn [Py.dict_get Py.dict_set app] in *.
  destruct (String.eqb k k'); [discriminate|]. f_equal. apply IH. exact H.
Qed.

Lemma dict_get_filtered k kvs :
  Py.dict_get k (filter (fun kv => negb (String.eqb k (fst kv))) kvs) = None.
Proof.
  induction kvs as [|[k' v'] rest IH]; [reflexivity|].
  cbn [filter fst]. destruct (String.eqb k k') eqn:Hk; cbn [negb]; [exact IH|].
  cbn [Py.dict_get]. rewrite Hk. exact IH.
Qed.

Lemma keys_of_filter k kvs :
  keys_of (filter (fun kv => negb (String.eqb k (fst kv))) kvs)
  = other_than k (keys_of kvs).
Proof.
  unfold keys_of, other_than.
  induction kvs as [|[k' v'] rest IH]; [reflexivity|].
  cbn [filter fst List.map]. destruct (String.eqb k k'); cbn [negb List.map fst];
    [exact IH | f_equal; exact IH].
Qed.

Lemma dict_set_keys k v kvs o :
  Py.dict_get k kvs = Some o -> keys_of (Py.dict_set k v kvs) = keys_of kvs.
Proof.
  unfold keys_of.
  induction kvs as [|[k' v'] rest IH]; intros H; [discriminate|].
  cbn [Py.dict_get Py.dict_set] in *.
  destruct (String.eqb k k'); cbn [List.map fst]; [reflexivity|].
  f_equal. apply IH. exact H.
Qed.

Lemma enrich_apps_order m kvs a :
  AppConfiguration.enrich_apps m (JDict kvs) = Ret a ->
  NoDup (keys_of kvs) ->
  a = JDict kvs
  \/ exists obj,
       a = JDict (filter (fun kv => negb (String.eqb "targetedMobileApps" (fst kv)))
                    kvs ++ [("targetedMobileApps", obj)])%list.
Proof.
  intros H Hnd. unfold AppConfiguration.enrich_apps in H. rinv H;
    try (injection H as <-; left; reflexivity).
  right.
  match goal with
  | Hp : Py.pop (JDict kvs) _ = Ret ?x |- _ =>
      unfold Py.pop in Hp;
      destruct (Py.dict_get "targetedMobileApps" kvs); [|discriminate Hp];
      injection Hp as <-
  end.
  cbn [Py.setitem] in H. injection H as <-.
  rewrite (dict_remove_filter _ _ Hnd).
  rewrite dict_set_new by apply dict_get_filtered.
  eexists. reflexivity.
Qed.

Lemma decode_payload_keys env l r' :
  AppConfiguration.decode_payload env (JDict l) = Ret r' ->
  exists l',
    r' = JDict l'
    /\ keys_of l' = keys_of l
    /\ Py.dict_get "targetedMobileApps" l' = Py.dict_get "targetedMobileApps" l.
Proof.
  intros H. unfold AppConfiguration.decode_payload in H.
  unfold Py.get_none, Py.get_or, Py.get, Py.getitem at 1 in H. cbn [rbind] in H.
  destruct (Py.dict_get "payloadJson" l) as [p|] eqn:Hp.
  - destruct (Py.truthy p).
    + cbn [rbind] in H.
      destruct (decode_base64 env p) as [d|]; cbn [rbind] in H; [|discriminate].
      cbn [Py.setitem rbind Py.getitem] in H.
      rewrite dict_get_set_same in H. cbn [rbind] in H.
      destruct (json_loads env d) as [parsed|]; cbn [rbind] in H; [|discriminate].
      injection H as <-. eexists. split; [reflexivity|]. split.
      * rewrite (dict_set_keys _ _ _ d) by apply dict_get_set_same.
        apply (dict_set_keys _ _ _ p Hp).
      * rewrite !dict_get_set_other by discriminate. reflexivity.
    + injection H as <-. eauto.
  - cbn [Py.truthy] in H. injection H as <-. eauto.
Qed.

Lemma app_process_item_order env m r r' :
  AppConfiguration.process_item env m r = Ret r' -> apps_moved_last r r'.
Proof.
  intros H kvs -> Hnd Hchanged.
  unfold AppConfiguration.process_item in H.
  apply rbind_ret in H. destruct H as (item1 & H1 & H2).
  destruct (enrich_apps_order m kvs item1 H1 Hnd) as [->|[obj ->]];
    apply decode_payload_keys in H2; destruct H2 as (l' & -> & Hkeys & Hget).
  - exfalso. apply Hchanged. cbn [field_of]. exact Hget.
  - exists l'. split; [reflexivity|].
    rewrite Hkeys. unfold keys_of at 1. rewrite List.map_app.
    fold (keys_of (filter (fun kv => negb (String.eqb "targetedMobileApps" (fst kv)))
                     kvs)).
    rewrite keys_of_filter. reflexivity.
Qed.

(** X18.  AppConfiguration rewrites [targetedMobileApps] by [pop] and
    assignment (lines 80-83), so in the data handed to the persistence call
    a record whose field was rewritten lists it as its last key, the other
    keys in their fetched order. *)
Theorem X18_rewritten_apps_field_is_last_key (env : Env) (g : json)
    (items : list json) (data : json)
    (Hfetch : primary_fetch AppConfigurationModule env = Ret g)
    (Hvalue : Py.getitem g "value" = Ret (JList items))
    (Hdata : In data (persisted (events (AppConfiguration.main env)))) :
  exists items', data = JList items' /\ Forall2 apps_moved_last items items'.
Proof.
  pose proof (persisted_from_enrich AppConfigurationModule env g data Hfetch Hdata)
    as H.
  cbn [enrich_of] in H.
  unfold AppConfiguration.enrich in H. minv H. unlift.
  rewrite Hvalue in Ha. injection Ha as <-.
  destruct (Py.truthy (JList items)) eqn:Ht.
  - minv H. unlift.
    apply for_each_list in H as (items' & -> & HF).
    exists items'. split; [reflexivity|].
    eapply Forall2_impl; [|exact HF]. intros x y Hxy.
    eapply app_process_item_order; exact Hxy.
  - destruct items; [|discriminate]. injection H as <-.
    exists []. split; [reflexivity | constructor].
Qed.

Lemma X18_witness :
  exists items',
    JList [JDict [("id", JStr "cfg1");
                  ("displayName", JStr "Mail settings");
                  ("targetedMobileApps",
                   JDict [("appName", JStr "Mail");
                          ("type", JStr "#microsoft.graph.iosStoreApp")])]]
    = JList items'
    /\ Forall2 apps_moved_last [apps_first_record] items'.
Proof.
  apply (X18_rewritten_apps_field_is_last_key apps_first_env
           (JDict [("value", JList [apps_first_record])])).
  - reflexivity.
  - reflexivity.
  - vm_compute. left. reflexivity.
Defined.


(** ** The detection script name of a record *)

Lemma search_none_unchecked item :
  _check_linux_discovery_script item = false ->
  _get_detection_script_id item [] = None.
Proof.
  intros Hc. destruct (_get_detection_script_id item []) as [p|] eqn:Hp;
    [|reflexivity].
  rewrite search_is_first_match in Hp.
  pose proof (match_is_checked item [] p (hd_error_In _ _ Hp)) as Hx.
  congruence.
Qed.

Lemma add_script_name_written env scripts item item1 :
  DeviceCompliance.add_script_name env scripts item = Ret item1 ->
  script_name_written env item item1.
Proof.
  intros H. unfold DeviceCompliance.add_script_name in H.
  unfold script_name_written.
  destruct (_check_linux_discovery_script item) eqn:Hc.
  - destruct (_get_detection_script_id item []) as [p|].
    + rinv H.
      match goal with
      | Hid : _get_value_from_path env item p = Ret ?id |- _ => exists id
      end.
      destruct item as [| | | | |kvs]; try discriminate.
      cbn [Py.setitem] in H. injection H as <-.
      eexists. split; [assumption|]. cbn [field_of]. apply dict_get_set_same.
    + injection H as <-. reflexivity.
  - rewrite (search_none_unchecked item Hc). injection H as <-. reflexivity.
Qed.

Lemma dc_process_step_script env scripts templates s done item s' done' :
  DeviceCompliance.process_step env scripts templates (s, done) item
  = Ret (s', done') ->
  exists y, done' = done ++ [y]
            /\ forall store,
                 script_name_written env item (DeviceCompliance.resolve store y).
Proof.
  intros H. unfold DeviceCompliance.process_step in H.
  apply rbind_ret in H. destruct H as (item1 & H1 & H).
  apply add_script_name_written in H1.
  apply rbind_ret in H. destruct H as (id & _ & H).
  apply rbind_ret in H. destruct H as (found & _ & H).
  assert (Hkeep : forall item2 kvs2 v,
             Py.setitem item1 "scheduledActionsForRule" v = Ret item2 ->
             (item2 = JDict kvs2 ->
              forall w,
                script_name_written env item
                  (JDict (Py.dict_set "scheduledActionsForRule" w kvs2)))
             /\ script_name_written env item item2).
  { intros item2 kvs2 v Hset.
    destruct item1 as [| | | | |kvs1]; try discriminate.
    cbn [Py.setitem] in Hset. injection Hset as <-.
    unfold script_name_written in *. cbn [field_of] in *.
    split.
    - intros Heq w. injection Heq as <-.
      destruct (_get_detection_script_id item []);
        rewrite !dict_get_set_other by discriminate; exact H1.
    - destruct (_get_detection_script_id item []);
        rewrite !dict_get_set_other by discriminate; exact H1. }
  destruct found as [actions|].
  - apply rbind_ret in H. destruct H as (item2 & Hset & H).
    apply rbind_ret in H. destruct H as (actions' & _ & H).
    injection H as <- <-. eexists. split; [reflexivity|]. intros store.
    destruct item2 as [| | | | |kvs2];
      try (destruct item1; discriminate).
    destruct (Hkeep _ kvs2 _ Hset) as [Hk1 Hk2].
    cbn [DeviceCompliance.resolve].
    destruct (Py.map_find id store); [apply Hk1; reflexivity|exact Hk2].
  - apply rbind_ret in H. destruct H as (item2 & Hset & H).
    injection H as <- <-. eexists. split; [reflexivity|]. intros store.
    destruct (Hkeep _ [] _ Hset) as [_ Hk2].
    destruct item2 as [| | | | |kvs2]; exact Hk2.
Qed.

(** X20.  A compliance policy handed to the persistence call carries a
    [detectionScriptName] written by the module exactly when the path
    search finds a match in it (the name is null when the script lookup
    returned none); a record in which the search finds nothing, also one
    that mentions the sentinel only under a list nested in a list, has the
    field as fetched. *)
Theorem X20_script_name_follows_path_search (env : Env) (g : json)
    (items : list json) (data : json)
    (Hfetch : primary_fetch DeviceComplianceModule env = Ret g)
    (Hvalue : Py.getitem g "value" = Ret (JList items))
    (Hdata : In data (persisted (events (DeviceCompliance.main env)))) :
  exists items',
    data = JList items' /\ Forall2 (script_name_written env) items items'.
Proof.
  pose proof (persisted_from_enrich DeviceComplianceModule env g data Hfetch Hdata)
    as H.
  simpl in H. unfold DeviceCompliance.enrich in H. minv H.
  destruct (dc_gather_items _ _ _ _ Ha Hvalue) as [Hval Hit].
  unfold DeviceCompliance.finish in H. minv H. unlift.
  rewrite Hval, Hit in *. injection H as <-.
  match goal with
  | Hfold : rfoldM (DeviceCompliance.process_step _ _ _) _ _ = Ret _ |- _ =>
      eapply (rfoldM_appends
                (fun item y => forall store,
                     script_name_written env item
                       (DeviceCompliance.resolve store y)))
        in Hfold as (new & -> & HF)
  end.
  - eexists. split; [reflexivity|]. simpl. apply Forall2_map_r.
    eapply Forall2_impl; [|exact HF]. intros x y Hxy. apply Hxy.
  - intros. eapply dc_process_step_script; eauto.
Qed.

Lemma X20_witness :
  exists items',
    hd JNull (persisted (events (DeviceCompliance.main linux_env))) = JList items'
    /\ Forall2 (script_name_written linux_env) [linux_policy] items'.
Proof.
  apply (X20_script_name_follows_path_search linux_env
           (JDict [("value", JList [linux_policy])])).
  - reflexivity.
  - reflexivity.
  - vm_compute. left. reflexivity.
Defined.


(** ** A primary answer without [value] *)

Lemma enrich_without_value b env g e :
  Py.getitem g "value" = Exc e -> enrich_of b env g = ([], Exc e).
Proof.
  intros H. destruct b; cbn [enrich_of].
  - unfold AppConfiguration.enrich, mbind, lift. rewrite H. reflexivity.
  - unfold DeviceCompliance.enrich, DeviceCompliance.gather, mbind, lift.
    rewrite H. reflexivity.
  - unfold GroupPolicyConfigurations.enrich, mbind, lift. rewrite H. reflexivity.
  - unfold Roles.enrich, mbind, lift.
    destruct (Roles.assignments_wanted env); rewrite H; reflexivity.
Qed.

(** X21.  When the primary fetch answers with something that has no
    [value] entry, each of the four [main]s ends with the exception of
    [graph_data["value"]] (a [KeyError] for a dict): the read sits outside
    both [try] blocks, so the only event of the run is the primary fetch,
    nothing is logged and nothing is persisted. *)
Theorem X21_answer_without_value_aborts (b : backup_module) (env : Env)
    (g : json) (e : exn)
    (Hfetch : primary_fetch b env = Ret g)
    (Hvalue : Py.getitem g "value" = Exc e) :
  main_of b env = ([fetch_event b env], Exc e).
Proof.
  pose proof (enrich_without_value b env g e Hvalue) as Hen.
  destruct (main_of_run b env) as [e0 msg Hx | g0 e0 Hx He | g0 data e0 msg Hx He Hp
                                   | g0 data r Hx He Hp];
    rewrite Hfetch in Hx; try discriminate; injection Hx as <-;
    rewrite Hen in *; unfold outcome, events in *; cbn [fst snd] in *;
    try discriminate.
  injection He as <-. reflexivity.
Qed.

Lemma X21_witness :
  Roles.main (sample_env [] (JDict [("error", JStr "Forbidden")]) (fun _ => []))
  = ([fetch_event RolesModule
        (sample_env [] (JDict [("error", JStr "Forbidden")]) (fun _ => []))],
     Exc (KeyError (JStr "value"))).
Proof.
  apply (X21_answer_without_value_aborts RolesModule
           (sample_env [] (JDict [("error", JStr "Forbidden")]) (fun _ => []))
           (JDict [("error", JStr "Forbidden")]) (KeyError (JStr "value"))).
  - reflexivity.
  - reflexivity.
Defined.


(** ** The records DeviceCompliance and GroupPolicyConfigurations persist *)

Lemma Forall2_conj {A B} (R S : A -> B -> Prop) l l' :
  Forall2 R l l' -> Forall2 S l l' -> Forall2 (fun x y => R x y /\ S x y) l l'.
Proof.
  intros HR. induction HR as [|x y l l' Hxy _ IH]; intros HS;
    inversion HS; subst; constructor; auto.
Qed.

(** X3.  The data DeviceCompliance hands to the persistence call lists the
    fetched records one by one, in their fetched order: at each position
    the persisted record has the [id] of the fetched one and carries a
    [scheduledActionsForRule] field, whether or not a batch response
    correlated with it (line 217 writes the field for every record). *)
Theorem X3_scheduled_actions_always_present (env : Env) (g : json)
    (items : list json) (data : json)
    (Hfetch : primary_fetch DeviceComplianceModule env = Ret g)
    (Hvalue : Py.getitem g "value" = Ret (JList items))
    (Hpersisted : In data (persisted (events (DeviceCompliance.main env)))) :
  exists items',
    data = JList items' /\ Forall2 scheduled_actions_present items items'.
Proof.
  destruct (dc_persisted_shape env g items data Hfetch Hvalue Hpersisted)
    as (items' & -> & HF).
  pose proof (persisted_from_enrich DeviceComplianceModule env g _ Hfetch Hpersisted)
    as Hen.
  destruct (enrich_keeps_fields DeviceComplianceModule env g items _ "id"
              Hen Hvalue eq_refl) as (items2 & Heq & Hid).
  injection Heq as <-.
  exists items'. split; [reflexivity|].
  eapply Forall2_impl; [|exact (Forall2_conj _ _ _ _ Hid HF)].
  intros r r' (Hsame & _ & Hfield & _). split; assumption.
Qed.

Lemma X3_witness :
  primary_fetch DeviceComplianceModule compliance_env = Ret compliance_graph
  /\ In compliance_output (persisted (events (DeviceCompliance.main compliance_env)))
  /\ exists items',
       compliance_output = JList items'
       /\ Forall2 scheduled_actions_present
            [JDict [("id", JStr "p1"); ("name", JStr "Windows baseline")];
             JDict [("id", JStr "p2"); ("name", JStr "Kiosk")];
             JDict [("id", JStr "p3"); ("name", JStr "Phones")]]
            items'.
Proof.
  assert (Hin : In compliance_output
                  (persisted (events (DeviceCompliance.main compliance_env)))).
  { vm_compute. left. reflexivity. }
  split; [reflexivity|]. split; [exact Hin|].
  exact (X3_scheduled_actions_always_present compliance_env compliance_graph _
           compliance_output eq_refl eq_refl Hin).
Defined.

Lemma gpo_assemble_item_assembled env dm pm item item' :
  GroupPolicyConfigurations.assemble_item env dm pm item = Ret item' ->
  policy_assembled env dm pm item item'.
Proof.
  intros H. unfold GroupPolicyConfigurations.assemble_item in H.
  apply rbind_ret in H. destruct H as (policy_id & Hid & H).
  apply rbind_ret in H. destruct H as (definitions & Hdefs & H).
  apply rbind_ret in H. destruct H as (item1 & Hset & H).
  apply rbind_ret in H. destruct H as (definitions' & Hloop & H).
  exists policy_id. split; [exact Hid|].
  destruct item1 as [| | | | |kvs1]; try discriminate.
  cbn [Py.setitem] in H. injection H as <-. cbn [field_of].
  rewrite dict_get_set_same.
  unfold GroupPolicyConfigurations.definitions_of, Py.map_get in Hdefs.
  destruct (Py.hashable policy_id); [|discriminate]. cbn [rbind] in Hdefs.
  destruct (Py.map_find policy_id dm) as [defs|]; injection Hdefs as <-.
  - exists definitions'. split; [reflexivity|]. intros ds ->.
    apply for_each_list in Hloop as (ds' & -> & HF).
    exists ds'. split; [reflexivity|].
    eapply Forall2_impl; [|exact HF]. intros d d' Hd.
    unfold GroupPolicyConfigurations.attach_presentations in Hd.
    apply rbind_ret in Hd. destruct Hd as (key & Hkey & Hd).
    unfold Py.map_get in Hd. cbn [Py.hashable rbind] in Hd.
    destruct d as [| | | | |dkvs]; try discriminate.
    cbn [Py.setitem] in Hd. injection Hd as <-.
    exists key. split; [exact Hkey|]. cbn [field_of]. apply dict_get_set_same.
  - apply for_each_list in Hloop as (ds' & -> & HF). inversion HF. reflexivity.
Qed.

(** X5.  Position by position, a group policy configuration handed to the
    persistence call has as [definitionValues] the definitions the
    definitions map holds for its id, and the empty list when the map holds
    none (line 106); each of these definitions has as [presentationValues]
    the value the presentation map holds for its request id, and the empty
    list when it holds none (line 111).  The two maps are those the run
    built from its two batch calls. *)
Theorem X5_definition_and_presentation_values_present (env : Env) (g : json)
    (items : list json) (data : json)
    (Hfetch : primary_fetch GroupPolicyConfigurationsModule env = Ret g)
    (Hvalue : Py.getitem g "value" = Ret (JList items))
    (Hpersisted : In data (persisted (events (GroupPolicyConfigurations.main env)))) :
  exists requests dm presentation_requests pm items',
    rmapM (fun item => (id <- Py.getitem item "id" ;; Ret (id_item id))%res) items
    = Ret requests
    /\ outcome (GroupPolicyConfigurations.fetch_definitions env requests) = Ret dm
    /\ rfoldM (GroupPolicyConfigurations.presentation_requests_of env dm) [] items
       = Ret presentation_requests
    /\ outcome (GroupPolicyConfigurations.fetch_presentations env
                  presentation_requests) = Ret pm
    /\ data = JList items'
    /\ Forall2 (policy_assembled env dm pm) items items'.
Proof.
  pose proof (persisted_from_enrich GroupPolicyConfigurationsModule env g data
                Hfetch Hpersisted) as H.
  cbn [enrich_of] in H. unfold GroupPolicyConfigurations.enrich in H.
  apply mbind_outcome_ret in H. destruct H as (value & Hv & H).
  rewrite outcome_lift, Hvalue in Hv. injection Hv as <-.
  apply mbind_outcome_ret in H. destruct H as (items0 & Hi & H).
  rewrite outcome_lift in Hi. cbn [Py.iter] in Hi. injection Hi as <-.
  apply mbind_outcome_ret in H. destruct H as (requests & Hreq & H).
  rewrite outcome_lift in Hreq.
  apply mbind_outcome_ret in H. destruct H as (dm & Hdm & H).
  apply mbind_outcome_ret in H. destruct H as (preqs & Hpreqs & H).
  rewrite outcome_lift in Hpreqs.
  apply mbind_outcome_ret in H. destruct H as (pm & Hpm & H).
  rewrite outcome_lift in H.
  apply for_each_list in H as (items' & -> & HF).
  exists requests, dm, preqs, pm, items'.
  repeat split; try assumption.
  eapply Forall2_impl; [|exact HF]. intros r r' Hr.
  eapply gpo_assemble_item_assembled; exact Hr.
Qed.

Lemma X5_witness :
  exists data,
    In data (persisted (events (GroupPolicyConfigurations.main two_policies_env)))
    /\ exists requests dm presentation_requests pm items',
         rmapM (fun item => (id <- Py.getitem item "id" ;; Ret (id_item id))%res)
           [JDict [("id", JStr "gp1"); ("displayName", JStr "Edge")];
            JDict [("id", JStr "gp2"); ("displayName", JStr "Office")]]
         = Ret requests
         /\ outcome (GroupPolicyConfigurations.fetch_definitions two_policies_env
                       requests) = Ret dm
         /\ rfoldM (GroupPolicyConfigurations.presentation_requests_of
                      two_policies_env dm) []
              [JDict [("id", JStr "gp1"); ("displayName", JStr "Edge")];
               JDict [("id", JStr "gp2"); ("displayName", JStr "Office")]]
            = Ret presentation_requests
         /\ outcome (GroupPolicyConfigurations.fetch_presentations two_policies_env
                       presentation_requests) = Ret pm
         /\ data = JList items'
         /\ Forall2 (policy_assembled two_policies_env dm pm)
              [JDict [("id", JStr "gp1"); ("displayName", JStr "Edge")];
               JDict [("id", JStr "gp2"); ("displayName", JStr "Office")]]
              items'.
Proof.
  eexists. split; [vm_compute; left; reflexivity|].
  refine (X5_definition_and_presentation_values_present two_policies_env
            two_policies _ _ eq_refl eq_refl _).
  vm_compute. left. reflexivity.
Defined.


(** ** C6: what [main] returns *)

(** C6 (as amended).  In each of the four modules, the caller of [main]
    receives null exactly when the primary fetch raises, or the persistence
    call is reached and raises, or the persistence call itself returns null;
    one message is logged, at error level, exactly in the first two cases,
    and none otherwise.  A value other than null is returned exactly when
    the persistence call returns it.  Persistence is one call at most, made
    only on the data of a completed enrichment: when it raises nothing else
    is handed to it, and [main] returns none of the enrichment.  An
    exception raised between the fetch and the persistence call (in an
    enrichment stage) is not caught: it leaves [main], nothing is logged and
    nothing is persisted, so an enrichment failure never gives a null
    return. *)
Theorem C6_null_return_only_for_fetch_or_persist (b : backup_module) (env : Env) :
  (returns b env JNull <->
     fetch_raises b env
     \/ (exists data e, persistence_gives b env data (Exc e))
     \/ (exists data, persistence_gives b env data (Ret JNull)))
  /\ filter is_log (events (main_of b env)) = error_logs (events (main_of b env))
  /\ (fetch_raises b env \/ (exists data e, persistence_gives b env data (Exc e)) ->
      List.length (error_logs (events (main_of b env))) = 1)
  /\ (~ (fetch_raises b env \/ exists data e, persistence_gives b env data (Exc e)) ->
      error_logs (events (main_of b env)) = [])
  /\ (forall v, v <> JNull ->
        (returns b env v <-> exists data, persistence_gives b env data (Ret v)))
  /\ List.length (persisted (events (main_of b env))) <= 1
  /\ (forall data, In data (persisted (events (main_of b env))) ->
        exists g, primary_fetch b env = Ret g
                  /\ outcome (enrich_of b env g) = Ret data)
  /\ (forall e, outcome (main_of b env) = Exc e <->
        exists g, primary_fetch b env = Ret g
                  /\ outcome (enrich_of b env g) = Exc e)
  /\ (forall e, outcome (main_of b env) = Exc e ->
        persisted (events (main_of b env)) = []
        /\ filter is_log (events (main_of b env)) = []).
Proof.
  pose proof (main_run_trace b env _ (main_of_run b env)) as H.
  assert (Hlogs : forall t, filter is_log t = [] -> error_logs t = []).
  { intros t. induction t as [|ev t IH]; [reflexivity|].
    destruct ev; simpl; try exact IH. discriminate. }
  unfold returns, fetch_raises, persistence_gives.
  destruct (outcome (main_of b env)) as [[r|]|e].
  - destruct H as (Hl & g & data & Hf & He & Hp & Hd).
    rewrite Hl, (Hlogs _ Hl), Hd.
    split; [|split; [reflexivity|split; [|split; [|split; [|split; [|split;
      [|split]]]]]]].
    + split.
      * intros (o & [= <-] & Hr). cbn [returned] in Hr. subst r.
        right. right. exists data. auto.
      * intros Hcases. exists (Some r). split; [reflexivity|]. cbn [returned].
        destruct Hcases as [[e Hx] | [(d & e & [= <-] & Hy) | (d & [= <-] & Hy)]];
          congruence.
    + intros [[e Hx] | (d & e & [= <-] & Hy)]; congruence.
    + reflexivity.
    + intros v Hv. split.
      * intros (o & [= <-] & Hr). cbn [returned] in Hr. subst r. eauto.
      * intros (d & [= <-] & Hy). exists (Some r). split; [reflexivity|].
        cbn [returned]. congruence.
    + cbn [List.length]. apply le_n.
    + intros d [<-|[]]. eauto.
    + intros e. split; [discriminate|]. intros (g' & Hx & Hy). congruence.
    + discriminate.
  - destruct H as ((msg & e & Hl & Hel) & Hcase).
    rewrite Hl, Hel.
    split; [|split; [reflexivity|split; [|split; [|split; [|split; [|split;
      [|split]]]]]]].
    + split.
      * intros _.
        destruct Hcase as [[He _] | (g & data & e' & _ & _ & Hp & Hd)];
          [left; exact He | right; left; exists data, e'; auto].
      * intros _. exists None. auto.
    + reflexivity.
    + intros Hn. exfalso. apply Hn.
      destruct Hcase as [[He _] | (g & data & e' & _ & _ & Hp & Hd)];
        [left; exact He | right; exists data, e'; auto].
    + intros v Hv. split.
      * intros (o & [= <-] & Hr). cbn [returned] in Hr. congruence.
      * intros (d & Hx & Hy).
        destruct Hcase as [[_ Hd] | (g & data & e' & _ & _ & Hp & Hd)];
          rewrite Hd in Hx; [discriminate|]. injection Hx as <-. congruence.
    + destruct Hcase as [[_ Hd] | (g & data & e' & _ & _ & Hp & Hd)];
        rewrite Hd; cbn [List.length]; auto.
    + intros d Hin.
      destruct Hcase as [[_ Hd] | (g & data & e' & Hf & Hen & Hp & Hd)];
        rewrite Hd in Hin; [contradiction|].
      destruct Hin as [<-|[]]. eauto.
    + intros e0. split; [discriminate|]. intros (g' & Hx & Hy).
      destruct Hcase as [[[e' He] _] | (g & data & e' & Hf & Hen & _ & _)];
        congruence.
    + discriminate.
  - destruct H as (Hl & Hd & g & Hf & He).
    rewrite Hl, (Hlogs _ Hl), Hd.
    split; [|split; [reflexivity|split; [|split; [|split; [|split; [|split;
      [|split]]]]]]].
    + split.
      * intros (o & Hx & _). discriminate.
      * intros [[e' Hx] | [(d & e' & Hx & _) | (d & Hx & _)]];
          [congruence | discriminate | discriminate].
    + intros [[e' Hx] | (d & e' & Hx & _)]; [congruence | discriminate].
    + reflexivity.
    + intros v Hv. split.
      * intros (o & Hx & _). discriminate.
      * intros (d & Hx & _). discriminate.
    + cbn [List.length]. auto.
    + intros d [].
    + intros e0. split; [intros [= <-]; eauto|].
      intros (g' & Hx & Hy). congruence.
    + intros e0 _. auto.
Qed.

(** A persistence call that returns null makes [main] return null without
    any log entry. *)
Example main_returns_null_result :
  returns AppConfigurationModule null_result_env JNull
  /\ error_logs (events (main_of AppConfigurationModule null_result_env)) = []
  /\ persistence_gives AppConfigurationModule null_result_env (JList []) (Ret JNull).
Proof.
  split; [exists (Some JNull); split; reflexivity|].
  split; [reflexivity|]. split; reflexivity.
Qed.


(** ** The single requests of a run *)

Lemma requests_app t1 t2 : requests (t1 ++ t2) = (requests t1 ++ requests t2)%list.
Proof. apply filter_app. Qed.

Lemma requests_mbind {A B} (m : M A) (f : A -> M B) :
  requests (events (mbind m f))
  = (requests (events m)
       ++ match outcome m with
          | Ret a => requests (events (f a))
          | Exc _ => []
          end)%list.
Proof.
  rewrite events_mbind, requests_app. destruct (outcome m); reflexivity.
Qed.

Lemma requests_lift_bind {A B} (r : res A) (f : A -> M B) :
  requests (events (mbind (lift r) f))
  = match r with
    | Ret a => requests (events (f a))
    | Exc _ => []
    end.
Proof. rewrite requests_mbind. destruct r; reflexivity. Qed.

Lemma requests_none {A} (m : M A) : emits not_request m -> requests (events m) = [].
Proof.
  unfold emits, requests. generalize (events m) as t.
  induction t as [|ev t IH]; intros H; [reflexivity|].
  inversion H as [|? ? Hev Ht]; subst. cbn [filter].
  unfold not_request in Hev. destruct (is_request ev); [discriminate|].
  apply IH. exact Ht.
Qed.

Lemma requests_script_requests env l :
  requests (List.map (script_request env) l) = List.map (script_request env) l.
Proof.
  induction l as [|x l IH]; [reflexivity|].
  unfold requests in *. cbn [List.map filter].
  change (is_request (script_request env x)) with true. cbv iota.
  rewrite IH. reflexivity.
Qed.

Lemma main_requests b env :
  requests (events (main_of b env))
  = fetch_event b env
      :: match primary_fetch b env with
         | Ret g => requests (events (enrich_of b env g))
         | Exc _ => []
         end.
Proof.
  assert (Hf : forall t, requests (fetch_event b env :: t)
                         = fetch_event b env :: requests t)
    by (intros t; destruct b; reflexivity).
  destruct (main_of_run b env) as [e msg Hx | g e Hx He | g data e msg Hx He Hp
                                   | g data r Hx He Hp];
    rewrite Hx; unfold events at 1; cbn [fst]; rewrite Hf;
    rewrite ?requests_app; cbn; rewrite ?app_nil_r; reflexivity.
Qed.

Lemma app_enrich_no_requests env g :
  requests (events (AppConfiguration.enrich env g)) = [].
Proof.
  apply requests_none.
  unfold AppConfiguration.enrich, AppConfiguration.fetch_apps. emits.
Qed.

Lemma roles_enrich_no_requests env g :
  requests (events (Roles.enrich env g)) = [].
Proof.
  apply requests_none.
  unfold Roles.enrich, Roles.assignment_stages, Roles.gather, Roles.finish,
    Roles.fetch_assignments, Roles.fetch_details, Roles.fetch_groups.
  emits.
Qed.

Lemma gpo_enrich_no_requests env g :
  requests (events (GroupPolicyConfigurations.enrich env g)) = [].
Proof.
  apply requests_none.
  unfold GroupPolicyConfigurations.enrich,
    GroupPolicyConfigurations.fetch_definitions,
    GroupPolicyConfigurations.fetch_presentations.
  emits.
Qed.

Lemma dc_finish_no_requests env st :
  requests (events (DeviceCompliance.finish env st)) = [].
Proof.
  apply requests_none.
  unfold DeviceCompliance.finish, DeviceCompliance.fetch_templates. emits.
Qed.

Lemma fetch_scripts_events env ids :
  (exists n,
      events (DeviceCompliance.fetch_scripts env ids)
      = List.map (script_request env) (firstn n (set_order env ids)))
  /\ (set_order env [] = [] ->
      forall m,
        outcome (DeviceCompliance.fetch_scripts env ids) = Ret m ->
        events (DeviceCompliance.fetch_scripts env ids)
        = List.map (script_request env) (set_order env ids)).
Proof.
  unfold DeviceCompliance.fetch_scripts. destruct ids as [|x xs].
  - split; [exists 0; reflexivity|]. intros -> m _. reflexivity.
  - destruct (fetch_script_fold_events env (set_order env (x :: xs)) [])
      as [Hprefix Hall].
    split; [exact Hprefix|]. intros _ m. apply Hall.
Qed.

(** The single requests of the enrichment of DeviceCompliance are those of
    the detection script lookups. *)
Lemma dc_enrich_requests env g value items script_ids scheduled :
  Py.getitem g "value" = Ret value ->
  Py.iter value = Ret items ->
  rfoldM (DeviceCompliance.collect_step env) ([], []) items
  = Ret (script_ids, scheduled) ->
  requests (events (DeviceCompliance.enrich env g))
  = events (DeviceCompliance.fetch_scripts env script_ids).
Proof.
  intros Hv Hi Hc. unfold DeviceCompliance.enrich. rewrite requests_mbind.
  replace (match outcome (DeviceCompliance.gather env g) with
           | Ret a => requests (events (DeviceCompliance.finish env a))
           | Exc _ => []
           end) with (@nil event)
    by (destruct (outcome _); [rewrite dc_finish_no_requests|]; reflexivity).
  rewrite app_nil_r. unfold DeviceCompliance.gather.
  rewrite requests_lift_bind, Hv, requests_lift_bind, Hi, requests_lift_bind, Hc.
  rewrite requests_mbind.
  destruct (fetch_scripts_events env script_ids) as [[n Hn] _].
  rewrite Hn, requests_script_requests.
  replace (match outcome (DeviceCompliance.fetch_scripts env script_ids) with
           | Ret a => requests (events (_ : M DeviceCompliance.gathered))
           | Exc _ => []
           end) with (@nil event); [apply app_nil_r|].
  destruct (outcome _); [|reflexivity].
  symmetry. apply requests_none. emits.
Qed.

Lemma dc_enrich_requests_are_lookups env g :
  exists script_ids,
    requests (events (DeviceCompliance.enrich env g))
    = List.map (script_request env) script_ids.
Proof.
  destruct (Py.getitem g "value") as [value|] eqn:Hv.
  - destruct (Py.iter value) as [items|] eqn:Hi.
    + destruct (rfoldM (DeviceCompliance.collect_step env) ([], []) items)
        as [[sids sched]|] eqn:Hc.
      * rewrite (dc_enrich_requests env g value items sids sched Hv Hi Hc).
        destruct (fetch_scripts_events env sids) as [[n Hn] _]. eauto.
      * exists []. unfold DeviceCompliance.enrich, DeviceCompliance.gather,
          mbind, lift, requests, events.
        rewrite Hv. cbn [fst]. rewrite Hi. cbn [fst]. rewrite Hc. reflexivity.
    + exists []. unfold DeviceCompliance.enrich, DeviceCompliance.gather,
        mbind, lift, requests, events.
      rewrite Hv. cbn [fst]. rewrite Hi. reflexivity.
  - exists []. unfold DeviceCompliance.enrich, DeviceCompliance.gather,
      mbind, lift, requests, events.
    rewrite Hv. reflexivity.
Qed.


(** ** C3: one batch call per stage, and no request per record *)

(** C3 (as amended).  When a run reaches one of the three batched stages
    with the set of identifiers harvested for it, the set has no duplicates
    and holds exactly the identifiers the harvested data refers to, and the
    module sends no batch call for the stage when the set is empty and
    exactly one otherwise, whose items are the elements of the set, one item
    each: targeted apps in AppConfiguration, notification templates in
    DeviceCompliance, groups in Roles.  The number of records plays no part,
    and no single request is sent for such an identifier: the only single
    request of a run of AppConfiguration or of Roles is the primary fetch,
    and those of DeviceCompliance are the primary fetch and the lookups of
    detection scripts.  (Iterating a set visits each of its elements
    once.) *)
Theorem C3_one_batch_call_over_deduplicated_ids (env : Env)
    (Horder : forall s, Permutation (set_order env s) s) :
  (forall g value items ids,
      primary_fetch AppConfigurationModule env = Ret g ->
      Py.getitem g "value" = Ret value ->
      Py.truthy value = true ->
      Py.iter value = Ret items ->
      rfoldM AppConfiguration.collect_apps [] items = Ret ids ->
      stage_calls env ids
        (batch_calls AppConfiguration.APP_ENDPOINT
           (events (AppConfiguration.main env)))
      /\ key_nodup ids
      /\ forall x, Py.set_mem x ids = true
                   <-> exists item, In item items /\ app_of_record item x)
  /\ (forall g st,
        primary_fetch DeviceComplianceModule env = Ret g ->
        outcome (DeviceCompliance.gather env g) = Ret st ->
        stage_calls env (DeviceCompliance.g_template_ids st)
          (batch_calls DeviceCompliance.TEMPLATES_URL
             (events (DeviceCompliance.main env)))
        /\ key_nodup (DeviceCompliance.g_template_ids st)
        /\ forall x, Py.set_mem x (DeviceCompliance.g_template_ids st) = true
                     <-> exists response,
                           In response (DeviceCompliance.g_responses st)
                           /\ template_of_response response x)
  /\ (forall g value st,
        Roles.assignments_wanted env = true ->
        primary_fetch RolesModule env = Ret g ->
        Py.getitem g "value" = Ret value ->
        outcome (Roles.gather env value) = Ret st ->
        stage_calls env (Roles.g_group_ids st)
          (batch_calls Roles.GROUPS_URL (events (Roles.main env)))
        /\ key_nodup (Roles.g_group_ids st)
        /\ forall x, Py.set_mem x (Roles.g_group_ids st) = true
                     <-> exists entry,
                           In entry (Roles.g_details st)
                           /\ group_of_detail entry x)
  /\ requests (events (AppConfiguration.main env))
     = [fetch_event AppConfigurationModule env]
  /\ requests (events (Roles.main env)) = [fetch_event RolesModule env]
  /\ exists script_ids,
       requests (events (DeviceCompliance.main env))
       = fetch_event DeviceComplianceModule env
           :: List.map (script_request env) script_ids.
Proof.
  split; [|split; [|split; [|split; [|split]]]].
  - intros g value items ids Hf Hv Ht Hi Hc. split.
    + apply stage_calls_intro; [exact Horder|].
      eapply app_batch_calls; eauto.
    + apply (harvested_set (fun s => s) _ _ [] items ids adds_collect_apps eq_refl Hc).
  - intros g st Hf Hg. split.
    + apply stage_calls_intro; [exact Horder|].
      rewrite dc_template_calls, Hf, Hg.
      destruct (DeviceCompliance.g_template_ids st); reflexivity.
    + destruct (dc_gather_harvest env g st Hg) as (m & Hm).
      apply (harvested_set snd _ _ ([], []) _ _ adds_scheduled_step eq_refl Hm).
  - intros g value st Hw Hf Hv Hg. split.
    + apply stage_calls_intro; [exact Horder|].
      rewrite (roles_group_calls env g value st Hw Hf Hv Hg).
      destruct (Roles.g_group_ids st); reflexivity.
    + pose proof (roles_gather_harvest env value st Hg) as Hm.
      apply (harvested_set (fun s => s) _ _ [] _ _ adds_collect_groups eq_refl Hm).
  - pose proof (main_requests AppConfigurationModule env) as Hreq.
    cbn [main_of] in Hreq. rewrite Hreq. clear Hreq.
    destruct (primary_fetch AppConfigurationModule env); [|reflexivity].
    cbn [enrich_of]. rewrite app_enrich_no_requests. reflexivity.
  - pose proof (main_requests RolesModule env) as Hreq.
    cbn [main_of] in Hreq. rewrite Hreq. clear Hreq.
    destruct (primary_fetch RolesModule env); [|reflexivity].
    cbn [enrich_of]. rewrite roles_enrich_no_requests. reflexivity.
  - pose proof (main_requests DeviceComplianceModule env) as Hreq.
    cbn [main_of] in Hreq. rewrite Hreq. clear Hreq.
    destruct (primary_fetch DeviceComplianceModule env) as [g|];
      [|exists []; reflexivity].
    cbn [enrich_of].
    destruct (dc_enrich_requests_are_lookups env g) as [ids ->]. eauto.
Qed.

Lemma C3_witness :
  (forall s, Permutation (set_order three_configurations_env s) s)
  /\ rfoldM AppConfiguration.collect_apps []
       [JDict [("id", JStr "cfg1"); ("targetedMobileApps", JList [JStr "app1"])];
        JDict [("id", JStr "cfg2"); ("targetedMobileApps", JList [JStr "app1"])];
        JDict [("id", JStr "cfg3"); ("targetedMobileApps", JList [JStr "app2"])]]
     = Ret [JStr "app1"; JStr "app2"]
  /\ batch_calls AppConfiguration.APP_ENDPOINT
       (events (AppConfiguration.main three_configurations_env))
     = [[id_item (JStr "app1"); id_item (JStr "app2")]]
  /\ stage_calls three_configurations_env [JStr "app1"; JStr "app2"]
       (batch_calls AppConfiguration.APP_ENDPOINT
          (events (AppConfiguration.main three_configurations_env)))
  /\ requests (events (AppConfiguration.main three_configurations_env))
     = [fetch_event AppConfigurationModule three_configurations_env]
  /\ (exists st,
        outcome (DeviceCompliance.gather compliance_env compliance_graph) = Ret st
        /\ DeviceCompliance.g_template_ids st = [JStr "tmpl1"; JStr "tmpl2"]
        /\ stage_calls compliance_env (DeviceCompliance.g_template_ids st)
             (batch_calls DeviceCompliance.TEMPLATES_URL
                (events (DeviceCompliance.main compliance_env))))
  /\ (exists st,
        outcome (Roles.gather roles_env (JList [helpdesk_role])) = Ret st
        /\ Roles.g_group_ids st = [JStr "g1"; JStr "g2"]
        /\ stage_calls roles_env (Roles.g_group_ids st)
             (batch_calls Roles.GROUPS_URL (events (Roles.main roles_env)))).
Proof.
  split; [intros s; apply Permutation_refl|].
  split; [reflexivity|]. split; [vm_compute; reflexivity|].
  split; [|split; [|split]].
  - exact (proj1 (proj1 (C3_one_batch_call_over_deduplicated_ids
                           three_configurations_env
                           (fun s => Permutation_refl s))
                    three_configurations _ _ _ eq_refl eq_refl eq_refl eq_refl
                    eq_refl)).
  - exact (proj1 (proj2 (proj2 (proj2 (C3_one_batch_call_over_deduplicated_ids
                                         three_configurations_env
                                         (fun s => Permutation_refl s)))))).
  - eexists. split; [vm_compute; reflexivity|]. split; [reflexivity|].
    exact (proj1 (proj1 (proj2 (C3_one_batch_call_over_deduplicated_ids
                                  compliance_env (fun s => Permutation_refl s)))
                    compliance_graph _ eq_refl eq_refl)).
  - eexists. split; [vm_compute; reflexivity|]. split; [reflexivity|].
    exact (proj1 (proj1 (proj2 (proj2 (C3_one_batch_call_over_deduplicated_ids
                                         roles_env (fun s => Permutation_refl s))))
                    roles_graph (JList [helpdesk_role]) _ eq_refl eq_refl eq_refl
                    eq_refl)).
Defined.

(** ** One lookup per detection script *)

Lemma set_mem_perm x l l' :
  Permutation l l' -> Py.set_mem x l = Py.set_mem x l'.
Proof.
  unfold Py.set_mem.
  induction 1 as [|y l l' _ IH|y z l|l1 l2 l3 _ IH1 _ IH2]; cbn [existsb].
  - reflexivity.
  - rewrite IH. reflexivity.
  - destruct (Py.key_eqb x y), (Py.key_eqb x z); reflexivity.
  - congruence.
Qed.

Lemma key_nodup_perm l l' : Permutation l l' -> key_nodup l -> key_nodup l'.
Proof.
  induction 1 as [|y l l' Hp IH|y z l|l1 l2 l3 _ IH1 _ IH2]; cbn [key_nodup].
  - auto.
  - intros [Hy Hl]. split; [rewrite <- (set_mem_perm y l l' Hp); exact Hy|auto].
  - intros (Hz & Hy & Hl). unfold Py.set_mem in *. cbn [existsb] in *.
    apply orb_false_elim in Hz as [Hzy Hzl].
    rewrite (key_eqb_sym y z), Hzy, Hy, Hzl. auto.
  - auto.
Qed.

(** X19.  DeviceCompliance looks the detection scripts up one request per
    distinct script id.  With the ids the collection loop gathers from the
    fetched records (iterating a set visits each of its elements once): the
    ids in iteration order hold no duplicate and are exactly the ids read
    from the records; the single requests of a run of [main] are the primary
    fetch followed by the lookups of a prefix of these ids, one request
    each; and they are the lookups of all of them whenever the run reaches
    the persistence call. *)
Theorem X19_one_script_request_per_distinct_id (env : Env)
    (Horder : forall s, Permutation (set_order env s) s)
    (g : json) (items : list json)
    (script_ids : Py.pyset) (scheduled : list json)
    (Hfetch : primary_fetch DeviceComplianceModule env = Ret g)
    (Hvalue : Py.getitem g "value" = Ret (JList items))
    (Hcollect : rfoldM (DeviceCompliance.collect_step env) ([], []) items
                = Ret (script_ids, scheduled)) :
  key_nodup (set_order env script_ids)
  /\ (forall x, Py.set_mem x (set_order env script_ids) = true
                <-> exists item, In item items /\ script_of_record env item x)
  /\ (exists n,
         requests (events (DeviceCompliance.main env))
         = fetch_event DeviceComplianceModule env
             :: List.map (script_request env) (firstn n (set_order env script_ids)))
  /\ (forall data,
         In data (persisted (events (DeviceCompliance.main env))) ->
         requests (events (DeviceCompliance.main env))
         = fetch_event DeviceComplianceModule env
             :: List.map (script_request env) (set_order env script_ids)).
Proof.
  destruct (harvested_set fst (DeviceCompliance.collect_step env)
              (script_of_record env) ([], []) items (script_ids, scheduled)
              (adds_collect_step env) eq_refl Hcollect) as [Hn Hm].
  cbn [fst] in Hn, Hm.
  pose proof (Horder script_ids) as Hperm.
  split; [apply (key_nodup_perm script_ids); [symmetry; exact Hperm|exact Hn]|].
  split; [intros x; rewrite (set_mem_perm x _ _ Hperm); apply Hm|].
  assert (Hreq : requests (events (DeviceCompliance.main env))
                 = fetch_event DeviceComplianceModule env
                     :: events (DeviceCompliance.fetch_scripts env script_ids)).
  { pose proof (main_requests DeviceComplianceModule env) as Hreq.
    cbn [main_of] in Hreq. rewrite Hreq, Hfetch. clear Hreq. cbn [enrich_of].
    rewrite (dc_enrich_requests env g (JList items) items script_ids scheduled
               Hvalue eq_refl Hcollect).
    reflexivity. }
  destruct (fetch_scripts_events env script_ids) as [[n Hprefix] Hall].
  split; [exists n; rewrite Hreq, Hprefix; reflexivity|].
  intros data Hdata. rewrite Hreq. f_equal.
  pose proof (persisted_from_enrich DeviceComplianceModule env g data Hfetch Hdata)
    as Hen.
  cbn [enrich_of] in Hen. unfold DeviceCompliance.enrich in Hen.
  apply mbind_outcome_ret in Hen. destruct Hen as (st & Hst & _).
  unfold DeviceCompliance.gather in Hst.
  rewrite outcome_lift_bind, Hvalue, outcome_lift_bind in Hst.
  cbn [Py.iter] in Hst. rewrite outcome_lift_bind, Hcollect in Hst.
  apply mbind_outcome_ret in Hst. destruct Hst as (m & Hm' & _).
  apply (Hall (Permutation_nil (Permutation_sym (Horder []))) m Hm').
Qed.

Lemma X19_witness :
  key_nodup (set_order linux_env [JStr "script-1"])
  /\ (forall x, Py.set_mem x (set_order linux_env [JStr "script-1"]) = true
                <-> exists item, In item [linux_policy]
                                 /\ script_of_record linux_env item x)
  /\ (exists n,
         requests (events (DeviceCompliance.main linux_env))
         = fetch_event DeviceComplianceModule linux_env
             :: List.map (script_request linux_env)
                  (firstn n (set_order linux_env [JStr "script-1"])))
  /\ (forall data,
         In data (persisted (events (DeviceCompliance.main linux_env))) ->
         requests (events (DeviceCompliance.main linux_env))
         = fetch_event DeviceComplianceModule linux_env
             :: List.map (script_request linux_env)
                  (set_order linux_env [JStr "script-1"])).
Proof.
  apply (X19_one_script_request_per_distinct_id linux_env
           (fun s => Permutation_refl s)
           (JDict [("value", JList [linux_policy])]) [linux_policy]
           [JStr "script-1"] [id_item (JStr "lp1")]).
  - reflexivity.
  - reflexivity.
  - vm_compute. reflexivity.
Defined.


(** ** The maps of the resolvers, read off the responses *)

Lemma key_eqb_refl k : Py.hashable k = true -> Py.key_eqb k k = true.
Proof.
  destruct k as [|b|z|s|l|kvs]; cbn; try discriminate; intros _.
  - reflexivity.
  - destruct b; reflexivity.
  - apply Z.eqb_refl.
  - apply String.eqb_refl.
Qed.

Lemma map_find_put_eq {V} x k (v : V) m :
  Py.key_eqb x k = true -> Py.map_find x (Py.map_put k v m) = Some v.
Proof.
  intros Hxk. induction m as [|[k' v'] m IH]; cbn [Py.map_put Py.map_find].
  - rewrite Hxk. reflexivity.
  - destruct (Py.key_eqb k k') eqn:Hkk; cbn [Py.map_find].
    + rewrite (key_eqb_trans x k k' Hxk Hkk). reflexivity.
    + destruct (Py.key_eqb x k') eqn:Hxk'; [|exact IH].
      exfalso. rewrite key_eqb_sym in Hxk.
      rewrite (key_eqb_trans k x k' Hxk Hxk') in Hkk. discriminate.
Qed.

Lemma map_find_put_other {V} x k (v : V) m :
  Py.key_eqb x k = false -> Py.map_find x (Py.map_put k v m) = Py.map_find x m.
Proof.
  intros Hxk. induction m as [|[k' v'] m IH]; cbn [Py.map_put Py.map_find].
  - rewrite Hxk. reflexivity.
  - destruct (Py.key_eqb k k') eqn:Hkk; cbn [Py.map_find].
    + destruct (Py.key_eqb x k') eqn:Hxk'; [|reflexivity].
      exfalso. rewrite key_eqb_sym in Hkk.
      rewrite (key_eqb_trans x k' k Hxk' Hkk) in Hxk. discriminate.
    + destruct (Py.key_eqb x k'); [reflexivity|exact IH].
Qed.









(** ** AppConfiguration on well-formed input *)








(** ** The final loop of DeviceCompliance, record by record *)

Lemma enrich_action_written env templates a a' :
  DeviceCompliance.enrich_action env templates a = Ret a' ->
  action_written env (config_enriched env templates) a a'.
Proof.
  intros H. unfold DeviceCompliance.enrich_action in H.
  apply rbind_ret in H. destruct H as (a1 & H1 & H).
  apply rbind_ret in H. destruct H as (configs & Hget & H).
  exists a1. split; [exact H1|].
  destruct a1 as [| | | | |kvs1]; try discriminate.
  cbn [Py.get] in Hget. injection Hget as <-. cbn [field_of].
  destruct (Py.dict_get "scheduledActionConfigurations" kvs1) as [cs|].
  - apply rbind_ret in H. destruct H as (cs' & Hloop & H).
    exists cs'. split; [exact H|]. intros l ->.
    apply for_each_list in Hloop as (l' & -> & HF). eauto.
  - injection H as <-. reflexivity.
Qed.

Lemma for_each_actions_written env templates v v' :
  for_each v (DeviceCompliance.enrich_action env templates) = Ret v' ->
  actions_written env (config_enriched env templates) v v'.
Proof.
  intros H actions ->.
  apply for_each_list in H as (actions' & -> & HF).
  exists actions'. split; [reflexivity|].
  eapply Forall2_impl; [|exact HF]. intros a a' Ha.
  apply enrich_action_written. exact Ha.
Qed.

Lemma actions_written_impl env (W W' : json -> json -> Prop) v v' :
  (forall c c', W c c' -> W' c c') ->
  actions_written env W v v' -> actions_written env W' v v'.
Proof.
  intros HW H actions Hv. destruct (H actions Hv) as (actions' & -> & HF).
  exists actions'. split; [reflexivity|].
  eapply Forall2_impl; [|exact HF].
  intros a a' (a1 & H1 & Hrest). exists a1. split; [exact H1|].
  destruct (field_of "scheduledActionConfigurations" a1) as [cs|]; [|exact Hrest].
  destruct Hrest as (cs' & Hset & Hl). exists cs'. split; [exact Hset|].
  intros l Hcs. destruct (Hl l Hcs) as (l' & -> & HF'). exists l'.
  split; [reflexivity|]. eapply Forall2_impl; [|exact HF']. exact HW.
Qed.

Lemma enrich_config_zero_guid env templates c c' :
  config_enriched env templates c c' -> zero_guid_left_alone env c c'.
Proof.
  unfold config_enriched. intros H kvs -> Hid.
  unfold DeviceCompliance.enrich_config, Py.get_none, Py.get_or, Py.get in H.
  cbn [rbind] in H. rewrite Hid in H.
  change (remove_keys env (JDict kvs) = Ret c') in H.
  split; [exact H|]. intros Hrk Hnone.
  destruct c' as [| | | | |kvs']; try reflexivity.
  cbn [field_of]. apply (Hrk kvs kvs' H Hnone).
Qed.


(** One turn of the final loop: what it appends and what it leaves in the
    store. *)
Lemma dc_process_step_char env scripts templates store done item store1 done1 :
  DeviceCompliance.process_step env scripts templates (store, done) item
  = Ret (store1, done1) ->
  exists id y,
    Py.getitem item "id" = Ret id
    /\ Py.hashable id = true
    /\ done1 = done ++ [y]
    /\ match Py.map_find id store with
       | Some actions =>
           exists kvs2 actions',
             y = (JDict kvs2, Some id)
             /\ for_each actions (DeviceCompliance.enrich_action env templates)
                = Ret actions'
             /\ store1 = Py.map_put id actions' store
       | None =>
           exists item2,
             y = (item2, None)
             /\ field_of "scheduledActionsForRule" item2 = Some (JList [])
             /\ store1 = store
       end.
Proof.
  intros H. unfold DeviceCompliance.process_step in H.
  apply rbind_ret in H. destruct H as (item1 & H1 & H).
  apply rbind_ret in H. destruct H as (id & Hid & H).
  apply rbind_ret in H. destruct H as (found & Hfound & H).
  assert (Hid0 : Py.getitem item "id" = Ret id).
  { destruct (dc_add_script_name_same env "id" scripts item item1 H1)
      as [<- | (Hd & Hd1 & Hsame)]; [discriminate|exact Hid|].
    destruct item as [| | | | |kvs]; try discriminate.
    destruct item1 as [| | | | |kvs1]; try discriminate.
    cbn [field_of] in Hsame. unfold Py.getitem in *. rewrite <- Hsame.
    exact Hid. }
  unfold Py.map_get in Hfound.
  destruct (Py.hashable id) eqn:Hh; [|discriminate]. injection Hfound as <-.
  exists id. destruct (Py.map_find id store) as [actions|].
  - apply rbind_ret in H. destruct H as (item2 & Hset & H).
    apply rbind_ret in H. destruct H as (actions' & Hloop & H).
    injection H as <- <-.
    destruct item1 as [| | | | |kvs1]; try discriminate.
    cbn [Py.setitem] in Hset. injection Hset as <-.
    eexists. repeat split; try eassumption. eauto.
  - apply rbind_ret in H. destruct H as (item2 & Hset & H).
    injection H as <- <-.
    destruct item1 as [| | | | |kvs1]; try discriminate.
    cbn [Py.setitem] in Hset. injection Hset as <-.
    eexists. repeat split; try eassumption.
    eexists. repeat split. cbn [field_of]. apply dict_get_set_same.
Qed.

Lemma set_mem_false_In x s j :
  Py.set_mem x s = false -> In j s -> Py.key_eqb x j = false.
Proof.
  unfold Py.set_mem. intros H Hin.
  destruct (Py.key_eqb x j) eqn:Hxj; [|reflexivity].
  rewrite <- H. symmetry. apply existsb_exists. eauto.
Qed.

(** The final loop over records with pairwise distinct ids: each record
    ends with the actions the map held for its id at the start, enriched
    once. *)
Lemma dc_process_fold_char env scripts templates store0 :
  forall items ids store done store' done',
    rfoldM (DeviceCompliance.process_step env scripts templates) (store, done)
      items = Ret (store', done') ->
    record_ids items = Ret ids ->
    key_nodup ids ->
    (forall j, In j ids -> Py.map_find j store = Py.map_find j store0) ->
    exists new,
      done' = done ++ new
      /\ Forall2 (fun r y =>
                    exists id v',
                      Py.getitem r "id" = Ret id
                      /\ field_of "scheduledActionsForRule"
                           (DeviceCompliance.resolve store' y) = Some v'
                      /\ for_each (scheduled_for store0 id)
                           (DeviceCompliance.enrich_action env templates)
                         = Ret v')
           items new
      /\ forall k, Py.set_mem k ids = false ->
                   Py.map_find k store' = Py.map_find k store.
Proof.
  induction items as [|x xs IH]; intros ids store done store' done' H Hids Hnd Hinv.
  - cbn in H, Hids. injection H as <- <-. injection Hids as <-.
    exists []. rewrite app_nil_r. split; [reflexivity|]. split; [constructor|auto].
  - cbn [rfoldM] in H. apply rbind_ret in H. destruct H as ([store1 done1] & Hstep & H).
    unfold record_ids in Hids. cbn [rmapM] in Hids.
    apply rbind_ret in Hids. destruct Hids as (i & Hi & Hids).
    apply rbind_ret in Hids. destruct Hids as (rest_ids & His & Hids).
    injection Hids as <-. cbn [key_nodup] in Hnd. destruct Hnd as [Hfresh Hnd].
    destruct (dc_process_step_char _ _ _ _ _ _ _ _ Hstep)
      as (id & y & Hid & Hh & -> & Hcase).
    rewrite Hi in Hid. injection Hid as <-.
    assert (Hstore1 : forall k, Py.key_eqb k i = false ->
                                Py.map_find k store1 = Py.map_find k store).
    { intros k Hk. destruct (Py.map_find i store) as [actions|].
      - destruct Hcase as (kvs2 & actions' & _ & _ & ->).
        apply map_find_put_other. exact Hk.
      - destruct Hcase as (item2 & _ & _ & ->). reflexivity. }
    destruct (IH rest_ids store1 (done ++ [y]) store' done' H His Hnd)
      as (new & -> & HF & Hframe).
    { intros j Hj. rewrite Hstore1.
      - apply Hinv. right. exact Hj.
      - rewrite key_eqb_sym. apply (set_mem_false_In i rest_ids j Hfresh Hj). }
    exists (y :: new). rewrite <- app_assoc. split; [reflexivity|]. split.
    + constructor; [|exact HF].
      exists i. unfold scheduled_for.
      rewrite <- (Hinv i (or_introl eq_refl)).
      destruct (Py.map_find i store) as [actions|] eqn:Hfind.
      * destruct Hcase as (kvs2 & actions' & -> & Hloop & ->).
        exists actions'. split; [exact Hi|]. split; [|exact Hloop].
        cbn [DeviceCompliance.resolve].
        rewrite (Hframe i Hfresh).
        rewrite (map_find_put_eq i i actions' store (key_eqb_refl i Hh)).
        cbn [field_of]. apply dict_get_set_same.
      * destruct Hcase as (item2 & -> & Hfield & ->).
        exists (JList []). split; [exact Hi|]. split; [|reflexivity].
        destruct item2; exact Hfield.
    + intros k Hk. unfold Py.set_mem in Hk. cbn [existsb] in Hk.
      apply orb_false_elim in Hk as [Hki Hkis].
      rewrite (Hframe k Hkis). apply Hstore1. exact Hki.
Qed.

(** The records DeviceCompliance persists, when the fetched records have
    pairwise distinct ids. *)
Lemma dc_persisted_actions env g items ids st data :
  primary_fetch DeviceComplianceModule env = Ret g ->
  Py.getitem g "value" = Ret (JList items) ->
  record_ids items = Ret ids ->
  key_nodup ids ->
  outcome (DeviceCompliance.gather env g) = Ret st ->
  outcome (DeviceCompliance.enrich env g) = Ret data ->
  exists templates items',
    outcome (DeviceCompliance.fetch_templates env
               (DeviceCompliance.g_template_ids st)) = Ret templates
    /\ data = JList items'
    /\ Forall2 (policy_actions_written env (config_enriched env templates)
                  (DeviceCompliance.g_scheduled st))
         items items'.
Proof.
  intros Hf Hv Hids Hnd Hg H.
  unfold DeviceCompliance.enrich in H.
  apply mbind_outcome_ret in H. destruct H as (st' & Hst' & H).
  rewrite Hg in Hst'. injection Hst' as <-.
  destruct (dc_gather_items env g st items Hg Hv) as [Hval Hit].
  unfold DeviceCompliance.finish in H.
  apply mbind_outcome_ret in H. destruct H as (templates & Ht & H).
  apply mbind_outcome_ret in H. destruct H as ([store' done'] & Hfold & H).
  rewrite outcome_lift in Hfold. rewrite Hit in Hfold.
  unfold mret, outcome in H. cbn [snd] in H. injection H as <-.
  destruct (dc_process_fold_char env (DeviceCompliance.g_scripts st) templates
              (DeviceCompliance.g_scheduled st) items ids _ [] store' done'
              Hfold Hids Hnd (fun _ _ => eq_refl))
    as (new & Hdone & HF & _).
  cbn [app] in Hdone. subst done'.
  exists templates, (List.map (DeviceCompliance.resolve store') new).
  split; [exact Ht|]. split; [rewrite Hval; reflexivity|].
  apply Forall2_map_r. eapply Forall2_impl; [|exact HF].
  intros r y (id & v' & Hid & Hfield & Hloop).
  exists id, v'. split; [exact Hid|]. split; [exact Hfield|].
  apply for_each_actions_written. exact Hloop.
Qed.


(** ** The final loop of DeviceCompliance does not raise on well-formed data *)















(** ** C5: an identifier the resolver does not resolve *)




(** ** C8: the all-zero GUID *)

(** C8.  In DeviceCompliance the all-zero GUID is never harvested as a
    notification template id: no item of a batch call for notification
    templates carries it (provided iterating a set yields elements of the
    set), and the harvest of line 187 passes over a configuration whose
    [notificationTemplateId] is the all-zero GUID.  In the records handed to
    the persistence call (fetched with pairwise distinct ids), position by
    position, every scheduled action is the correlated action after
    [remove_keys], and every configuration of it whose
    [notificationTemplateId] is the all-zero GUID is that configuration
    after [remove_keys]: the loop of lines 223-226 attaches no
    [notificationTemplateName] to it, and it has none when it was fetched
    without one and [remove_keys] adds none.  The single-item helper
    [_get_notification_template] sends no request for such a configuration
    and leaves it as it is. *)
Theorem C8_zero_guid_not_harvested (env : Env)
    (Horder : forall s x, In x (set_order env s) -> In x s) :
  Forall (fun data =>
            Forall (fun item => exists x, item = id_item x /\ nonzero_id x) data)
    (batch_calls DeviceCompliance.TEMPLATES_URL (events (DeviceCompliance.main env)))
  /\ (forall ids kvs,
        Py.dict_get "notificationTemplateId" kvs
        = Some (JStr DeviceCompliance.ZERO_GUID) ->
        DeviceCompliance.harvest_config ids (JDict kvs) = Ret ids)
  /\ (forall g items ids st data,
        primary_fetch DeviceComplianceModule env = Ret g ->
        Py.getitem g "value" = Ret (JList items) ->
        record_ids items = Ret ids ->
        key_nodup ids ->
        outcome (DeviceCompliance.gather env g) = Ret st ->
        In data (persisted (events (DeviceCompliance.main env))) ->
        exists items',
          data = JList items'
          /\ Forall2 (policy_actions_written env (zero_guid_left_alone env)
                        (DeviceCompliance.g_scheduled st))
               items items')
  /\ (forall templates kvs,
        Py.dict_get "notificationTemplateId" kvs
        = Some (JStr DeviceCompliance.ZERO_GUID) ->
        DeviceCompliance.enrich_config env templates (JDict kvs)
        = remove_keys env (JDict kvs))
  /\ (forall kvs,
        Py.dict_get "notificationTemplateId" kvs
        = Some (JStr DeviceCompliance.ZERO_GUID) ->
        DeviceCompliance.notify_action env (JDict kvs) = ([], Ret (JDict kvs))).
Proof.
  split; [|split; [|split; [|split]]].
  - rewrite dc_template_calls.
    destruct (primary_fetch DeviceComplianceModule env) as [g|]; [|constructor].
    destruct (outcome (DeviceCompliance.gather env g)) as [st|] eqn:Hg;
      [|constructor].
    pose proof (dc_gather_nonzero env g st Hg) as Hnz.
    destruct (DeviceCompliance.g_template_ids st) as [|x xs]; [constructor|].
    constructor; [|constructor].
    apply Forall_forall. intros item Hin.
    apply in_map_iff in Hin as (y & <- & Hy).
    exists y. split; [reflexivity|].
    apply Horder in Hy. revert y Hy. apply Forall_forall. exact Hnz.
  - intros ids kvs Hid. unfold DeviceCompliance.harvest_config, Py.get_none,
      Py.get_or, Py.get. simpl. rewrite Hid. reflexivity.
  - intros g items ids st data Hf Hv Hids Hnd Hg Hdata.
    pose proof (persisted_from_enrich DeviceComplianceModule env g data Hf Hdata)
      as Hen.
    cbn [enrich_of] in Hen.
    destruct (dc_persisted_actions env g items ids st data Hf Hv Hids Hnd Hg Hen)
      as (templates & items' & _ & -> & HF).
    exists items'. split; [reflexivity|].
    eapply Forall2_impl; [|exact HF].
    intros r r' (id & v' & Hid & Hfield & Hw).
    exists id, v'. split; [exact Hid|]. split; [exact Hfield|].
    eapply actions_written_impl; [|exact Hw].
    intros c c'. apply enrich_config_zero_guid.
  - intros templates kvs Hid. unfold DeviceCompliance.enrich_config, Py.get_none,
      Py.get_or, Py.get. simpl. rewrite Hid. reflexivity.
  - intros kvs Hid. unfold DeviceCompliance.notify_action, Py.get_none,
      Py.get_or, Py.get. simpl. rewrite Hid. reflexivity.
Qed.

Lemma C8_witness :
  (forall s x, In x (set_order compliance_env s) -> In x s)
  /\ batch_calls DeviceCompliance.TEMPLATES_URL
       (events (DeviceCompliance.main compliance_env))
     = [[id_item (JStr "tmpl1"); id_item (JStr "tmpl2")]]
  /\ Forall (fun data =>
               Forall (fun item => exists x, item = id_item x /\ nonzero_id x) data)
       (batch_calls DeviceCompliance.TEMPLATES_URL
          (events (DeviceCompliance.main compliance_env)))
  /\ In compliance_output (persisted (events (DeviceCompliance.main compliance_env)))
  /\ exists st,
       outcome (DeviceCompliance.gather compliance_env compliance_graph) = Ret st
       /\ exists items',
            compliance_output = JList items'
            /\ Forall2 (policy_actions_written compliance_env
                          (zero_guid_left_alone compliance_env)
                          (DeviceCompliance.g_scheduled st))
                 [JDict [("id", JStr "p1"); ("name", JStr "Windows baseline")];
                  JDict [("id", JStr "p2"); ("name", JStr "Kiosk")];
                  JDict [("id", JStr "p3"); ("name", JStr "Phones")]]
                 items'.
Proof.
  split; [intros s x H; exact H|].
  split; [vm_compute; reflexivity|].
  split; [exact (proj1 (C8_zero_guid_not_harvested compliance_env (fun s x H => H)))|].
  assert (Hin : In compliance_output
                  (persisted (events (DeviceCompliance.main compliance_env)))).
  { vm_compute. left. reflexivity. }
  split; [exact Hin|].
  eexists. split; [vm_compute; reflexivity|].
  apply (proj1 (proj2 (proj2 (C8_zero_guid_not_harvested compliance_env
                                (fun s x H => H))))
           compliance_graph _ [JStr "p1"; JStr "p2"; JStr "p3"] _ compliance_output).
  - reflexivity.
  - reflexivity.
  - reflexivity.
  - cbn. auto.
  - vm_compute. reflexivity.
  - exact Hin.
Defined.





